(** * doltpy: the command-line wrapper, the table writers and the loaders

    A shallow embedding of [doltpy/cli/dolt.py], [doltpy/cli/write/write.py]
    and [doltpy/etl/loaders.py].

    The external [dolt] binary is not part of the repository: it is a
    parameter [run] of the development, and one call of [run] is one
    spawned process.  Every method of the [Dolt] class is a computation in a
    state-and-exception monad whose state holds the external world, the
    set of paths that exist in the file system, the argument vectors of the
    processes spawned so far and the log records of level WARNING and above
    (the level Python's logging keeps by default; [logger.info] records are
    not kept).

    What is assumed of the platform: spawning a process and creating,
    testing or removing a file do not raise by themselves; the output of a
    process is ASCII text, and [Py.isspace] is Python's [str.isspace] on the
    code points below 128; the text written to a staging file is not
    modelled, only that the file exists; a dataframe transformer reads and
    edits the frame it is called on and nothing else of the process. *)

From Stdlib Require Import String Ascii List ZArith Bool Lia DecimalString.
From stdpp Require Import base gmap strings list.
Import ListNotations.
Local Open Scope string_scope.
Local Open Scope list_scope.

(** ** Python's string and list primitives used by the sources *)

Module Py.

Definition nl : string := String "010" EmptyString.

(** [str.isspace] for one ASCII character: TAB, LF, VT, FF, CR, the four
    separators FS, GS, RS, US, and the space. *)
Definition isspace (c : ascii) : bool :=
  let n := nat_of_ascii c in
  (((9 <=? n) && (n <=? 13)) || ((28 <=? n) && (n <=? 32)))%nat.

(** [bool(s)] of a string: non-empty. *)
Definition truthy (s : string) : bool :=
  match s with EmptyString => false | String _ _ => true end.

(** [bool(o)] of an [Optional[str]]. *)
Definition otruthy (o : option string) : bool :=
  match o with Some s => truthy s | None => false end.

(** [bool(l)] of a list or of an [Optional[List]]. *)
Definition ltruthy {A} (l : list A) : bool :=
  match l with [] => false | _ :: _ => true end.

Definition oltruthy {A} (o : option (list A)) : bool :=
  match o with Some l => ltruthy l | None => false end.

(** [s.startswith(p)] *)
Definition startswith (p s : string) : bool := String.prefix p s.

(** [s.lstrip()] *)
Fixpoint lstrip (s : string) : string :=
  match s with
  | EmptyString => EmptyString
  | String c s' => if isspace c then lstrip s' else s
  end.

(** [s.rstrip()] *)
Fixpoint rstrip (s : string) : string :=
  match s with
  | EmptyString => EmptyString
  | String c s' =>
      match rstrip s' with
      | EmptyString => if isspace c then EmptyString else String c EmptyString
      | r => String c r
      end
  end.

(** [s.strip()] *)
Definition strip (s : string) : string := rstrip (lstrip s).

(** [s[1:]] *)
Definition drop1 (s : string) : string :=
  match s with EmptyString => EmptyString | String _ s' => s' end.

(** [s.split()]: the maximal runs of non-blank characters. *)
Fixpoint split_go (cur : string) (s : string) : list string :=
  match s with
  | EmptyString => if truthy cur then [cur] else []
  | String c s' =>
      if isspace c
      then (if truthy cur then cur :: split_go EmptyString s' else split_go EmptyString s')
      else split_go (cur ++ String c EmptyString) s'
  end.

Definition split (s : string) : list string := split_go EmptyString s.

(** [s.split(sep)] for a one-character separator: always at least one
    field, empty fields are kept. *)
Fixpoint split_on_go (sep : ascii) (cur : string) (s : string) : list string :=
  match s with
  | EmptyString => [cur]
  | String c s' =>
      if Ascii.eqb c sep
      then cur :: split_on_go sep EmptyString s'
      else split_on_go sep (cur ++ String c EmptyString) s'
  end.

Definition split_on (sep : ascii) (s : string) : list string :=
  split_on_go sep EmptyString s.

(** [sep.join(l)] *)
Definition join (sep : string) (l : list string) : string := String.concat sep l.

(** [sub in s] *)
Fixpoint contains (sub s : string) : bool :=
  String.prefix sub s ||
  match s with
  | EmptyString => false
  | String _ s' => contains sub s'
  end.

(** [x in l] for a list of strings. *)
Definition mem (x : string) (l : list string) : bool :=
  existsb (String.eqb x) l.

(** [int(s)] on a field without blanks: an optional sign, then decimal
    digits, single underscores allowed between digits. *)
Definition digit (c : ascii) : option Z :=
  let n := nat_of_ascii c in
  if ((48 <=? n) && (n <=? 57))%nat then Some (Z.of_nat (n - 48)) else None.

Fixpoint int_go (acc : Z) (after_digit : bool) (s : string) : option Z :=
  match s with
  | EmptyString => if after_digit then Some acc else None
  | String c s' =>
      match digit c with
      | Some d => int_go (10 * acc + d)%Z true s'
      | None =>
          if Ascii.eqb c "_" && after_digit
          then match s' with
               | String c' _ =>
                   match digit c' with Some _ => int_go acc false s' | None => None end
               | EmptyString => None
               end
          else None
      end
  end.

Definition int (s : string) : option Z :=
  match s with
  | String "-" s' => option_map Z.opp (int_go 0 false s')
  | String "+" s' => int_go 0 false s'
  | _ => int_go 0 false s
  end.

(** [s.endswith(p)] *)
Definition endswith (p s : string) : bool :=
  let n := String.length s in
  let m := String.length p in
  (m <=? n)%nat && String.eqb (String.substring (n - m) m s) p.

(** The characters of a string, each as a string: what [list.extend(s)]
    and [sep.join(s)] iterate over. *)
Definition chars (s : string) : list string :=
  map (fun c => String c EmptyString) (list_ascii_of_string s).

(** [s[n:]] *)
Fixpoint str_drop (n : nat) (s : string) : string :=
  match n, s with
  | O, _ => s
  | S n', String _ s' => str_drop n' s'
  | S _, EmptyString => EmptyString
  end.

(** [s[i]] for [i >= 0]: a one-character string, or no value past the end. *)
Definition str_index (s : string) (i : nat) : option string :=
  match str_drop i s with
  | String c _ => Some (String c EmptyString)
  | EmptyString => None
  end.

(** [s.replace(a, b)] for one-character [a] and [b]. *)
Fixpoint replace_char (a b : ascii) (s : string) : string :=
  match s with
  | EmptyString => EmptyString
  | String c s' => String (if Ascii.eqb c a then b else c) (replace_char a b s')
  end.

(** [s.split(sep)] for a non-empty separator [sep]; [skip] counts the
    characters of a separator just matched that are still to be passed. *)
Fixpoint split_str_go (sep : string) (skip : nat) (cur : string) (s : string)
  : list string :=
  match s with
  | EmptyString => [cur]
  | String c s' =>
      match skip with
      | S k => split_str_go sep k cur s'
      | O =>
          if String.prefix sep s
          then cur :: split_str_go sep (String.length sep - 1) EmptyString s'
          else split_str_go sep O (cur ++ String c EmptyString) s'
      end
  end.

Definition split_str (sep s : string) : list string :=
  split_str_go sep O EmptyString s.

(** [l[-1]] of a list of strings. *)
Definition last_item (l : list string) : option string := last l.

(** [os.path.join(a, b)] on a POSIX system. *)
Definition path_join (a b : string) : string :=
  if startswith "/" b then b
  else if negb (truthy a) || endswith "/" a then (a ++ b)%string
  else (a ++ "/" ++ b)%string.

End Py.

(** ** Exceptions, log records and the data classes of [dolt.py] *)

(** [DoltException(exec_args, stdout=None, stderr=None, exitcode=1)];
    [UserError] stands for whatever a caller-supplied callback raises. *)
Inductive exn :=
| ValueError (msg : string)
| IndexError
| KeyError (key : string)
| NotImplementedError (msg : string)
| DoltException (exec_args : string) (stdout stderr : option string) (exitcode : Z)
| UserError (msg : string).

Inductive result (A : Type) :=
| Ok (a : A)
| Raised (e : exn).
Arguments Ok {A} a.
Arguments Raised {A} e.

Definition is_ok {A} (r : result A) : bool :=
  match r with Ok _ => true | Raised _ => false end.

Inductive level := WARNING | ERROR.

(** What a finished process leaves: [proc.returncode] and the two pipes. *)
Record Proc := { exitcode : Z; out : string; err : string }.

(** A [datetime.datetime], kept as its [str(date)] rendering. *)
Record datetime := { str_of_datetime : string }.

(** A [float], kept as its truth value and its [str(x)] rendering. *)
Record pyfloat := { float_nonzero : bool; str_of_float : string }.

(** [l[i]] *)
Definition index {A} (l : list A) (i : nat) : result A :=
  match nth_error l i with Some x => Ok x | None => Raised IndexError end.

(** A [Dict[str, V]]: keys in insertion order, an assignment to a key
    already present keeps its place. *)
Definition dict (V : Type) := list (string * V).

Fixpoint dict_set {V} (k : string) (v : V) (d : dict V) : dict V :=
  match d with
  | [] => [(k, v)]
  | (k', v') :: d' =>
      if String.eqb k k' then (k, v) :: d' else (k', v') :: dict_set k v d'
  end.

Fixpoint dict_get {V} (k : string) (d : dict V) : option V :=
  match d with
  | [] => None
  | (k', v') :: d' => if String.eqb k k' then Some v' else dict_get k d'
  end.

Definition dict_keys {V} (d : dict V) : list string := map fst d.

(** Modelled from the spec: [to_list] of [doltpy/shared/helpers.py] is not
    among the sources; a loader takes "one or more" writers and [add] a
    table or a list of tables, so a single value becomes the one-element
    list and a list is returned as it is. *)
Definition to_list {A} (x : A + list A) : list A :=
  match x with inl a => [a] | inr l => l end.

(** [bool(x)] of an [Optional[Union[str, List[str]]]]. *)
Definition tables_truthy (x : option (string + list string)) : bool :=
  match x with
  | None => false
  | Some (inl s) => Py.truthy s
  | Some (inr l) => Py.ltruthy l
  end.

Definition tables_list (x : option (string + list string)) : list string :=
  match x with None => [] | Some y => to_list y end.

(** The string of an [Optional[str]] that was tested to be truthy. *)
Definition the (o : option string) : string := default EmptyString o.

Module DoltStatus.
Record t := mk {
  is_clean : bool;
  modified_tables : dict bool;
  added_tables : dict bool }.
End DoltStatus.

Module DoltTable.
Record t := mk {
  name : string;
  table_hash : option string;
  rows : option Z;
  system : bool }.
End DoltTable.

Module DoltBranch.
Record t := mk { name : string; commit_id : string }.
End DoltBranch.


(** [row[k]] on a row of the log query. *)
Definition getitem (row : dict string) (k : string) : result string :=
  match dict_get k row with Some v => Ok v | None => Raised (KeyError k) end.

Module DoltCommit.

(** [parent_or_parents: Optional[Union[str, Tuple[str, str]]]] *)
Inductive parents :=
| NoParent
| Parent (p : string)
| MergeParents (p q : string).

Record t := mk {
  ref : string;
  ts : string;
  author : string;
  email : string;
  message : string;
  parent_or_parents : parents }.

Definition is_merge (self : t) : bool :=
  match parent_or_parents self with MergeParents _ _ => true | _ => false end.

Definition set_parents (self : t) (p : parents) : t :=
  mk (ref self) (ts self) (author self) (email self) (message self) p.

(** The method updates [self] in place: the updated record is returned,
    with the warnings the call logged. *)
Definition append_merge_parent (self : t) (other_merge_parent : string)
  : result t * list (level * string) :=
  match parent_or_parents self with
  | MergeParents _ _ => (Raised (ValueError "Already has a merge parent set"), [])
  | NoParent => (Ok self, [(WARNING, "No merge parents set")])
  | Parent p =>
      if Py.truthy p
      then (Ok (set_parents self (MergeParents p other_merge_parent)), [])
      else (Ok self, [(WARNING, "No merge parents set")])
  end.

(** The loop of [parse_dolt_log_table] over the remaining rows;
    [commits] is the [OrderedDict] built so far. *)
Fixpoint parse_rows (rows : list (dict string)) (commits : dict t)
                    (logged : list (level * string))
  : result (dict t) * list (level * string) :=
  match rows with
  | [] => (Ok commits, logged)
  | row :: rest =>
      match getitem row "commit_hash" with
      | Raised e => (Raised e, logged)
      | Ok ref =>
          match dict_get ref commits with
          | Some c =>
              match getitem row "parent_hash" with
              | Raised e => (Raised e, logged)
              | Ok ph =>
                  match append_merge_parent c ph with
                  | (Raised e, w) => (Raised e, logged ++ w)
                  | (Ok c', w) => parse_rows rest (dict_set ref c' commits) (logged ++ w)
                  end
              end
          | None =>
              match getitem row "commit_hash", getitem row "date",
                    getitem row "committer", getitem row "email",
                    getitem row "message", getitem row "parent_hash" with
              | Ok r, Ok d, Ok a, Ok e, Ok m, Ok ph =>
                  parse_rows rest (dict_set ref (mk r d a e m (Parent ph)) commits) logged
              | Raised e, _, _, _, _, _
              | _, Raised e, _, _, _, _
              | _, _, Raised e, _, _, _
              | _, _, _, Raised e, _, _
              | _, _, _, _, Raised e, _
              | _, _, _, _, _, Raised e => (Raised e, logged)
              end
          end
      end
  end.

Definition parse_dolt_log_table (rows : list (dict string))
  : result (dict t) * list (level * string) :=
  parse_rows rows [] [].

(** A row as the log query returns it. *)
Definition log_row (commit_hash parent_hash committer email date message : string)
  : dict string :=
  [("commit_hash", commit_hash); ("parent_hash", parent_hash);
   ("committer", committer); ("email", email); ("date", date);
   ("message", message)].

End DoltCommit.

(** ** The state-and-exception monad *)

(** [world] is the state of whatever the binary acts on, [files] the paths
    that exist, [spawned] the argument vectors of the processes spawned so
    far (oldest first), [log] the records logged at WARNING and above. *)
Record State (W : Type) := mkState {
  world : W;
  files : gset string;
  spawned : list (list string);
  log : list (level * string) }.
Arguments mkState {W}.
Arguments world {W}.
Arguments files {W}.
Arguments spawned {W}.
Arguments log {W}.

Definition M (W A : Type) : Type := State W -> result A * State W.

Section Monad.

Context {W : Type}.

Definition ret {A} (a : A) : M W A := fun s => (Ok a, s).
Definition raise {A} (e : exn) : M W A := fun s => (Raised e, s).
Definition lift {A} (r : result A) : M W A := fun s => (r, s).

Definition bind {A B} (m : M W A) (k : A -> M W B) : M W B :=
  fun s =>
    match m s with
    | (Ok a, s') => k a s'
    | (Raised e, s') => (Raised e, s')
    end.

(** [try: m finally: cleanup] *)
Definition finally {A} (m : M W A) (cleanup : M W unit) : M W A :=
  fun s =>
    match m s with
    | (r, s') =>
        match cleanup s' with
        | (Ok _, s'') => (r, s'')
        | (Raised e, s'') => (Raised e, s'')
        end
    end.

End Monad.

Notation "'let*' x ':=' m 'in' k" := (bind m (fun x => k))
  (at level 10, x name, m at level 100, k at level 200).
Notation "'let*' ' p ':=' m 'in' k" := (bind m (fun x => match x with p => k end))
  (at level 10, p pattern, m at level 100, k at level 200).
Notation "m1 '>>' m2" := (bind m1 (fun _ => m2))
  (at level 100, m2 at level 200, right associativity).

Section MonadOps.

Context {W : Type}.

(** [for x in l: body(x)] *)
Fixpoint for_each {A} (l : list A) (body : A -> M W unit) : M W unit :=
  match l with
  | [] => ret tt
  | x :: l' => body x >> for_each l' body
  end.

(** [[f(x) for x in l]] *)
Fixpoint map_m {A B} (f : A -> M W B) (l : list A) : M W (list B) :=
  match l with
  | [] => ret []
  | x :: l' => let* y := f x in let* ys := map_m f l' in ret (y :: ys)
  end.

(** [logger.warning(msg)], [logger.error(msg)] *)
Definition logger (lv : level) (msg : string) : M W unit :=
  fun s => (Ok tt, mkState (world s) (files s) (spawned s) (log s ++ [(lv, msg)])).

(** [os.path.exists], [os.remove], and the creation of a file by
    [open(path, "w")] or [to_csv(path)]. *)
Definition path_exists (path : string) : M W bool :=
  fun s => (Ok (bool_decide (path ∈ files s)), s).

Definition os_remove (path : string) : M W unit :=
  fun s => (Ok tt, mkState (world s) (files s ∖ {[path]}) (spawned s) (log s)).

Definition create_file (path : string) : M W unit :=
  fun s => (Ok tt, mkState (world s) ({[path]} ∪ files s) (spawned s) (log s)).

End MonadOps.

(** ** The further data classes and exception classes

    [DoltRemote] and [DoltKeyPair] of [dolt.py]; and the exceptions raised
    by the code around the core: [AssertionError], [AttributeError] and
    [DoltDirectoryException], next to those of [exn]. *)

Module DoltRemote.
Record t := mk { name : string; url : string }.
End DoltRemote.

Module DoltKeyPair.
Record t := mk { public_key : string; key_id : string; active : bool }.
End DoltKeyPair.

Inductive exn_x :=
| Core (e : exn)
| AssertionError (msg : string)
| AttributeError (msg : string)
| DoltDirectoryException (message : string).

Inductive result_x (A : Type) :=
| OkX (a : A)
| RaisedX (e : exn_x).
Arguments OkX {A} a.
Arguments RaisedX {A} e.

Definition is_okx {A} (r : result_x A) : bool :=
  match r with OkX _ => true | RaisedX _ => false end.

(** The computations that may raise any of them. *)
Definition MX (W A : Type) : Type := State W -> result_x A * State W.

Section MonadX.

Context {W : Type}.

Definition retx {A} (a : A) : MX W A := fun s => (OkX a, s).
Definition raisex {A} (e : exn_x) : MX W A := fun s => (RaisedX e, s).

Definition bindx {A B} (m : MX W A) (k : A -> MX W B) : MX W B :=
  fun s =>
    match m s with
    | (OkX a, s') => k a s'
    | (RaisedX e, s') => (RaisedX e, s')
    end.

(** A computation of the core, run where the further exceptions may be
    raised too. *)
Definition core {A} (m : M W A) : MX W A :=
  fun s =>
    match m s with
    | (Ok a, s') => (OkX a, s')
    | (Raised e, s') => (RaisedX (Core e), s')
    end.

(** [try: m except AssertionError: handler] *)
Definition except_assertion {A} (m : MX W A) (handler : MX W A) : MX W A :=
  fun s =>
    match m s with
    | (RaisedX (AssertionError _), s') => handler s'
    | other => other
    end.

(** [with ctx as x: body]: [enter] is [ctx.__enter__()], whose value is
    bound to [x]; [leave] is [ctx.__exit__(...)], run however the body
    ends, and returning nothing, so that an exception of the body goes on. *)
Definition with_as {X A} (enter : MX W X) (leave : MX W unit) (body : X -> MX W A)
  : MX W A :=
  fun s =>
    match enter s with
    | (RaisedX e, s') => (RaisedX e, s')
    | (OkX x, s') =>
        match body x s' with
        | (r, s'') =>
            match leave s'' with
            | (OkX _, s3) => (r, s3)
            | (RaisedX e, s3) => (RaisedX e, s3)
            end
        end
    end.

(** [os.mkdir(path)] for a path that does not exist. *)
Definition os_mkdir (path : string) : M W unit :=
  fun s => (Ok tt, mkState (world s) ({[path]} ∪ files s) (spawned s) (log s)).

End MonadX.

Notation "'letx' x ':=' m 'in' k" := (bindx m (fun x => k))
  (at level 10, x name, m at level 100, k at level 200).
Notation "'letx' ' p ':=' m 'in' k" := (bindx m (fun x => match x with p => k end))
  (at level 10, p pattern, m at level 100, k at level 200).
Notation "m1 '>>>' m2" := (bindx m1 (fun _ => m2))
  (at level 100, m2 at level 200, right associativity).

(** ** [doltpy/cli/dolt.py]: the [Dolt] class *)

Module Dolt.

(** The handle: [Dolt(repo_dir)]. *)
Record t := mk { _repo_dir : string }.
Definition repo_dir (self : t) : string := _repo_dir self.

Section Engine.

(** The state of whatever the binary acts on. *)
Context {W : Type}.

(** [run cwd argv w fs]: spawn [argv] in directory [cwd] and wait for it;
    the process may change the world and the file system. *)
Variable run : option string -> list string -> W -> gset string -> W * gset string * Proc.

Abbreviation M := (M W).

(** *** [_execute] and [Dolt.execute] *)

Definition _execute (args : list string) (cwd : option string) : M string :=
  fun s =>
    let _args := "dolt" :: args in
    let str_args := Py.join " " (Py.split (Py.join " " args)) in
    match run cwd _args (world s) (files s) with
    | (w', fs', proc) =>
        let s' := mkState w' fs' (spawned s ++ [_args]) (log s) in
        if (exitcode proc =? 0)%Z
        then (Ok (out proc), s')
        else (Raised (DoltException str_args (Some (out proc)) (Some (err proc))
                                    (exitcode proc)),
              mkState w' fs' (spawned s ++ [_args]) (log s ++ [(ERROR, err proc)]))
    end.

Definition execute (self : t) (args : list string) (print_output : bool)
  : M (list string) :=
  let* output := _execute args (Some (repo_dir self)) in
  ret (Py.split_on "010" output).

(** *** [Dolt.status] *)

(** The loop over the output lines; [staged] is the section flag. *)
Fixpoint status_loop (output : list string) (staged : bool)
                     (changes new_tables : dict bool)
  : result (dict bool * dict bool) :=
  match output with
  | [] => Ok (changes, new_tables)
  | line :: rest =>
      let _line := Py.lstrip line in
      if Py.startswith "Changes to be committed" _line then
        status_loop rest true changes new_tables
      else if Py.startswith "Changes not staged for commit" _line then
        status_loop rest false changes new_tables
      else if Py.startswith "Untracked files" _line then
        status_loop rest false changes new_tables
      else if Py.startswith "modified" _line then
        match index (Py.split_on ":" _line) 1 with
        | Ok f => status_loop rest staged (dict_set (Py.lstrip f) staged changes) new_tables
        | Raised e => Raised e
        end
      else if Py.startswith "new table" _line then
        match index (Py.split_on ":" _line) 1 with
        | Ok f => status_loop rest staged changes (dict_set (Py.lstrip f) staged new_tables)
        | Raised e => Raised e
        end
      else status_loop rest staged changes new_tables
  end.

(** What [status] makes of the output lines of [dolt status]. *)
Definition status_of_output (output : list string) : result DoltStatus.t :=
  if Py.contains "clean" (Py.join Py.nl output)
  then Ok (DoltStatus.mk true [] [])
  else
    match status_loop output false [] [] with
    | Ok (changes, new_tables) => Ok (DoltStatus.mk false changes new_tables)
    | Raised e => Raised e
    end.

Definition status (self : t) : M DoltStatus.t :=
  let* output := execute self ["status"] false in
  lift (status_of_output output).

(** *** [Dolt.add], [Dolt.commit] *)

Definition add (self : t) (table_or_tables : string + list string)
  : M DoltStatus.t :=
  execute self (["add"] ++ to_list table_or_tables) true >>
  status self.

Definition commit (self : t) (message : string) (allow_empty : bool)
                  (date : option datetime) : M unit :=
  let args := ["commit"; "-m"; message] in
  let args := if allow_empty then args ++ ["--allow-empty"] else args in
  let args := match date with
              | Some d => args ++ ["--date"; str_of_datetime d]
              | None => args
              end in
  execute self args true >> ret tt.

(** *** [Dolt._get_branches] *)

(** The loop over the lines of the listing; it stops at the first empty
    line. *)
Fixpoint branches_loop (output : list string) (branches : list DoltBranch.t)
                       (active_branch : option DoltBranch.t)
  : result (list DoltBranch.t * option DoltBranch.t) :=
  match output with
  | [] => Ok (branches, active_branch)
  | line :: rest =>
      if negb (Py.truthy line) then Ok (branches, active_branch)
      else if Py.startswith "*" line then
        let split := Py.split (Py.drop1 (Py.lstrip line)) in
        match index split 0, index split 1 with
        | Ok branch, Ok commit =>
            let b := DoltBranch.mk branch commit in
            branches_loop rest (branches ++ [b]) (Some b)
        | Raised e, _ | _, Raised e => Raised e
        end
      else
        let split := Py.split (Py.lstrip line) in
        match index split 0, index split 1 with
        | Ok branch, Ok commit =>
            branches_loop rest (branches ++ [DoltBranch.mk branch commit]) active_branch
        | Raised e, _ | _, Raised e => Raised e
        end
  end.

(** What [_get_branches] makes of the output lines of the listing. *)
Definition branches_of_output (output : list string)
  : result (DoltBranch.t * list DoltBranch.t) :=
  match branches_loop output [] None with
  | Ok (branches, Some active_branch) => Ok (active_branch, branches)
  | Ok (_, None) =>
      Raised (DoltException "Failed to set active branch" None None 1)
  | Raised e => Raised e
  end.

Definition _get_branches (self : t) : M (DoltBranch.t * list DoltBranch.t) :=
  let* output := execute self ["branch"; "--list"; "--verbose"] true in
  lift (branches_of_output output).

(** *** [Dolt.checkout] *)

Definition checkout (self : t) (branch : option string)
                    (table_or_tables : option (string + list string))
                    (checkout_branch : bool) (start_point : option string)
  : M unit :=
  if tables_truthy table_or_tables && Py.otruthy branch then
    raise (ValueError
      "No table_or_tables may be provided when creating a branch with checkout")
  else
    let args := ["checkout"] in
    let args :=
      if Py.otruthy branch then
        let args :=
          if checkout_branch then
            let args := args ++ ["-b"] in
            if Py.otruthy start_point then args ++ [the start_point] else args
          else args in
        args ++ [the branch]
      else args in
    let args :=
      if tables_truthy table_or_tables
      then args ++ [Py.join " " (tables_list table_or_tables)]
      else args in
    execute self args true >> ret tt.

(** *** [Dolt.branch] *)

(** [[el for el in flags if el]] *)
Definition switch_count (flags : list bool) : list bool :=
  List.filter (fun el => el) flags.

Definition branch (self : t) (branch_name start_point new_branch : option string)
                  (force delete copy move : bool)
  : M (DoltBranch.t * list DoltBranch.t) :=
  if (1 <? length (switch_count [delete; copy; move]))%nat then
    raise (ValueError "At most one of delete, copy, move can be set to True")
  else if negb (Py.otruthy branch_name || delete || copy || move) then
    if force then
      raise (ValueError
        "force is not valid without providing a new branch name, or copy, move, or delete being true")
    else _get_branches self
  else
    let args := ["branch"] in
    let args := if force then args ++ ["--force"] else args in
    let execute_wrapper (command_args : list string) :=
      execute self command_args true >> _get_branches self in
    if Py.otruthy branch_name && negb (delete || copy || move) then
      let args := args ++ [the branch_name] in
      let args := if Py.otruthy start_point then args ++ [the start_point] else args in
      execute_wrapper args
    else if copy then
      if negb (Py.otruthy new_branch) then
        raise (ValueError "must provide new_branch when copying a branch")
      else
        let args := args ++ ["--copy"] in
        let args := if Py.otruthy branch_name then args ++ [the branch_name] else args in
        execute_wrapper (args ++ [the new_branch])
    else if delete then
      if negb (Py.otruthy branch_name) then
        raise (ValueError "must provide branch_name when deleting")
      else execute_wrapper (args ++ ["--delete"; the branch_name])
    else if move then
      if negb (Py.otruthy new_branch) then
        raise (ValueError "must provide new_branch when moving a branch")
      else
        let args := args ++ ["--move"] in
        let args := if Py.otruthy branch_name then args ++ [the branch_name] else args in
        execute_wrapper (args ++ [the new_branch])
    else if Py.otruthy branch_name then
      let args := args ++ [the branch_name] in
      let args := if Py.otruthy start_point then args ++ [the start_point] else args in
      execute_wrapper args
    else _get_branches self.

(** *** [Dolt.merge] *)

(** The text of the warning logged for a conflict. *)
Definition conflict_warning (branch current : string) (conflict_line : string) : string :=
  Py.nl ++
  "                The following merge conflict occurred merging " ++ branch ++
  " to " ++ current ++ ":" ++ Py.nl ++
  "                " ++ conflict_line ++ Py.nl ++
  "            ".

Definition merge (self : t) (branch : string) (message : string) (squash : bool)
  : M unit :=
  let* '(current_branch, branches) := _get_branches self in
  let* st := status self in
  if negb (DoltStatus.is_clean st) then
    raise (ValueError
      ("Changes in the working set, please commit before merging " ++ branch ++
       " to " ++ DoltBranch.name current_branch))
  else if negb (Py.mem branch (map DoltBranch.name branches)) then
    raise (ValueError
      ("Trying to merge in non-existent branch " ++ branch ++
       " to " ++ DoltBranch.name current_branch))
  else
    let args := ["merge"] in
    let args := if squash then args ++ ["--squash"] else args in
    let args := args ++ [branch] in
    let* output := execute self args true in
    let merge_conflict_pos := 2%nat in
    let* fast_forward :=
      (if (length output =? 3)%nat
       then let* l := lift (index output 1) in ret (Py.contains "Fast-forward" l)
       else ret false) in
    if fast_forward then ret tt
    else
      let* conflict :=
        (if (length output =? 5)%nat
         then let* l := lift (index output merge_conflict_pos) in
              ret (Py.startswith "CONFLICT" l)
         else ret false) in
      if conflict then
        let* l := lift (index output merge_conflict_pos) in
        logger WARNING (conflict_warning branch (DoltBranch.name current_branch) l) >>
        logger WARNING "Aborting as interactive merge not supported in Doltpy" >>
        let abort_args := ["merge"; "--abort"] in
        execute self abort_args true >>
        ret tt
      else
        let* st := status self in
        for_each (dict_keys (DoltStatus.added_tables st) ++
                  dict_keys (DoltStatus.modified_tables st))
                 (fun table => add self (inl table) >> ret tt) >>
        commit self message false None.

(** *** [Dolt.ls] *)

(** The first loop: the tracked tables, up to the line that starts the
    system section; returns the tables and [system_pos]. *)
Fixpoint ls_tracked (output : list string) (i : nat) (tables : list DoltTable.t)
  : result (list DoltTable.t * option nat) :=
  match output with
  | [] => Ok (tables, None)
  | line :: rest =>
      if Py.startswith "Tables" line || negb (Py.truthy line) then
        ls_tracked rest (S i) tables
      else if Py.startswith "System" line then Ok (tables, Some i)
      else
        let split := Py.split (Py.lstrip line) in
        match index split 0, index split 1, index split 2 with
        | Ok n, Ok h, Ok r =>
            match Py.int r with
            | Some rows =>
                ls_tracked rest (S i)
                  (tables ++ [DoltTable.mk n (Some h) (Some rows) false])
            | None =>
                Raised (ValueError ("invalid literal for int() with base 10: '" ++ r ++ "'"))
            end
        | Raised e, _, _ | _, Raised e, _ | _, _, Raised e => Raised e
        end
  end.

(** The second loop, over [output[system_pos:]]. *)
Fixpoint ls_system (output : list string) (tables : list DoltTable.t)
  : list DoltTable.t :=
  match output with
  | [] => tables
  | line :: rest =>
      if Py.startswith "System" line then ls_system rest tables
      else ls_system rest (tables ++ [DoltTable.mk (Py.strip line) None None true])
  end.

Definition tables_of_output (output : list string) : result (list DoltTable.t) :=
  if (length output =? 3)%nat &&
     match output with
     | l0 :: _ => String.eqb l0 "No tables in working set"
     | [] => false
     end
  then Ok []
  else
    match ls_tracked output 0 [] with
    | Raised e => Raised e
    | Ok (tables, system_pos) =>
        match system_pos with
        | Some (S p) => Ok (ls_system (drop (S p) output) tables)
        | _ => Ok tables
        end
    end.

Definition ls (self : t) (system all : bool) : M (list DoltTable.t) :=
  let args := ["ls"; "--verbose"] in
  let args := if all then args ++ ["--all"] else args in
  let args := if system then args ++ ["--system"] else args in
  let* output := execute self args false in
  lift (tables_of_output output).

(** *** [Dolt.schema_import], [Dolt.table_import] *)

(** The list of a truthy [Optional[List[str]]]. *)
Definition the_list (o : option (list string)) : list string := default [] o.

Definition schema_import (self : t) (table filename : string)
    (create update replace dry_run keep_types : bool)
    (file_type : option string) (pks : option (list string))
    (map_ : option string) (float_threshold : option pyfloat)
    (delim : option string) : M unit :=
  if negb (length (switch_count [create; update; replace]) =? 1)%nat then
    raise (ValueError "Exactly one of create, update, replace must be True")
  else
    let args := ["schema"; "import"] in
    let* args :=
      (if create then
         let args := args ++ ["--create"] in
         if negb (Py.oltruthy pks)
         then raise (ValueError "When create is set to True, pks must be provided")
         else ret args
       else ret args) in
    let args := if update then args ++ ["--update"] else args in
    let* args :=
      (if replace then
         let args := args ++ ["--replace"] in
         if negb (Py.oltruthy pks)
         then raise (ValueError "When replace is set to True, pks must be provided")
         else ret args
       else ret args) in
    let args := if dry_run then args ++ ["--dry-run"] else args in
    let args := if keep_types then args ++ ["--keep-types"] else args in
    let args := if Py.otruthy file_type then args ++ ["--file_type"; the file_type] else args in
    let args := if Py.oltruthy pks then args ++ ["--pks"; Py.join "," (the_list pks)] else args in
    let args := if Py.otruthy map_ then args ++ ["--map"; the map_] else args in
    let args :=
      match float_threshold with
      | Some x => if float_nonzero x
                  then args ++ ["--float-threshold"; str_of_float x] else args
      | None => args
      end in
    let args := if Py.otruthy delim then args ++ ["--delim"; the delim] else args in
    let args := args ++ [table; filename] in
    execute self args true >> ret tt.

Definition table_import (self : t) (table filename : string)
    (create_table update_table force : bool)
    (mapping_file : option string) (pk : option (list string))
    (replace_table : bool) (file_type : option string)
    (continue_importing : bool) (delim : option string) : M unit :=
  if negb (length (switch_count [create_table; update_table; replace_table]) =? 1)%nat then
    raise (ValueError "Exactly one of create, update, replace must be True")
  else
    let args := ["table"; "import"] in
    let* args :=
      (if create_table then
         let args := args ++ ["--create-table"] in
         if negb (Py.oltruthy pk)
         then raise (ValueError "When create is set to True, pks must be provided")
         else ret args
       else ret args) in
    let args := if update_table then args ++ ["--update-table"] else args in
    let* args :=
      (if replace_table then
         let args := args ++ ["--replace-table"] in
         if negb (Py.oltruthy pk)
         then raise (ValueError "When replace is set to True, pks must be provided")
         else ret args
       else ret args) in
    let args := if Py.otruthy file_type then args ++ ["--file-type"; the file_type] else args in
    let args := if Py.oltruthy pk then args ++ ["--pk"; Py.join "," (the_list pk)] else args in
    let args := if Py.otruthy mapping_file then args ++ ["--map"; the mapping_file] else args in
    let args := if Py.otruthy delim then args ++ ["--delim"; the delim] else args in
    let args := if continue_importing then args ++ ["--continue"] else args in
    let args := if force then args ++ ["--force"] else args in
    let args := args ++ [table; filename] in
    execute self args true >> ret tt.

(** *** The constructor and [repo_name] *)

(** [Dolt(repo_dir)] *)
Definition __init__ (repo_dir0 : string) : M t :=
  let self := mk repo_dir0 in
  let* there := path_exists (Py.path_join (repo_dir self) ".dolt") in
  if negb there
  then raise (ValueError (repo_dir self ++ " is not a valid Dolt repository"))
  else ret self.

Definition repo_name (self : t) : result string :=
  match Py.last_item (Py.split_on "/" (repo_dir self)) with
  | Some x => Ok (Py.replace_char "-" "_" x)
  | None => Raised IndexError
  end.

(** *** [Dolt.reset] *)

Definition reset (self : t) (table_or_tables : string + list string)
                 (hard soft : bool) : M unit :=
  let to_reset := to_list table_or_tables in
  let args := ["reset"] in
  if hard && soft then raise (ValueError "Cannot reset hard and soft")
  else
    let args := if hard then args ++ ["--hard"] else args in
    let args := if soft then args ++ ["--soft"] else args in
    execute self (args ++ to_reset) true >> ret tt.

(** *** [Dolt.diff] *)

(** [str(n)] and [bool(n)] of an [int]. *)
Definition str_int (n : Z) : string := NilZero.string_of_int (Z.to_int n).
Definition int_truthy (o : option Z) : bool :=
  match o with Some n => negb (n =? 0)%Z | None => false end.

Definition diff (self : t) (commit other_commit : option string)
    (table_or_tables : option (string + list string))
    (data schema summary sql : bool)
    (where_ : option string) (limit : option Z) : M unit :=
  if (1 <? length (switch_count [data; schema; summary]))%nat then
    raise (ValueError "At most one of delete, copy, move can be set to True")
  else
    let args := ["diff"] in
    let args :=
      if data then
        let args := if Py.otruthy where_ then args ++ ["--where"; the where_] else args in
        if int_truthy limit
        then args ++ ["--limit"; str_int (default 0%Z limit)] else args
      else args in
    let args := if summary then args ++ ["--summary"] else args in
    let args := if schema then args ++ Py.chars "--schema" else args in
    let args := if sql then args ++ ["--sql"] else args in
    let args := if Py.otruthy commit then args ++ [the commit] else args in
    let args := if Py.otruthy other_commit then args ++ [the other_commit] else args in
    let args :=
      if tables_truthy table_or_tables
      then args ++ [Py.join " " (tables_list table_or_tables)] else args in
    execute self args true >> ret tt.

(** *** [Dolt.remote], [Dolt.pull], [Dolt.push] *)

(** The loop over the lines of the listing of the remotes. *)
Fixpoint remotes_loop (output : list string) (remotes : list DoltRemote.t)
  : result (list DoltRemote.t) :=
  match output with
  | [] => Ok remotes
  | line :: rest =>
      if negb (Py.truthy line) then Ok remotes
      else
        let split := Py.split (Py.lstrip line) in
        match index split 0, index split 1 with
        | Ok n, Ok u => remotes_loop rest (remotes ++ [DoltRemote.mk n u])
        | Raised e, _ | _, Raised e => Raised e
        end
  end.

(** The listing returns the remotes, the two other modes return nothing. *)
Definition remote (self : t) (add : bool) (name url : option string)
                  (remove : option bool) : M (option (list DoltRemote.t)) :=
  let args := ["remote"; "--verbose"] in
  let remove := default false remove in
  if negb (add || remove) then
    let* output := execute self args false in
    let* remotes := lift (remotes_loop output []) in
    ret (Some remotes)
  else
    let* args :=
      (if remove then
         if add then raise (ValueError "add and remove are not comptaibe ")
         else if negb (Py.otruthy name)
         then raise (ValueError "Must provide the name of a remote to move")
         else ret (args ++ ["remove"; the name])
       else ret args) in
    let* args :=
      (if add then
         if negb (Py.otruthy name && Py.otruthy url)
         then raise (ValueError "Must provide name and url to add")
         else ret (args ++ ["add"; the name; the url])
       else ret args) in
    execute self args true >> ret None.

Definition pull (self : t) (remote : string) : M unit :=
  execute self ["pull"; remote] true >> ret tt.

Definition push (self : t) (remote : string) (refspec : option string)
                (set_upstream force : bool) : M unit :=
  let args := ["push"] in
  let args := if set_upstream then args ++ ["--set-upstream"] else args in
  let args := if force then args ++ ["--force"] else args in
  let args := args ++ [remote] in
  let args := if Py.otruthy refspec then args ++ [the refspec] else args in
  execute self args true >> ret tt.

(** *** [Dolt.creds_ls], [Dolt.creds_check], [Dolt.creds_use] *)

Fixpoint creds_loop (output : list string) (creds : list DoltKeyPair.t)
  : result (list DoltKeyPair.t) :=
  match output with
  | [] => Ok creds
  | line :: rest =>
      let active := Py.startswith "*" line in
      let split :=
        if active
        then Py.split_on " " (Py.lstrip (Py.drop1 line))
        else Py.split_on " " (Py.lstrip line) in
      match index split 0, index split 1 with
      | Ok k, Ok i => creds_loop rest (creds ++ [DoltKeyPair.mk k i active])
      | Raised e, _ | _, Raised e => Raised e
      end
  end.

Definition creds_ls (self : t) : M (list DoltKeyPair.t) :=
  let* output := execute self ["creds"; "ls"; "--verbose"] false in
  lift (creds_loop output []).

(** [s[i]] of a [str], raising past the end. *)
Definition char_at (s : string) (i : nat) : result string :=
  match Py.str_index s i with Some c => Ok c | None => Raised IndexError end.

(** Here [output] is the text [_execute] returns, not a list of lines:
    [output[3]] is its fourth character and [output[3:]] a string, which
    [join] takes character by character. *)
Definition creds_check (self : t) (endpoint creds : option string) : M bool :=
  let args := ["dolt"; "creds"; "check"] in
  let args := if Py.otruthy endpoint then args ++ ["--endpoint"; the endpoint] else args in
  let args := if Py.otruthy creds then args ++ ["--creds"; the creds] else args in
  let* output := _execute args (Some (repo_dir self)) in
  let* c := lift (char_at output 3) in
  if Py.startswith "error" c then
    logger ERROR (Py.join Py.nl (Py.chars (Py.str_drop 3 output))) >>
    ret false
  else ret true.

Definition creds_use (self : t) (public_key_id : string) : M bool :=
  let args := ["creds"; "use"; public_key_id] in
  let* output := _execute args (Some (repo_dir self)) in
  let* bad :=
    (if Py.truthy output
     then let* c := lift (char_at output 0) in ret (Py.startswith "error" c)
     else ret false) in
  if bad then
    logger ERROR (Py.join Py.nl (Py.chars (Py.str_drop 3 output))) >>
    raise (DoltException "Bad public key" None None 1)
  else ret true.

(** *** [Dolt._config_helper], [Dolt.config_local] *)

Fixpoint config_loop (lines : list string) (res : dict string)
  : result (dict string) :=
  match lines with
  | [] => Ok res
  | line :: rest =>
      let split := Py.split_str " = " line in
      match index split 0, index split 1 with
      | Ok config_name, Ok config_val =>
          config_loop rest (dict_set config_name config_val res)
      | Raised e, _ | _, Raised e => Raised e
      end
  end.

Definition _config_helper (global_config local_config : bool) (cwd : option string)
    (name value : option string) (add list_ get unset : bool) : M (dict string) :=
  if negb (length (switch_count [add; list_; get; unset]) =? 1)%nat then
    raise (ValueError "Exactly one of add, list, get, unset must be True")
  else
    let args := ["config"] in
    let* args :=
      (if global_config then ret (args ++ ["--global"])
       else if local_config then ret (args ++ ["--local"])
       else raise (ValueError "Must pass either global_config")) in
    let* args :=
      (if add then
         if negb (Py.otruthy name && Py.otruthy value)
         then raise (ValueError "For add, name and value must be set")
         else ret (args ++ ["--add"; the name; the value])
       else ret args) in
    let* args :=
      (if list_ then
         if Py.otruthy name || Py.otruthy value
         then raise (ValueError "For list, no name and value provided")
         else ret (args ++ ["--list"])
       else ret args) in
    let* args :=
      (if get then
         if negb (Py.otruthy name) || Py.otruthy value
         then raise (ValueError "For get, only name is provided")
         else ret (args ++ ["--get"; the name])
       else ret args) in
    let* args :=
      (if unset then
         if negb (Py.otruthy name) || Py.otruthy value
         then raise (ValueError "For get, only name is provided")
         else ret (args ++ ["--unset"; the name])
       else ret args) in
    let* out := _execute args cwd in
    let output := Py.split_on "010" out in
    lift (config_loop
            (List.filter (fun l => Py.truthy l && Py.contains "=" l) output) []).

Definition config_local (self : t) (name value : option string)
    (add list_ get unset : bool) : M (dict string) :=
  _config_helper false true (Some (repo_dir self)) name value add list_ get unset.

(** *** [Dolt.sql] *)

(** What [sql] returns: the rows of a csv result, the value of a json
    result, or nothing. *)
Inductive sql_result (J : Type) :=
| SqlRows (rows : list (dict string))
| SqlJson (j : J)
| SqlNone.
Arguments SqlRows {J} rows.
Arguments SqlJson {J} j.
Arguments SqlNone {J}.

(** [list(csv.DictReader(io.StringIO(text)))] and
    [json.load(io.StringIO(text))] are the standard library's. *)
Context {J : Type}.
Variable csv_DictReader : string -> result (list (dict string)).
Variable json_load : string -> result J.

Definition sql (self : t) (query result_format : option string) (execute_ : bool)
    (save message : option string) (list_saved batch : bool)
    (multi_db_dir : option string) : M (sql_result J) :=
  let args := ["sql"] in
  let* args :=
    (if list_saved then
       if Py.otruthy query || Py.otruthy result_format || Py.otruthy save ||
          Py.otruthy message || batch || Py.otruthy multi_db_dir
       then raise (ValueError "Incompatible arguments provided")
       else
         let args := args ++ ["--list-saved"] in
         execute self args true >> ret args
     else ret args) in
  let* args :=
    (if execute_ then
       if Py.otruthy query || Py.otruthy save || Py.otruthy message ||
          list_saved || batch || Py.otruthy multi_db_dir
       then raise (ValueError "Incompatible arguments provided")
       else ret (args ++ ["--execute"; "True"])
     else ret args) in
  let args :=
    if Py.otruthy multi_db_dir then args ++ ["--multi-db-dir"; the multi_db_dir] else args in
  let args := if batch then args ++ ["--batch"] else args in
  let args :=
    if Py.otruthy save then
      let args := args ++ ["--save"; the save] in
      if Py.otruthy message then args ++ ["--message"; the message] else args
    else args in
  if Py.otruthy result_format then
    if negb (Py.otruthy query) then
      raise (ValueError "Must provide a query in order to specify a result format")
    else
      let args := args ++ ["--query"; the query] in
      if Py.mem (the result_format) ["csv"; "tabular"] then
        let args := args ++ ["--result-format"; "csv"] in
        let* output := execute self args true in
        let* rows := lift (csv_DictReader (Py.join Py.nl output)) in
        ret (SqlRows rows)
      else if String.eqb (the result_format) "json" then
        let args := args ++ ["--result-format"; "json"] in
        let* output := execute self args true in
        let* j := lift (json_load (Py.join EmptyString output)) in
        ret (SqlJson j)
      else
        raise (ValueError (the result_format ++ " is not a valid value for result_format"))
  else
    logger WARNING "Must provide a value for result_format to get output back" >>
    let args := if Py.otruthy query then args ++ ["--query"; the query] else args in
    execute self args true >> ret SqlNone.

(** *** [Dolt._new_dir_helper], [Dolt.clone], [Dolt.read_tables] *)

(** [os.getcwd()] *)
Variable getcwd : string.

Definition _new_dir_helper (new_dir remote_url : option string)
  : MX W (option string) :=
  if negb (Py.otruthy new_dir || Py.otruthy remote_url) then
    raisex (Core (ValueError "Provide either new_dir or remote_url"))
  else if Py.otruthy remote_url && negb (Py.otruthy new_dir) then
    let split := Py.split_on "/" (the remote_url) in
    letx name :=
      core (lift (match Py.last_item split with
                  | Some x => Ok x
                  | None => Raised IndexError
                  end)) in
    let new_dir := Py.path_join getcwd name in
    letx there := core (path_exists new_dir) in
    if there then
      raisex (DoltDirectoryException ("Cannot create new directory " ++ new_dir))
    else core (os_mkdir new_dir) >>> retx (Some new_dir)
  else
    letx is_repo :=
      (if Py.otruthy new_dir
       then core (path_exists (Py.path_join (the new_dir) ".dolt"))
       else retx false) in
    if is_repo then
      raisex (DoltDirectoryException (the new_dir ++ " is already a valid Dolt repo"))
    else retx None.

Definition clone (remote_url : string) (new_dir remote branch : option string)
  : MX W t :=
  let args := ["clone"; remote_url] in
  let args := if Py.otruthy remote then args ++ ["--remote"; the remote] else args in
  let args := if Py.otruthy branch then args ++ ["--branch"; the branch] else args in
  letx new_dir := _new_dir_helper new_dir (Some remote_url) in
  if negb (Py.otruthy new_dir) then
    raisex (Core (ValueError "Unable to infer new_dir"))
  else
    let args := args ++ [the new_dir] in
    core (_execute args new_dir) >>>
    core (__init__ (the new_dir)).

Definition read_tables (remote_url committish : string)
    (table_or_tables : option (string + list string)) (new_dir : option string)
  : MX W t :=
  let args := ["read-tables"] in
  letx new_dir := _new_dir_helper new_dir (Some remote_url) in
  if negb (Py.otruthy new_dir) then
    raisex (Core (ValueError "Unable to infer new_dir"))
  else
    let args := args ++ ["--dir"; the new_dir; remote_url; committish] in
    let args :=
      if tables_truthy table_or_tables
      then args ++ tables_list table_or_tables else args in
    core (_execute args new_dir) >>>
    core (__init__ (the new_dir)).

End Engine.

Arguments SqlRows {J} rows.
Arguments SqlJson {J} j.
Arguments SqlNone {J}.

End Dolt.

(** ** [doltpy/cli/write/write.py]: the table writers *)

Module Write.

Definition CREATE := "create".
Definition FORCE_CREATE := "force_create".
Definition REPLACE := "replace".
Definition UPDATE := "update".

Definition IMPORT_MODES_TO_FLAGS : dict (list string) :=
  [(CREATE, ["-c"]);
   (FORCE_CREATE, ["-f"; "-c"]);
   (REPLACE, ["-r"]);
   (UPDATE, ["-u"])].

(** [IMPORT_MODES_TO_FLAGS[import_mode]] *)
Definition flags_of (import_mode : string) : result (list string) :=
  match dict_get import_mode IMPORT_MODES_TO_FLAGS with
  | Some fl => Ok fl
  | None => Raised (KeyError import_mode)
  end.

Section Engine.

Context {W : Type}.
Variable run : option string -> list string -> W -> gset string -> W * gset string * Proc.

(** [tempfile.mktemp(suffix)]: a path name, chosen from the paths that exist. *)
Variable mktemp : string -> gset string -> string.

Abbreviation M := (M W).

Definition tempfile_mktemp (suffix : string) : M string :=
  fun s => (Ok (mktemp suffix (files s)), s).

Definition _get_import_mode_and_flags (dolt : Dolt.t) (table : string)
                                      (import_mode : option string) : M string :=
  let import_modes := dict_keys IMPORT_MODES_TO_FLAGS in
  if Py.otruthy import_mode && negb (Py.mem (the import_mode) import_modes) then
    raise (ValueError
      "update_mode must be one of: dict_keys(['create', 'force_create', 'replace', 'update'])")
  else
    let* tables := Dolt.ls run dolt false false in
    if Py.mem table (map DoltTable.name tables)
    then ret UPDATE
    else ret CREATE.

(** [commit] is an [Optional[bool]] tested for truth: [None] is [false]. *)
Definition _import_helper (dolt : Dolt.t) (table : string)
    (write_import_file : string -> M unit)
    (import_mode : option string) (primary_key : option (list string))
    (commit : bool) (commit_message : option string)
    (commit_date : option datetime) : M unit :=
  let* import_mode := _get_import_mode_and_flags dolt table import_mode in
  let* fname := tempfile_mktemp ".csv" in
  let* import_flags := lift (flags_of import_mode) in
  finally
    (write_import_file fname >>
     let args := ["table"; "import"; table] ++ import_flags in
     let args :=
       if Py.oltruthy primary_key
       then args ++ [("--pk=" ++ Py.join "," (Dolt.the_list primary_key))%string]
       else args in
     Dolt.execute run dolt (args ++ [fname]) true >>
     if commit then
       let msg :=
         if Py.otruthy commit_message then the commit_message
         else ("Committing write to table " ++ table ++ " in " ++ import_mode ++ " mode")%string in
       Dolt.add run dolt (inl table) >>
       Dolt.commit run dolt msg false commit_date
     else ret tt)
    (let* there := path_exists fname in
     if there then os_remove fname else ret tt).

(** The four entry points differ in the callback that writes the staging
    file.  The text written is not modelled, only that the path comes to
    exist, and what the callback raises before or after it does. *)

(** [write_file]: [open(filepath, "w")], then the lines of the handle;
    [readlines] is the handle's own reading, which may raise. *)
Definition write_file (dolt : Dolt.t) (table : string)
    (file_handle : result (list string))
    (import_mode : option string) (primary_key : option (list string))
    (commit : bool) (commit_message : option string)
    (commit_date : option datetime) : M unit :=
  let writer (filepath : string) : M unit :=
    create_file filepath >>
    let* lines := lift file_handle in
    ret tt in
  _import_helper dolt table writer import_mode primary_key
                 commit commit_message commit_date.

(** [write_columns]: the columns must have one common length. *)
Definition write_columns {V} (dolt : Dolt.t) (table : string)
    (columns : dict (list V))
    (import_mode : option string) (primary_key : option (list string))
    (commit : bool) (commit_message : option string)
    (commit_date : option datetime) : M unit :=
  let writer (filepath : string) : M unit :=
    if negb (length (remove_dups (map (fun col => length (snd col)) columns)) =? 1)%nat
    then raise (ValueError "Must pass columns of identical length")
    else create_file filepath in
  _import_helper dolt table writer import_mode primary_key
                 commit commit_message commit_date.

(** [write_rows]: the header is the union of the rows' keys, so every row
    can be written. *)
Definition write_rows {V} (dolt : Dolt.t) (table : string)
    (rows : list (dict V))
    (import_mode : option string) (primary_key : option (list string))
    (commit : bool) (commit_message : option string)
    (commit_date : option datetime) : M unit :=
  let writer (filepath : string) : M unit :=
    create_file filepath in
  _import_helper dolt table writer import_mode primary_key
                 commit commit_message commit_date.

(** [write_pandas]: [dropna] is the dataframe library's; it raises when a
    key column is not a column of the frame. *)
Definition write_pandas {DataFrame} (dropna : DataFrame -> option (list string) -> result DataFrame)
    (dolt : Dolt.t) (table : string) (df : DataFrame)
    (import_mode : option string) (primary_key : option (list string))
    (commit : bool) (commit_message : option string)
    (commit_date : option datetime) : M unit :=
  let writer (filepath : string) : M unit :=
    let* clean := lift (dropna df primary_key) in
    create_file filepath in
  _import_helper dolt table writer import_mode primary_key
                 commit commit_message commit_date.

End Engine.

End Write.

(** ** [doltpy/etl/loaders.py] *)

Module Loaders.

Section Transformers.

(** A [pandas.DataFrame] is a mutable object, and Python hands it to a
    function by reference.  [DataFrame] is the type of what a frame holds,
    left open.  A call [transformer(data)] may edit [data] in place, and
    it returns [data] itself or another frame, or raises. *)
Context {DataFrame : Type}.

(** The frame a call returns, seen from its caller. *)
Inductive frame_ref : Type :=
| Argument                       (* the very object the call was handed *)
| Another (frame : DataFrame).   (* a different object, holding [frame] *)

(** A [DataframeTransformer] takes what its argument holds, and gives what
    the call leaves in that object together with what the call returns. *)
Definition DataframeTransformer := DataFrame -> DataFrame * result frame_ref.

(** What the frame [r] holds, [data] being what the argument holds. *)
Definition deref (data : DataFrame) (r : frame_ref) : DataFrame :=
  match r with Argument => data | Another frame => frame end.

(** What the frame returned by a call holds, when the call returns. *)
Definition frame_of (call : DataFrame * result frame_ref) : result DataFrame :=
  match snd call with
  | Ok r => Ok (deref (fst call) r)
  | Raised e => Raised e
  end.

(** The [for] loop: [temp = transformer(data)] for each transformer.  Every
    call is on the one object [data], whose contents the loop threads. *)
Fixpoint apply_loop (data : DataFrame) (transformers : list DataframeTransformer)
                    (temp : frame_ref) : DataFrame * result frame_ref :=
  match transformers with
  | [] => (data, Ok temp)
  | transformer :: rest =>
      match transformer data with
      | (data', Ok temp') => apply_loop data' rest temp'
      | (data', Raised e) => (data', Raised e)
      end
  end.

(** The result is what the call leaves in the caller's object [data] and
    the frame it returns; [data.copy()] is another object that holds what
    [data] holds. *)
Definition _apply_df_transformers (data : DataFrame)
    (transformers : option (list DataframeTransformer))
  : DataFrame * result frame_ref :=
  match transformers with
  | None => (data, Ok Argument)
  | Some [] => (data, Ok Argument)
  | Some ts =>
      let temp := Another data (* data.copy() *) in
      apply_loop data ts temp
  end.

End Transformers.

Section Engine.

Context {W : Type}.
Variable run : option string -> list string -> W -> gset string -> W * gset string * Proc.
Variable mktemp : string -> gset string -> string.

Abbreviation M := (M W).

Definition DoltTableWriter := Dolt.t -> M string.
Definition DoltLoader := Dolt.t -> M string.

(** [get_data] gives what the frame it returns holds; what the
    transformers leave in that object is not kept after the call. *)
Definition get_df_table_writer {DataFrame}
    (dropna : DataFrame -> option (list string) -> result DataFrame)
    (table : string) (get_data : M DataFrame) (pk_cols : option (list string))
    (import_mode : option string)
    (transformers : option (list (@DataframeTransformer DataFrame)))
  : DoltTableWriter :=
  fun dolt =>
    let* _import_mode :=
      (if Py.otruthy import_mode then ret (the import_mode)
       else
         let* tables := Dolt.ls run dolt false false in
         ret (if negb (Py.mem table (map DoltTable.name tables))
              then "create" else "update")) in
    let* data := get_data in
    let* data_to_load := lift (frame_of (_apply_df_transformers data transformers)) in
    Write.write_pandas run mktemp dropna dolt table data_to_load
                       (Some _import_mode) pk_cols false None None >>
    ret table.

(** [dolt.branch()] with every argument at its default. *)
Definition branch0 (dolt : Dolt.t) : M (DoltBranch.t * list DoltBranch.t) :=
  Dolt.branch run dolt None None None false false false false.

Definition get_dolt_loader
    (writer_or_writers : DoltTableWriter + list DoltTableWriter)
    (commit : bool) (message : string) (branch : string)
    (transaction_mode : option bool) : DoltLoader :=
  fun dolt =>
    let* '(current_branch, current_branch_list) := branch0 dolt in
    let original_branch := DoltBranch.name current_branch in
    if negb (String.eqb branch original_branch) && negb commit then
      raise (ValueError
        "If writes are to another branch, and commit is not True, writes will be lost")
    else
      (if negb (String.eqb (DoltBranch.name current_branch) branch) then
         (if negb (Py.mem branch (map DoltBranch.name current_branch_list))
          then Dolt.branch run dolt (Some branch) None None false false false false >> ret tt
          else ret tt) >>
         Dolt.checkout run dolt (Some branch) None false None
       else ret tt) >>
      if default false transaction_mode then
        raise (NotImplementedError "transaction_mode is not yet implemented")
      else
        let* tables_updated :=
          map_m (fun writer : DoltTableWriter => writer dolt) (to_list writer_or_writers) in
        (if commit then
           let* st := Dolt.status run dolt in
           if negb (DoltStatus.is_clean st) then
             for_each tables_updated
                      (fun table => Dolt.add run dolt (inl table) >> ret tt) >>
             Dolt.commit run dolt message false None
           else
             logger WARNING ("No changes to dolt in:" ++ Py.nl ++ Dolt.repo_dir dolt)%string
         else ret tt) >>
        let* '(current_branch, branches) := branch0 dolt in
        (if negb (String.eqb original_branch (DoltBranch.name current_branch))
         then Dolt.checkout run dolt (Some original_branch) None false None
         else ret tt) >>
        ret branch.

(** *** [_apply_file_transformers], [get_bulk_table_writer] *)

(** An [io.StringIO] is a value of a type left open, with its [seek(0)]
    and its [readlines()]; a [FileTransformer] is a caller's function. *)
Context {StringIO : Type}.
Variable seek0 : StringIO -> StringIO.
Variable readlines : StringIO -> result (list string).

Definition FileTransformer := StringIO -> result StringIO.

(** The [for] loop over [transformers[1:]]. *)
Fixpoint file_loop (transformers : list FileTransformer) (temp : StringIO)
  : result StringIO :=
  match transformers with
  | [] => Ok temp
  | transformer :: rest =>
      match transformer temp with
      | Ok temp' => file_loop rest temp'
      | Raised e => Raised e
      end
  end.

Definition _apply_file_transformers (data : StringIO)
    (transformers : option (list FileTransformer)) : result StringIO :=
  let data := seek0 data in
  match transformers with
  | None => Ok data
  | Some [] => Ok data
  | Some (first :: rest) =>
      match first data with
      | Ok temp => file_loop rest temp
      | Raised e => Raised e
      end
  end.

Definition get_bulk_table_writer (table : string) (get_data : M StringIO)
    (pk_cols : option (list string)) (import_mode : option string)
    (transformers : option (list FileTransformer)) : DoltTableWriter :=
  fun dolt =>
    let* _import_mode :=
      (if Py.otruthy import_mode then ret (the import_mode)
       else
         let* tables := Dolt.ls run dolt false false in
         ret (if negb (Py.mem table (map DoltTable.name tables))
              then "create" else "update")) in
    let* data := get_data in
    let* data_to_load := lift (_apply_file_transformers data transformers) in
    Write.write_file run mktemp dolt table (readlines data_to_load)
                     (Some _import_mode) pk_cols false None None >>
    ret table.

(** *** [get_branch_creator] *)

Definition get_branch_creator (new_branch_name : string) (refspec : option string)
  : Dolt.t -> MX W string :=
  fun dolt =>
    letx '(_, current_branches) := core (branch0 dolt) in
    let branches := map DoltBranch.name current_branches in
    if Py.mem new_branch_name branches then
      raisex (AssertionError ("Branch " ++ new_branch_name ++ " already exists"))
    else
      core (Dolt.branch run dolt (Some new_branch_name) None None
                        false false false false) >>>
      retx new_branch_name.

End Engine.

End Loaders.

(** ** [doltpy/cli/read/read.py] *)

Module Read.

Section Engine.

Context {W : Type} {J : Type}.
Variable run : option string -> list string -> W -> gset string -> W * gset string * Proc.
Variable csv_DictReader : string -> result (list (dict string)).
Variable json_load : string -> result J.

Definition _get_read_table_asof_query (table : string) (as_of : option string)
  : string :=
  let base_query := ("SELECT * FROM `" ++ table ++ "`")%string in
  if Py.otruthy as_of
  then (base_query ++ " AS OF " ++ String "034" (the as_of ++ String "034" EmptyString))%string
  else base_query.

Definition _read_table_sql (dolt : Dolt.t) (sql : string)
  : M W (Dolt.sql_result J) :=
  Dolt.sql run csv_DictReader json_load dolt (Some sql) (Some "csv") false
           None None false false None.

Definition read_rows_sql (dolt : Dolt.t) (sql : string) : M W (Dolt.sql_result J) :=
  _read_table_sql dolt sql.

Definition read_rows (dolt : Dolt.t) (table : string) (as_of : option string)
  : M W (Dolt.sql_result J) :=
  read_rows_sql dolt (_get_read_table_asof_query table as_of).

End Engine.

End Read.

(** ** [doltpy/etl/wrappers.py] and [DoltHubContext] *)

Module Wrappers.

(** The fields of a [DoltHubContext]. *)
Record DoltHubContext := mkContext {
  db_path : option string;
  path : string;
  remote : string;
  dolt : option Dolt.t;
  tables_to_read : option (list string) }.

Section Engine.

Context {W : Type}.
Variable run : option string -> list string -> W -> gset string -> W * gset string * Proc.
Variable getcwd : string.

(** [tempfile.mkdtemp()]: a directory is made under a name chosen from the
    paths that exist. *)
Variable mkdtemp : gset string -> string.

Definition tempfile_mkdtemp : M W string :=
  fun s =>
    let d := mkdtemp (files s) in
    (Ok d, mkState (world s) ({[d]} ∪ files s) (spawned s) (log s)).

(** [DoltHubContext(db_path, path, remote, tables_to_read)] *)
Definition DoltHubContext__init__ (db_path : option string) (path : option string)
    (remote : string) (tables_to_read : option (list string)) : M W DoltHubContext :=
  let* path := (if negb (Py.otruthy path) then tempfile_mkdtemp else ret (the path)) in
  ret (mkContext db_path path remote None tables_to_read).

(** [__enter__] sets [self.dolt]; the context as it is afterwards is kept
    beside the value the method returns, which is [None]: the method has no
    [return]. *)
Definition __enter__ (self : DoltHubContext) : MX W (DoltHubContext * option DoltHubContext) :=
  letx dolt :=
    except_assertion
      (letx dolt := core (Dolt.__init__ (path self)) in
       core (Dolt.pull run dolt (remote self)) >>>
       retx dolt)
      (match db_path self with
       | None => raisex (Core (ValueError "Cannot clone remote data without db_path set"))
       | Some db =>
           if Py.oltruthy (tables_to_read self)
           then Dolt.read_tables run getcwd db "master"
                                 (Some (inr (Dolt.the_list (tables_to_read self)))) None
           else Dolt.clone run getcwd db (Some (path self)) None None
       end) in
  retx (mkContext (db_path self) (path self) (remote self) (Some dolt)
                  (tables_to_read self),
        None).

Definition __exit__ : MX W unit := retx tt.

(** [x.dolt] for the value [x] bound by the [with] statement. *)
Definition attr_dolt (x : option DoltHubContext) : MX W Dolt.t :=
  match x with
  | None => raisex (AttributeError "'NoneType' object has no attribute 'dolt'")
  | Some c =>
      match dolt c with
      | None => raisex (AttributeError "'NoneType' object has no attribute 'repo_dir'")
      | Some d => retx d
      end
  end.

(** [for x in l: body(x)] where the further exceptions may be raised. *)
Fixpoint for_eachx {A} (l : list A) (body : A -> MX W unit) : MX W unit :=
  match l with
  | [] => retx tt
  | x :: l' => body x >>> for_eachx l' body
  end.

Definition load_to_dolt
    (loader_or_loaders : (Dolt.t -> M W string) + list (Dolt.t -> M W string))
    (clone push_ : bool) (remote_name : string) (remote_url : option string)
    (dolt_dir : option string) (dry_run : bool) : MX W unit :=
  letx ctx := core (DoltHubContext__init__ remote_url dolt_dir remote_name None) in
  with_as
    (letx '(_, x) := __enter__ ctx in retx x)
    __exit__
    (fun dolthub_context =>
       letx d := attr_dolt dolthub_context in
       if negb dry_run then
         for_eachx (to_list loader_or_loaders)
           (fun dolt_loader =>
              letx d := attr_dolt dolthub_context in
              letx branch := core (dolt_loader d) in
              if push_ then
                letx d := attr_dolt dolthub_context in
                core (Dolt.push run d remote_name (Some branch) false false)
              else retx tt)
       else retx tt).

End Engine.

End Wrappers.

(** ** A scripted engine

    The stand-in for the binary used to run the model on concrete inputs:
    the world is the queue of the results the coming processes will give;
    each spawned process takes the next one and leaves the files alone. *)

Module Scripted.

Definition script := list Proc.

Definition run (cwd : option string) (argv : list string) (w : script)
               (fs : gset string) : script * gset string * Proc :=
  match w with
  | p :: rest => (rest, fs, p)
  | [] => ([], fs, Build_Proc 1 EmptyString "no such process scripted")
  end.

(** A process that succeeds and prints [lines], each ended by a newline. *)
Definition prints (lines : list string) : Proc :=
  Build_Proc 0 (String.concat EmptyString (map (fun l => l ++ Py.nl)%string lines))
             EmptyString.

(** A process that fails with [msg] on its error stream. *)
Definition fails (msg : string) : Proc := Build_Proc 1 EmptyString msg.

Definition mktemp (suffix : string) (fs : gset string) : string :=
  ("/tmp/tmpdoltpy" ++ suffix)%string.

Definition init (w : script) : State script := mkState w ∅ [] [].

Definition repo : Dolt.t := Dolt.mk "/repo".

End Scripted.

(** ** Vocabulary of the statements *)

(** The commit id of a row of the log query. *)
Definition row_ref (row : dict string) : string :=
  default EmptyString (dict_get "commit_hash" row).

(** The distinct elements of a list, each at the place of its first
    occurrence. *)
Definition first_seen (refs : list string) : list string :=
  fold_left (fun seen x => if Py.mem x seen then seen else seen ++ [x]) refs [].

(** The lines of a branch listing that [_get_branches] reads: those before
    the first empty line; and among them the ones that carry the marker. *)
Fixpoint listed (output : list string) : list string :=
  match output with
  | [] => []
  | line :: rest => if Py.truthy line then line :: listed rest else []
  end.

Definition marked (output : list string) : list string :=
  List.filter (Py.startswith "*") (listed output).

(** The branch a marked line stands for: its first two fields once the
    marker is dropped. *)
Definition branch_of_marked (line : string) : result DoltBranch.t :=
  let split := Py.split (Py.drop1 (Py.lstrip line)) in
  match index split 0, index split 1 with
  | Ok branch, Ok commit => Ok (DoltBranch.mk branch commit)
  | Raised e, _ | _, Raised e => Raised e
  end.

(** What is left of the staging file by a writer [call] started in state
    [s], where [resolve] is the resolution of the import mode the call
    begins with.  When the resolution returns, the staging path is the name
    [mktemp] gives in the state reached, and [os.path.exists] is false for it
    in the state the call ends in, whether it returns or raises.  When the
    resolution raises, the call raises the same in the same state: no staging
    path was chosen and nothing was written. *)
Definition staging_removed {W} (mktemp : string -> gset string -> string)
    (resolve : M W string) (call : M W unit) (s : State W) : Prop :=
  match resolve s with
  | (Ok _, s1) =>
      fst (path_exists (mktemp ".csv" (files s1)) (snd (call s))) = Ok false
  | (Raised e, s1) => call s = (Raised e, s1)
  end.

(** The scripts of a merge that stops on one conflict, and on two. *)
Definition one_conflict : Scripted.script :=
  [Scripted.prints ["* master abc"; "  feature def"];
   Scripted.prints ["On branch master"; "nothing to commit, working tree clean"];
   Scripted.prints ["Updating abc..def";
                    "Auto-merging t";
                    "CONFLICT (content): Merge conflict in t";
                    "Automatic merge failed; fix conflicts and then commit the result."];
   Scripted.prints []].

Definition two_conflicts : Scripted.script :=
  [Scripted.prints ["* master abc"; "  feature def"];
   Scripted.prints ["On branch master"; "nothing to commit, working tree clean"];
   Scripted.prints ["Updating abc..def";
                    "Auto-merging t";
                    "CONFLICT (content): Merge conflict in t";
                    "Auto-merging u";
                    "CONFLICT (content): Merge conflict in u";
                    "Automatic merge failed; fix conflicts and then commit the result."];
   Scripted.prints ["On branch master"; "Changes not staged for commit:";
                    "	modified:       t"; "	modified:       u"];
   Scripted.prints [];
   Scripted.prints ["On branch master"; "Changes to be committed:";
                    "	modified:       t"; "Changes not staged for commit:";
                    "	modified:       u"];
   Scripted.prints [];
   Scripted.prints ["On branch master"; "Changes to be committed:";
                    "	modified:       t"; "	modified:       u"];
   Scripted.prints []].

(** A listing of the tables with [t] in it, and one without. *)
Definition ls_with_t : Proc :=
  Scripted.prints ["Tables in working set:"; "	 t  q9fe3a   12"].

Definition ls_without_t : Proc :=
  Scripted.prints ["Tables in working set:"; "	 other  h7c2d1   3"].

(** [s'] has the processes of [s] and possibly more after them. *)
Definition grows {W} (s s' : State W) : Prop :=
  exists l, spawned s' = spawned s ++ l.

(** A load to the branch feature started on master: the listing, the
    checkout, then (for the loads that get that far) a dirty status, the add
    with its status, the commit, the listing and the checkout back. *)
Definition load_script (commit_result : Proc) : Scripted.script :=
  [Scripted.prints ["* master abc"; "  feature def"];
   Scripted.prints ["Switched to branch 'feature'"];
   Scripted.prints ["On branch feature"; "Changes not staged for commit:";
                    "	modified:       t"];
   Scripted.prints [];
   Scripted.prints ["On branch feature"; "Changes to be committed:";
                    "	modified:       t"];
   commit_result;
   Scripted.prints ["  master abc"; "* feature 123"];
   Scripted.prints ["Switched to branch 'master'"]].

(** A writer that reports the table [t] and one that raises. *)
Definition quiet_writer : Dolt.t -> M Scripted.script string := fun _ => ret "t".
Definition failing_writer : Dolt.t -> M Scripted.script string :=
  fun _ => raise (UserError "source unavailable").

(** A line of a listing gives a remote: its first two fields. *)
Definition remote_of_line (line : string) (r : DoltRemote.t) : Prop :=
  index (Py.split (Py.lstrip line)) 0 = Ok (DoltRemote.name r) /\
  index (Py.split (Py.lstrip line)) 1 = Ok (DoltRemote.url r).

(** A table as [ls] reports it: a tracked table has a hash and a row count,
    a system table has neither. *)
Definition table_well_formed (t : DoltTable.t) : Prop :=
  if DoltTable.system t
  then DoltTable.rows t = None /\ DoltTable.table_hash t = None
  else DoltTable.rows t <> None /\ DoltTable.table_hash t <> None.

(** The number of rows of a log table that are about the commit [ref]. *)
Definition occurrences (ref : string) (rows : list (dict string)) : nat :=
  length (List.filter (fun row => String.eqb (row_ref row) ref) rows).

(** How the parents of a record go with the number [n] of rows read for
    its commit: a pair after two rows, a single parent after one, and any
    number of rows for a commit whose first row had no parent. *)
Definition parents_match (c : DoltCommit.t) (n : nat) : Prop :=
  match DoltCommit.parent_or_parents c with
  | DoltCommit.MergeParents _ _ => n = 2
  | DoltCommit.Parent p => if Py.truthy p then n = 1 else 1 <= n
  | DoltCommit.NoParent => 1 <= n
  end.

Definition records_match (done : list (dict string)) (commits : dict DoltCommit.t) : Prop :=
  forall ref,
    match dict_get ref commits with
    | Some c => parents_match c (occurrences ref done)
    | None => occurrences ref done = 0
    end.

(** One step of a chain of transformers: the next one is given what the
    chain has made so far, unless it has raised. *)
Definition then_apply {A} (acc : result A) (t : A -> result A) : result A :=
  match acc with Ok x => t x | Raised e => Raised e end.

(** What the transformers [front] leave in the one object they are all
    called on, each finding it as its predecessor left it, and the exception
    of the first that raises, if one does; what they return is dropped. *)
Definition in_place_step {DataFrame} (acc : DataFrame * option exn)
    (t : @Loaders.DataframeTransformer DataFrame) : DataFrame * option exn :=
  match acc with
  | (data, None) =>
      match t data with
      | (data', Ok _) => (data', None)
      | (data', Raised e) => (data', Some e)
      end
  | (data, Some e) => (data, Some e)
  end.

Definition in_place_edits {DataFrame}
    (front : list (@Loaders.DataframeTransformer DataFrame)) (data : DataFrame)
  : DataFrame * option exn :=
  fold_left in_place_step front (data, None).

(** A transformer that, called on a frame holding [data], returns and
    leaves the frame as it found it. *)
Definition returns_untouched {DataFrame}
    (data : DataFrame) (t : @Loaders.DataframeTransformer DataFrame) : Prop :=
  fst (t data) = data /\ is_ok (snd (t data)) = true.

(** Two transformers on a frame of one column of integers that edit their
    argument in place and return it, one that builds a new frame, and one
    that raises. *)
Definition add_one_in_place : @Loaders.DataframeTransformer (list Z) :=
  fun data => (map Z.succ data, Ok Loaders.Argument).
Definition double_in_place : @Loaders.DataframeTransformer (list Z) :=
  fun data => (map (Z.mul 2) data, Ok Loaders.Argument).
Definition doubled : @Loaders.DataframeTransformer (list Z) :=
  fun data => (data, Ok (Loaders.Another (map (Z.mul 2) data))).
Definition raising : @Loaders.DataframeTransformer (list Z) :=
  fun data => (data, Raised (KeyError "price")).

(** Stand-ins for the csv and json readers on the scripted engine. *)
Definition no_rows : string -> result (list (dict string)) := fun _ => Ok [].
Definition no_json : string -> result unit := fun _ => Ok tt.

(** The listing of two branches with master active, and a clean status. *)
Definition on_master : Proc := Scripted.prints ["* master abc"; "  feature def"].
Definition clean_status : Proc :=
  Scripted.prints ["On branch master"; "nothing to commit, working tree clean"].

(** * Properties *)

(** ** The monad *)

Section MonadFacts.

Context {W : Type}.

Lemma bind_ok {A B} (m : M W A) (k : A -> M W B) s a s' :
  m s = (Ok a, s') -> bind m k s = k a s'.
Proof. intros H. unfold bind. now rewrite H. Qed.

Lemma bind_raised {A B} (m : M W A) (k : A -> M W B) s e s' :
  m s = (Raised e, s') -> bind m k s = (Raised e, s').
Proof. intros H. unfold bind. now rewrite H. Qed.

Lemma bind_ok_inv {A B} (m : M W A) (k : A -> M W B) s b s'' :
  bind m k s = (Ok b, s'') ->
  exists a s', m s = (Ok a, s') /\ k a s' = (Ok b, s'').
Proof.
  unfold bind. destruct (m s) as [[a|e] s'] eqn:E; intros H.
  - now exists a, s'.
  - discriminate.
Qed.

Lemma lift_ok_inv {A} (r : result A) (s : State W) a s' :
  lift r s = (Ok a, s') -> r = Ok a /\ s' = s.
Proof. unfold lift. intros H. inversion H. auto. Qed.

End MonadFacts.

(** ** Strings and dictionaries *)

Lemma mem_In (x : string) (l : list string) : Py.mem x l = true <-> In x l.
Proof.
  unfold Py.mem. rewrite existsb_exists. split.
  - intros (y & Hy & E). apply String.eqb_eq in E. now subst.
  - intros H. exists x. split; [assumption | apply String.eqb_refl].
Qed.

Lemma mem_false_not_In (x : string) (l : list string) :
  Py.mem x l = false <-> ~ In x l.
Proof.
  rewrite <- mem_In. destruct (Py.mem x l); split; congruence.
Qed.

Lemma dict_get_mem {V} (k : string) (d : dict V) :
  Py.mem k (dict_keys d) = match dict_get k d with Some _ => true | None => false end.
Proof.
  induction d as [|[k' v'] d IH]; simpl; [reflexivity|].
  destruct (String.eqb k k'); simpl; [reflexivity | exact IH].
Qed.

Lemma dict_set_keys_present {V} (k : string) (v : V) (d : dict V) :
  Py.mem k (dict_keys d) = true -> dict_keys (dict_set k v d) = dict_keys d.
Proof.
  induction d as [|[k' v'] d IH]; simpl; [discriminate|].
  destruct (String.eqb k k') eqn:E; simpl.
  - intros _. apply String.eqb_eq in E. now subst.
  - intros H. now rewrite IH.
Qed.

Lemma dict_set_keys_fresh {V} (k : string) (v : V) (d : dict V) :
  Py.mem k (dict_keys d) = false -> dict_keys (dict_set k v d) = dict_keys d ++ [k].
Proof.
  induction d as [|[k' v'] d IH]; simpl; [reflexivity|].
  destruct (String.eqb k k') eqn:E; simpl; [discriminate|].
  intros H. now rewrite IH.
Qed.

Lemma dict_get_set_eq {V} (k : string) (v : V) (d : dict V) :
  dict_get k (dict_set k v d) = Some v.
Proof.
  induction d as [|[k' v'] d IH]; simpl.
  - now rewrite String.eqb_refl.
  - destruct (String.eqb k k') eqn:E; simpl.
    + now rewrite String.eqb_refl.
    + now rewrite E.
Qed.

(** Every field [str.split()] returns is non-empty. *)
Lemma split_go_truthy (s cur : string) :
  Forall (fun f => Py.truthy f = true) (Py.split_go cur s).
Proof.
  revert cur. induction s as [|c s IH]; intros cur; simpl.
  - destruct (Py.truthy cur) eqn:E; auto.
  - destruct (Py.isspace c).
    + destruct (Py.truthy cur) eqn:E; auto.
    + apply IH.
Qed.

Lemma split_index_truthy (s : string) (i : nat) (f : string) :
  index (Py.split s) i = Ok f -> Py.truthy f = true.
Proof.
  unfold index. destruct (nth_error (Py.split s) i) as [x|] eqn:E; [|discriminate].
  intros H. inversion H. subst x.
  apply nth_error_In in E.
  pose proof (split_go_truthy s EmptyString) as HF.
  rewrite List.Forall_forall in HF. apply HF. exact E.
Qed.

(** ** [DoltCommit.parse_dolt_log_table] *)

Lemma parse_rows_keys (rows : list (dict string)) :
  forall commits lg res lg',
    DoltCommit.parse_rows rows commits lg = (Ok res, lg') ->
    dict_keys res =
    fold_left (fun seen x => if Py.mem x seen then seen else seen ++ [x])
              (map row_ref rows) (dict_keys commits).
Proof.
  induction rows as [|row rest IH]; intros commits lg res lg' H; simpl in H.
  - inversion H. reflexivity.
  - cbn [map fold_left]. unfold getitem in H.
    destruct (dict_get "commit_hash" row) as [ref|] eqn:Eref; [|discriminate].
    assert (Hr : row_ref row = ref) by (unfold row_ref; now rewrite Eref).
    rewrite Hr, (dict_get_mem ref commits).
    destruct (dict_get ref commits) as [c|] eqn:Ec.
    + destruct (dict_get "parent_hash" row) as [ph|]; [|discriminate].
      destruct (DoltCommit.append_merge_parent c ph) as [[c'|e] w]; [|discriminate].
      apply IH in H. rewrite H. f_equal.
      apply dict_set_keys_present. rewrite dict_get_mem. now rewrite Ec.
    + destruct (dict_get "date" row); [|discriminate].
      destruct (dict_get "committer" row); [|discriminate].
      destruct (dict_get "email" row); [|discriminate].
      destruct (dict_get "message" row); [|discriminate].
      destruct (dict_get "parent_hash" row); [|discriminate].
      apply IH in H. rewrite H. f_equal.
      apply dict_set_keys_fresh. rewrite dict_get_mem. now rewrite Ec.
Qed.

Lemma first_seen_step_NoDup (refs : list string) :
  forall seen, NoDup seen ->
    NoDup (fold_left (fun seen x => if Py.mem x seen then seen else seen ++ [x]) refs seen).
Proof.
  induction refs as [|x refs IH]; intros seen Hs; simpl; [exact Hs|].
  apply IH. destruct (Py.mem x seen) eqn:E; [exact Hs|].
  apply NoDup_app. split; [exact Hs|]. split.
  - intros y Hy Hx. apply list_elem_of_In in Hy, Hx.
    destruct Hx as [<-|[]]. apply mem_false_not_In in E. contradiction.
  - apply NoDup_singleton.
Qed.

(** C8: the log parser folds the edge list into one record per commit id,
    in first-seen order; a repeated id turns the single parent of its record
    into a merge-parent pair and adds no record; for the edges (C2,C1),
    (C3,C1), (C3,C2) the record of C3 is the only one for C3 and holds the
    pair (C1, C2). *)
Theorem parse_dolt_log_table_folds :
  (forall rows commits lg,
      DoltCommit.parse_dolt_log_table rows = (Ok commits, lg) ->
      dict_keys commits = first_seen (map row_ref rows) /\ NoDup (dict_keys commits))
  /\
  (forall row rest commits lg ref ph c p,
      getitem row "commit_hash" = Ok ref ->
      getitem row "parent_hash" = Ok ph ->
      dict_get ref commits = Some c ->
      DoltCommit.parent_or_parents c = DoltCommit.Parent p ->
      Py.truthy p = true ->
      let c' := DoltCommit.set_parents c (DoltCommit.MergeParents p ph) in
      DoltCommit.parse_rows (row :: rest) commits lg =
      DoltCommit.parse_rows rest (dict_set ref c' commits) lg
      /\ dict_keys (dict_set ref c' commits) = dict_keys commits
      /\ dict_get ref (dict_set ref c' commits) = Some c')
  /\
  (forall c1 c2 c3 a2 e2 d2 m2 a3 e3 d3 m3,
      c2 <> c3 ->
      Py.truthy c1 = true ->
      DoltCommit.parse_dolt_log_table
        [DoltCommit.log_row c2 c1 a2 e2 d2 m2;
         DoltCommit.log_row c3 c1 a3 e3 d3 m3;
         DoltCommit.log_row c3 c2 a3 e3 d3 m3]
      = (Ok [(c2, DoltCommit.mk c2 d2 a2 e2 m2 (DoltCommit.Parent c1));
             (c3, DoltCommit.mk c3 d3 a3 e3 m3 (DoltCommit.MergeParents c1 c2))],
         [])).
Proof.
  split; [|split].
  - intros rows commits lg H. unfold DoltCommit.parse_dolt_log_table in H.
    apply parse_rows_keys in H. simpl in H. split.
    + exact H.
    + rewrite H. apply first_seen_step_NoDup. apply NoDup_nil. exact I.
  - intros row rest commits lg ref ph c p Href Hph Hc Hp Ht c'.
    split; [|split].
    + simpl. rewrite Href, Hc, Hph.
      unfold DoltCommit.append_merge_parent. rewrite Hp, Ht.
      now rewrite app_nil_r.
    + apply dict_set_keys_present. rewrite dict_get_mem. now rewrite Hc.
    + apply dict_get_set_eq.
  - intros c1 c2 c3 a2 e2 d2 m2 a3 e3 d3 m3 Hne Ht.
    assert (E32 : String.eqb c3 c2 = false).
    { apply String.eqb_neq. congruence. }
    unfold DoltCommit.parse_dolt_log_table, DoltCommit.log_row.
    repeat (cbn; first [rewrite E32 | rewrite String.eqb_refl | rewrite Ht]).
    reflexivity.
Qed.

Lemma parse_dolt_log_table_folds_witness :
  DoltCommit.parse_dolt_log_table
    [DoltCommit.log_row "C2" "C1" "ann" "ann@x.org" "2021-01-02" "second";
     DoltCommit.log_row "C3" "C1" "bob" "bob@x.org" "2021-01-03" "merge";
     DoltCommit.log_row "C3" "C2" "bob" "bob@x.org" "2021-01-03" "merge"]
  = (Ok [("C2", DoltCommit.mk "C2" "2021-01-02" "ann" "ann@x.org" "second"
                  (DoltCommit.Parent "C1"));
         ("C3", DoltCommit.mk "C3" "2021-01-03" "bob" "bob@x.org" "merge"
                  (DoltCommit.MergeParents "C1" "C2"))],
     []).
Proof.
  destruct parse_dolt_log_table_folds as (_ & _ & H).
  apply H; [discriminate | reflexivity].
Defined.

(** ** [_apply_df_transformers] *)

Section TransformerFacts.

Context {DataFrame : Type}.
Implicit Types (data : DataFrame) (temp : @Loaders.frame_ref DataFrame)
               (ts front : list (@Loaders.DataframeTransformer DataFrame)).

Lemma in_place_raised front :
  forall data e, fold_left in_place_step front (data, Some e) = (data, Some e).
Proof. induction front as [|t front IH]; intros data e; [reflexivity | apply IH]. Qed.

(** The loop over [front ++ [t_last]]: the last call finds the object as
    the calls before it left it, and [temp] is what the last call returns. *)
Lemma apply_loop_snoc front t_last :
  forall data temp,
    Loaders.apply_loop data (front ++ [t_last]) temp
    = match in_place_edits front data with
      | (data', None) => t_last data'
      | (data', Some e) => (data', Raised e)
      end.
Proof.
  unfold in_place_edits.
  induction front as [|t front IH]; intros data temp.
  - cbn. destruct (t_last data) as [data' [r|e]]; reflexivity.
  - cbn [app Loaders.apply_loop fold_left in_place_step].
    destruct (t data) as [data' [r|e]].
    + apply IH.
    + now rewrite in_place_raised.
Qed.

Lemma in_place_edits_untouched front data :
  Forall (returns_untouched data) front ->
  in_place_edits front data = (data, None).
Proof.
  unfold in_place_edits.
  induction front as [|t front IH]; intros Hall; [reflexivity|].
  inversion Hall as [|? ? [Hfst Hok] Hrest]; subst.
  cbn [fold_left in_place_step].
  destruct (t data) as [data' [r|e]]; cbn in Hfst, Hok; [|discriminate].
  subst data'. now apply IH.
Qed.

Lemma split_last ts :
  ts <> [] -> exists front t_last, ts = front ++ [t_last].
Proof.
  intros Hne. destruct (exists_last Hne) as (front & t_last & ->). now exists front, t_last.
Qed.

(** C10, as the code has it: with two or more transformers, every call is
    on the one object [data] and the frame returned is the one the last
    call returns; the last transformer finds the object as the earlier ones
    left it, and the first exception ends the loop.  So when each earlier
    transformer returns and leaves the frame as it found it, the result is
    what the last transformer makes of the original input. *)
Theorem apply_df_transformers_last data ts :
  2 <= length ts ->
  exists front t_last,
    ts = front ++ [t_last] /\
    front <> [] /\
    Loaders._apply_df_transformers data (Some ts)
    = match in_place_edits front data with
      | (data', None) => t_last data'
      | (data', Some e) => (data', Raised e)
      end /\
    (Forall (returns_untouched data) front ->
     Loaders._apply_df_transformers data (Some ts) = t_last data).
Proof.
  intros Hlen.
  destruct (split_last ts) as (front & t_last & ->).
  { intros ->. simpl in Hlen. lia. }
  exists front, t_last.
  assert (Hfront : front <> []).
  { intros ->. simpl in Hlen. lia. }
  assert (Heq : Loaders._apply_df_transformers data (Some (front ++ [t_last]))
                = Loaders.apply_loop data (front ++ [t_last]) (Loaders.Another data)).
  { unfold Loaders._apply_df_transformers.
    destruct (front ++ [t_last]) eqn:E; [|reflexivity].
    now destruct front. }
  repeat split; try assumption.
  - rewrite Heq. apply apply_loop_snoc.
  - intros Hall. rewrite Heq, apply_loop_snoc.
    now rewrite (in_place_edits_untouched _ _ Hall).
Qed.

End TransformerFacts.

Lemma apply_df_transformers_last_witness :
  exists front t_last,
    [doubled; add_one_in_place; doubled] = front ++ [t_last] /\
    front <> [] /\
    Loaders._apply_df_transformers [3%Z] (Some [doubled; add_one_in_place; doubled])
    = match in_place_edits front [3%Z] with
      | (data', None) => t_last data'
      | (data', Some e) => (data', Raised e)
      end /\
    (Forall (returns_untouched [3%Z]) front ->
     Loaders._apply_df_transformers [3%Z] (Some [doubled; add_one_in_place; doubled])
     = t_last [3%Z]).
Proof.
  apply (apply_df_transformers_last [3%Z] [doubled; add_one_in_place; doubled]).
  simpl. lia.
Defined.

(** Transformers that edit the frame in place are composed: after
    [add_one_in_place] the last transformer doubles [4], not [3], so the
    frame returned is not what the last transformer makes of the original
    input.  And a transformer that raises before the last one ends the call,
    which then returns nothing. *)
Lemma apply_df_transformers_composes_in_place_edits :
  Loaders.frame_of
    (Loaders._apply_df_transformers [3%Z] (Some [add_one_in_place; double_in_place]))
  = Ok [8%Z]
  /\ Loaders.frame_of (double_in_place [3%Z]) = Ok [6%Z]
  /\ Loaders.frame_of
       (Loaders._apply_df_transformers [3%Z] (Some [add_one_in_place; double_in_place]))
     <> Loaders.frame_of (double_in_place [3%Z])
  /\ Loaders.frame_of
       (Loaders._apply_df_transformers [3%Z] (Some [add_one_in_place; doubled]))
     = Ok [8%Z]
  /\ Loaders.frame_of (doubled [3%Z]) = Ok [6%Z]
  /\ Loaders.frame_of (Loaders._apply_df_transformers [3%Z] (Some [raising; doubled]))
     = Raised (KeyError "price").
Proof. repeat split. discriminate. Qed.

(** Transformers that build new frames are not composed: the second
    doubling is of [3] again, not of the [6] the first one returned. *)
Example apply_df_transformers_not_composed :
  Loaders._apply_df_transformers [3%Z] (Some [doubled; doubled])
  = ([3%Z], Ok (Loaders.Another [6%Z])).
Proof. reflexivity. Qed.

(** ** [Dolt._get_branches] *)

Lemma branches_loop_grows (output : list string) :
  forall branches active branches' active',
    Dolt.branches_loop output branches active = Ok (branches', active') ->
    forall b, In b branches -> In b branches'.
Proof.
  induction output as [|line rest IH]; intros brs act brs' act' H b Hb; simpl in H.
  - inversion H. now subst.
  - destruct (Py.truthy line); simpl in H; [|inversion H; now subst].
    destruct (Py.startswith "*" line).
    + destruct (index (Py.split (Py.drop1 (Py.lstrip line))) 0); [|discriminate].
      destruct (index (Py.split (Py.drop1 (Py.lstrip line))) 1); [|discriminate].
      eapply IH; [exact H|]. apply in_or_app. now left.
    + destruct (index (Py.split (Py.lstrip line)) 0); [|discriminate].
      destruct (index (Py.split (Py.lstrip line)) 1); [|discriminate].
      eapply IH; [exact H|]. apply in_or_app. now left.
Qed.

(** The loop leaves in [active_branch] the branch of the last marked line,
    and that branch is in the list; without a marked line it leaves
    [active_branch] as it was. *)
Lemma branches_loop_active (output : list string) :
  forall branches active branches' active',
    Dolt.branches_loop output branches active = Ok (branches', active') ->
    match last (marked output) with
    | Some line =>
        exists b, branch_of_marked line = Ok b /\ active' = Some b /\ In b branches'
    | None => active' = active
    end.
Proof.
  induction output as [|line rest IH]; intros brs act brs' act' H; simpl in H.
  - inversion H. reflexivity.
  - unfold marked. cbn [listed].
    destruct (Py.truthy line); simpl in H; [|inversion H; reflexivity].
    cbn [List.filter].
    destruct (Py.startswith "*" line) eqn:Estar.
    + rewrite last_cons. fold (marked rest).
      destruct (index (Py.split (Py.drop1 (Py.lstrip line))) 0) as [bn|] eqn:E0;
        [|discriminate].
      destruct (index (Py.split (Py.drop1 (Py.lstrip line))) 1) as [cm|] eqn:E1;
        [|discriminate].
      pose proof (IH _ _ _ _ H) as IH'.
      destruct (last (marked rest)) as [line'|]; [exact IH'|].
      exists (DoltBranch.mk bn cm). split; [|split].
      * unfold branch_of_marked. now rewrite E0, E1.
      * exact IH'.
      * eapply branches_loop_grows; [exact H|].
        apply in_or_app. right. now left.
    + fold (marked rest).
      destruct (index (Py.split (Py.lstrip line)) 0); [|discriminate].
      destruct (index (Py.split (Py.lstrip line)) 1); [|discriminate].
      exact (IH _ _ _ _ H).
Qed.

Section Parsers.

Context {W : Type}.
Variable run : option string -> list string -> W -> gset string -> W * gset string * Proc.

(** C6, as the code has it: a listing without a marked line (before its
    first empty line) makes [_get_branches] fail; a listing it accepts has
    at least one marked line, the active branch returned is the one of the
    last marked line, and it is a member of the list returned.  Several
    marked lines are not an error. *)
Theorem get_branches_active (self : Dolt.t) (s s1 : State W) (output : list string) :
  Dolt.execute run self ["branch"; "--list"; "--verbose"] true s = (Ok output, s1) ->
  (marked output = [] ->
     exists e, Dolt._get_branches run self s = (Raised e, s1))
  /\
  (forall active branches,
     Dolt._get_branches run self s = (Ok (active, branches), s1) ->
     exists line,
       last (marked output) = Some line /\
       branch_of_marked line = Ok active /\
       In active branches).
Proof.
  intros Hex. unfold Dolt._get_branches. rewrite (bind_ok _ _ _ _ _ Hex).
  unfold lift, Dolt.branches_of_output. split.
  - intros Hm.
    destruct (Dolt.branches_loop output [] None) as [[brs act]|e] eqn:E.
    + apply branches_loop_active in E. rewrite Hm in E. simpl in E. subst act.
      eexists. reflexivity.
    + eexists. reflexivity.
  - intros active branches H.
    destruct (Dolt.branches_loop output [] None) as [[brs act]|e] eqn:E;
      [|discriminate].
    destruct act as [a|]; [|discriminate].
    inversion H; subst a brs.
    apply branches_loop_active in E.
    destruct (last (marked output)) as [line|]; [|discriminate].
    destruct E as (b & Hb & Ha & Hin). inversion Ha; subst b.
    exists line. auto.
Qed.

(** C7, as the code has it: [is_clean] is set exactly when the output
    contains the word clean, and then both mappings are empty; a status
    that is not clean may have both mappings empty as well. *)
Theorem status_clean_flag (self : Dolt.t) (s s1 : State W) (output : list string) :
  Dolt.execute run self ["status"] false s = (Ok output, s1) ->
  (Py.contains "clean" (Py.join Py.nl output) = true ->
     Dolt.status run self s = (Ok (DoltStatus.mk true [] []), s1))
  /\
  (forall st,
     Dolt.status run self s = (Ok st, s1) ->
     DoltStatus.is_clean st = Py.contains "clean" (Py.join Py.nl output) /\
     (DoltStatus.is_clean st = true ->
        DoltStatus.modified_tables st = [] /\ DoltStatus.added_tables st = [])).
Proof.
  intros Hex. unfold Dolt.status. rewrite (bind_ok _ _ _ _ _ Hex).
  unfold lift, Dolt.status_of_output. split.
  - intros Hc. now rewrite Hc.
  - intros st H.
    destruct (Py.contains "clean" (Py.join Py.nl output)).
    + inversion H. subst st. simpl. auto.
    + destruct (Dolt.status_loop output false [] []) as [[ch nt]|e]; [|discriminate].
      inversion H. subst st. simpl. split; [reflexivity | discriminate].
Qed.

End Parsers.

Lemma get_branches_active_witness :
  exists line,
    last (marked ["* master abc"; "  feature def"; EmptyString]) = Some line /\
    branch_of_marked line = Ok (DoltBranch.mk "master" "abc") /\
    In (DoltBranch.mk "master" "abc")
       [DoltBranch.mk "master" "abc"; DoltBranch.mk "feature" "def"].
Proof.
  destruct (get_branches_active Scripted.run Scripted.repo
              (Scripted.init [Scripted.prints ["* master abc"; "  feature def"]])
              (mkState [] ∅ [["dolt"; "branch"; "--list"; "--verbose"]] [])
              ["* master abc"; "  feature def"; EmptyString] eq_refl) as [_ H].
  apply H. reflexivity.
Defined.

(** A listing with two marked lines is accepted: the later one wins. *)
Lemma get_branches_two_markers_accepted :
  length (marked ["* master abc"; "* feature def"; EmptyString]) = 2 /\
  fst (Dolt._get_branches Scripted.run Scripted.repo
         (Scripted.init [Scripted.prints ["* master abc"; "* feature def"]]))
  = Ok (DoltBranch.mk "feature" "def",
        [DoltBranch.mk "master" "abc"; DoltBranch.mk "feature" "def"]).
Proof. split; reflexivity. Qed.

Lemma status_clean_flag_witness :
  Dolt.status Scripted.run Scripted.repo
    (Scripted.init [Scripted.prints
       ["On branch master"; "nothing to commit, working tree clean"]])
  = (Ok (DoltStatus.mk true [] []), mkState [] ∅ [["dolt"; "status"]] []).
Proof.
  destruct (status_clean_flag Scripted.run Scripted.repo
              (Scripted.init [Scripted.prints
                 ["On branch master"; "nothing to commit, working tree clean"]])
              (mkState [] ∅ [["dolt"; "status"]] [])
              ["On branch master"; "nothing to commit, working tree clean"; EmptyString]
              eq_refl) as [H _].
  apply H. reflexivity.
Defined.

(** After a table was dropped the status is not clean and lists neither a
    modified nor a new table: the flag is false and both mappings are
    empty.  The same holds for an output that says nothing at all. *)
Lemma status_not_clean_and_empty :
  (exists st,
     fst (Dolt.status Scripted.run Scripted.repo
            (Scripted.init [Scripted.prints
               ["On branch master";
                "Changes not staged for commit:";
                "  (use dolt add to update what will be committed)";
                "	deleted:        t"]])) = Ok st /\
     ~ (DoltStatus.is_clean st = true <->
        DoltStatus.modified_tables st = [] /\ DoltStatus.added_tables st = []))
  /\
  fst (Dolt.status Scripted.run Scripted.repo (Scripted.init [Scripted.prints []]))
  = Ok (DoltStatus.mk false [] []).
Proof.
  split; [|reflexivity].
  exists (DoltStatus.mk false [] []). split; [reflexivity|].
  simpl. intros [_ H]. specialize (H (conj eq_refl eq_refl)). discriminate.
Qed.

(** ** Which processes a command spawns *)

Section Commands.

Context {W : Type}.
Variable run : option string -> list string -> W -> gset string -> W * gset string * Proc.

(** One call of [execute] is one process, whatever its outcome. *)
Lemma execute_spawned (self : Dolt.t) (args : list string) (po : bool)
      (s : State W) r s' :
  Dolt.execute run self args po s = (r, s') ->
  spawned s' = spawned s ++ ["dolt" :: args].
Proof.
  unfold Dolt.execute, bind, Dolt._execute, ret.
  destruct (run (Some (Dolt.repo_dir self)) ("dolt" :: args) (world s) (files s))
    as [[w' fs'] proc].
  destruct (exitcode proc =? 0)%Z; intros H; inversion H; reflexivity.
Qed.

Lemma get_branches_spawned (self : Dolt.t) (s : State W) r s' :
  Dolt._get_branches run self s = (r, s') ->
  spawned s' = spawned s ++ [["dolt"; "branch"; "--list"; "--verbose"]].
Proof.
  unfold Dolt._get_branches, bind.
  destruct (Dolt.execute run self ["branch"; "--list"; "--verbose"] true s)
    as [[output|e] s1] eqn:E; apply execute_spawned in E.
  - unfold lift. intros H. inversion H. subst s'. exact E.
  - intros H. inversion H. subst s'. exact E.
Qed.

Lemma status_spawned (self : Dolt.t) (s : State W) r s' :
  Dolt.status run self s = (r, s') ->
  spawned s' = spawned s ++ [["dolt"; "status"]].
Proof.
  unfold Dolt.status, bind.
  destruct (Dolt.execute run self ["status"] false s)
    as [[output|e] s1] eqn:E; apply execute_spawned in E.
  - unfold lift. intros H. inversion H. subst s'. exact E.
  - intros H. inversion H. subst s'. exact E.
Qed.

(** The active branch of an accepted listing has a non-empty name. *)
Lemma get_branches_name_truthy (self : Dolt.t) (s : State W) active branches s' :
  Dolt._get_branches run self s = (Ok (active, branches), s') ->
  Py.truthy (DoltBranch.name active) = true.
Proof.
  intros H. unfold Dolt._get_branches in H.
  apply bind_ok_inv in H as (output & s1 & Hex & H).
  apply lift_ok_inv in H as [H _].
  unfold Dolt.branches_of_output in H.
  destruct (Dolt.branches_loop output [] None) as [[brs act]|e] eqn:E; [|discriminate].
  destruct act as [a|]; [|discriminate]. inversion H; subst a brs.
  apply branches_loop_active in E.
  destruct (last (marked output)) as [line|]; [|discriminate].
  destruct E as (b & Hb & Ha & _). inversion Ha; subst b.
  unfold branch_of_marked in Hb.
  destruct (index (Py.split (Py.drop1 (Py.lstrip line))) 0) as [bn|] eqn:E0;
    [|discriminate].
  destruct (index (Py.split (Py.drop1 (Py.lstrip line))) 1) as [cm|] eqn:E1;
    [|discriminate].
  inversion Hb. simpl. eapply split_index_truthy. exact E0.
Qed.

(** C5, as the code has it: [schema_import], [table_import] and [branch]
    reject two or more mode flags without spawning anything (the state is
    the one they were called in); [merge] rejects a dirty working set or a
    missing branch after the two processes it needs to find that out, the
    branch listing and the status, and before any merge process. *)
Theorem precondition_errors_before_mutation (self : Dolt.t) (s : State W) :
  (forall table filename create update replace dry_run keep_types
          file_type pks map_ float_threshold delim,
      2 <= length (Dolt.switch_count [create; update; replace]) ->
      Dolt.schema_import run self table filename create update replace dry_run
                         keep_types file_type pks map_ float_threshold delim s
      = (Raised (ValueError "Exactly one of create, update, replace must be True"), s))
  /\
  (forall table filename create_table update_table force mapping_file pk
          replace_table file_type continue_importing delim,
      2 <= length (Dolt.switch_count [create_table; update_table; replace_table]) ->
      Dolt.table_import run self table filename create_table update_table force
                        mapping_file pk replace_table file_type continue_importing
                        delim s
      = (Raised (ValueError "Exactly one of create, update, replace must be True"), s))
  /\
  (forall branch_name start_point new_branch force delete copy move,
      2 <= length (Dolt.switch_count [delete; copy; move]) ->
      Dolt.branch run self branch_name start_point new_branch force delete copy move s
      = (Raised (ValueError "At most one of delete, copy, move can be set to True"), s))
  /\
  (forall branch message squash current branches s1 st s2,
      Dolt._get_branches run self s = (Ok (current, branches), s1) ->
      Dolt.status run self s1 = (Ok st, s2) ->
      DoltStatus.is_clean st = false \/
      Py.mem branch (map DoltBranch.name branches) = false ->
      (exists msg,
         Dolt.merge run self branch message squash s = (Raised (ValueError msg), s2)) /\
      spawned s2 =
      spawned s ++ [["dolt"; "branch"; "--list"; "--verbose"]; ["dolt"; "status"]]).
Proof.
  repeat split.
  - intros table filename create update replace dry_run keep_types
           file_type pks map_ float_threshold delim H.
    unfold Dolt.schema_import.
    destruct create, update, replace; simpl in H; try lia; reflexivity.
  - intros table filename create_table update_table force mapping_file pk
           replace_table file_type continue_importing delim H.
    unfold Dolt.table_import.
    destruct create_table, update_table, replace_table; simpl in H; try lia; reflexivity.
  - intros branch_name start_point new_branch force delete copy move H.
    unfold Dolt.branch.
    destruct delete, copy, move; simpl in H; try lia; reflexivity.
  - rename H into Hb, H0 into Hs, H1 into Hpre.
    unfold Dolt.merge. rewrite (bind_ok _ _ _ _ _ Hb). cbn beta iota.
    rewrite (bind_ok _ _ _ _ _ Hs).
    destruct Hpre as [Hd | Hm].
    + rewrite Hd. simpl. eexists. reflexivity.
    + destruct (DoltStatus.is_clean st); simpl.
      * rewrite Hm. simpl. eexists. reflexivity.
      * eexists. reflexivity.
  - rename H into Hb, H0 into Hs.
    apply get_branches_spawned in Hb. apply status_spawned in Hs.
    rewrite Hs, Hb, <- app_assoc. reflexivity.
Qed.

End Commands.

Lemma precondition_errors_before_mutation_witness :
  Dolt.schema_import Scripted.run Scripted.repo "t" "t.csv" true true false false false
                     None (Some ["id"]) None None None (Scripted.init [])
  = (Raised (ValueError "Exactly one of create, update, replace must be True"),
     Scripted.init [])
  /\
  Dolt.table_import Scripted.run Scripted.repo "t" "t.csv" true false false
                    None (Some ["id"]) true None false None (Scripted.init [])
  = (Raised (ValueError "Exactly one of create, update, replace must be True"),
     Scripted.init [])
  /\
  Dolt.branch Scripted.run Scripted.repo (Some "old") None (Some "new")
              false false true true (Scripted.init [])
  = (Raised (ValueError "At most one of delete, copy, move can be set to True"),
     Scripted.init [])
  /\
  ((exists msg,
      Dolt.merge Scripted.run Scripted.repo "feature" "msg" false
        (Scripted.init [Scripted.prints ["* master abc"]; Scripted.prints ["clean"]])
      = (Raised (ValueError msg),
         mkState [] ∅ [["dolt"; "branch"; "--list"; "--verbose"]; ["dolt"; "status"]] []))
   /\
   spawned (mkState ([] : Scripted.script) ∅
              [["dolt"; "branch"; "--list"; "--verbose"]; ["dolt"; "status"]] [])
   = spawned (Scripted.init [Scripted.prints ["* master abc"]; Scripted.prints ["clean"]])
     ++ [["dolt"; "branch"; "--list"; "--verbose"]; ["dolt"; "status"]]).
Proof.
  destruct (precondition_errors_before_mutation Scripted.run Scripted.repo
              (Scripted.init [])) as (H1 & H2 & H3 & _).
  destruct (precondition_errors_before_mutation Scripted.run Scripted.repo
              (Scripted.init [Scripted.prints ["* master abc"]; Scripted.prints ["clean"]]))
    as (_ & _ & _ & H4).
  split; [|split; [|split]].
  - apply H1. simpl. lia.
  - apply H2. simpl. lia.
  - apply H3. simpl. lia.
  - apply (H4 "feature" "msg" false (DoltBranch.mk "master" "abc")
              [DoltBranch.mk "master" "abc"]
              (mkState [Scripted.prints ["clean"]] ∅
                       [["dolt"; "branch"; "--list"; "--verbose"]] [])
              (DoltStatus.mk true [] [])).
    + reflexivity.
    + reflexivity.
    + right. reflexivity.
Defined.

(** [merge] on a dirty working set raises, but only after two processes
    were spawned. *)
Lemma merge_dirty_spawns_queries :
  let r := Dolt.merge Scripted.run Scripted.repo "feature" "msg" false
             (Scripted.init
                [Scripted.prints ["* master abc"; "  feature def"];
                 Scripted.prints ["On branch master";
                                  "Changes not staged for commit:";
                                  "	modified:       t"]]) in
  fst r = Raised (ValueError
            "Changes in the working set, please commit before merging feature to master")
  /\ spawned (snd r) = [["dolt"; "branch"; "--list"; "--verbose"]; ["dolt"; "status"]]
  /\ spawned (snd r) <> [].
Proof. repeat split. discriminate. Qed.

(** ** [Dolt.merge] *)

Section Merge.

Context {W : Type}.
Variable run : option string -> list string -> W -> gset string -> W * gset string * Proc.

(** X29: the path that does abort.  When the merge process prints exactly
    five lines (the last being the empty one after the final newline) and
    the third starts with CONFLICT, [merge] logs the two warnings, spawns
    [dolt merge --abort] as its last process and returns what the abort
    gives; no status, add or commit follows the merge. *)
Theorem merge_conflict_aborts (self : Dolt.t) (branch message : string) (squash : bool)
    (s s1 s2 s3 s5 : State W) current branches st output line r :
  Dolt._get_branches run self s = (Ok (current, branches), s1) ->
  Dolt.status run self s1 = (Ok st, s2) ->
  DoltStatus.is_clean st = true ->
  Py.mem branch (map DoltBranch.name branches) = true ->
  Dolt.execute run self ((if squash then ["merge"; "--squash"] else ["merge"]) ++ [branch])
               true s2 = (Ok output, s3) ->
  length output = 5 ->
  index output 2 = Ok line ->
  Py.startswith "CONFLICT" line = true ->
  Dolt.execute run self ["merge"; "--abort"] true
    (mkState (world s3) (files s3) (spawned s3)
       (log s3 ++
        [(WARNING, Dolt.conflict_warning branch (DoltBranch.name current) line);
         (WARNING, "Aborting as interactive merge not supported in Doltpy")]))
  = (r, s5) ->
  Dolt.merge run self branch message squash s
  = (match r with Ok _ => Ok tt | Raised e => Raised e end, s5)
  /\ spawned s5 = spawned s3 ++ [["dolt"; "merge"; "--abort"]]
  /\ last (spawned s5) = Some ["dolt"; "merge"; "--abort"].
Proof.
  intros Hb Hs Hclean Hmem Hm Hlen Hline Hconf Habort.
  pose proof (execute_spawned _ _ _ _ _ _ _ Habort) as Hsp. simpl in Hsp.
  split; [|split].
  - unfold Dolt.merge. rewrite (bind_ok _ _ _ _ _ Hb). cbn beta iota.
    rewrite (bind_ok _ _ _ _ _ Hs). rewrite Hclean, Hmem. cbn [negb].
    assert (Hargs : (if squash then ["merge"] ++ ["--squash"] else ["merge"]) ++ [branch]
                    = (if squash then ["merge"; "--squash"] else ["merge"]) ++ [branch])
      by (destruct squash; reflexivity).
    rewrite Hargs. rewrite (bind_ok _ _ _ _ _ Hm).
    rewrite Hlen. cbn [Nat.eqb].
    unfold bind at 1. unfold ret, lift.
    unfold bind, logger. cbn beta iota.
    repeat (first [rewrite Hline | rewrite Hconf]; cbn beta iota).
    cbn [world files spawned log].
    rewrite <- app_assoc. cbn [app]. rewrite Habort.
    destruct r; reflexivity.
  - exact Hsp.
  - rewrite Hsp. apply last_snoc.
Qed.

End Merge.

Lemma merge_conflict_aborts_witness :
  Dolt.merge Scripted.run Scripted.repo "feature" "msg" false (Scripted.init one_conflict)
  = (Ok tt,
     mkState [] ∅
       [["dolt"; "branch"; "--list"; "--verbose"]; ["dolt"; "status"];
        ["dolt"; "merge"; "feature"]; ["dolt"; "merge"; "--abort"]]
       [(WARNING, Dolt.conflict_warning "feature" "master"
                    "CONFLICT (content): Merge conflict in t");
        (WARNING, "Aborting as interactive merge not supported in Doltpy")]).
Proof.
  edestruct (merge_conflict_aborts Scripted.run Scripted.repo "feature" "msg" false
               (Scripted.init one_conflict)) as (H & _).
  - reflexivity.
  - reflexivity.
  - reflexivity.
  - reflexivity.
  - reflexivity.
  - reflexivity.
  - reflexivity.
  - reflexivity.
  - reflexivity.
  - exact H.
Defined.

(** C2 fails on the code: a merge that stops on two conflicts prints two
    more lines than the five [merge] looks for.  The output holds a CONFLICT
    marker, yet no abort is spawned and nothing is logged: [merge] reads
    the status, stages the two tables (each [add] reads the status again)
    and commits the conflicted merge. *)
Lemma merge_conflict_not_aborted :
  let r := Dolt.merge Scripted.run Scripted.repo "feature" "msg" false
             (Scripted.init two_conflicts) in
  fst r = Ok tt
  /\ spawned (snd r) =
     [["dolt"; "branch"; "--list"; "--verbose"]; ["dolt"; "status"];
      ["dolt"; "merge"; "feature"]; ["dolt"; "status"];
      ["dolt"; "add"; "t"]; ["dolt"; "status"];
      ["dolt"; "add"; "u"]; ["dolt"; "status"];
      ["dolt"; "commit"; "-m"; "msg"]]
  /\ ~ In ["dolt"; "merge"; "--abort"] (spawned (snd r))
  /\ log (snd r) = [].
Proof.
  repeat split.
  intros H. simpl in H. repeat (destruct H as [H | H]; [discriminate H|]). exact H.
Qed.

(** ** The table writers *)

Section Writers.

Context {W : Type}.
Variable run : option string -> list string -> W -> gset string -> W * gset string * Proc.
Variable mktemp : string -> gset string -> string.

(** The mode resolved is never the one the caller asked for, unless that
    is the one the table listing gives. *)
Lemma import_mode_from_listing (dolt : Dolt.t) (table : string)
      (import_mode : option string) (s : State W) m s1 :
  Write._get_import_mode_and_flags run dolt table import_mode s = (Ok m, s1) ->
  exists tables,
    Dolt.ls run dolt false false s = (Ok tables, s1) /\
    m = if Py.mem table (map DoltTable.name tables) then Write.UPDATE else Write.CREATE.
Proof.
  unfold Write._get_import_mode_and_flags.
  destruct (Py.otruthy import_mode &&
            negb (Py.mem (the import_mode) (dict_keys Write.IMPORT_MODES_TO_FLAGS)));
    [discriminate|].
  intros H. apply bind_ok_inv in H as (tables & s' & Hls & Hk).
  exists tables.
  destruct (Py.mem table (map DoltTable.name tables));
    injection Hk as <- <-; auto.
Qed.

Lemma import_helper_staging_removed (dolt : Dolt.t) (table : string)
      (write_import_file : string -> M W unit)
      import_mode primary_key commit commit_message commit_date (s : State W) :
  staging_removed mktemp
    (Write._get_import_mode_and_flags run dolt table import_mode)
    (Write._import_helper run mktemp dolt table write_import_file import_mode
                          primary_key commit commit_message commit_date) s.
Proof.
  unfold staging_removed, Write._import_helper.
  destruct (Write._get_import_mode_and_flags run dolt table import_mode s)
    as [[m|e] s1] eqn:E.
  - rewrite (bind_ok _ _ _ _ _ E).
    apply import_mode_from_listing in E as (tables & _ & Hm).
    unfold bind at 1. unfold Write.tempfile_mktemp.
    set (fname := mktemp ".csv" (files s1)).
    assert (Hfl : exists fl, Write.flags_of m = Ok fl).
    { subst m. destruct (Py.mem table (map DoltTable.name tables)); eexists; reflexivity. }
    destruct Hfl as (fl & Hfl). unfold bind at 1. unfold lift. rewrite Hfl.
    unfold finally.
    match goal with |- context [match ?body s1 with _ => _ end] =>
      destruct (body s1) as [r s2] end.
    unfold bind, path_exists.
    destruct (bool_decide (fname ∈ files s2)) eqn:Ein; simpl.
    + f_equal. apply bool_decide_eq_false.
      intros Hin. apply elem_of_difference in Hin as [_ Hne].
      apply Hne. now apply elem_of_singleton.
    + now rewrite Ein.
  - now rewrite (bind_raised _ _ _ _ _ E).
Qed.

(** C9: each of the four writers ends with its staging file removed,
    whether the import succeeded, the import process failed, or the
    callback that writes the file raised. *)
Theorem writers_remove_staging_file (dolt : Dolt.t) (table : string)
    (import_mode : option string) (primary_key : option (list string))
    (commit : bool) (commit_message : option string)
    (commit_date : option datetime) (s : State W) :
  (forall file_handle,
      staging_removed mktemp
        (Write._get_import_mode_and_flags run dolt table import_mode)
        (Write.write_file run mktemp dolt table file_handle import_mode primary_key
                          commit commit_message commit_date) s)
  /\
  (forall V (columns : dict (list V)),
      staging_removed mktemp
        (Write._get_import_mode_and_flags run dolt table import_mode)
        (Write.write_columns run mktemp dolt table columns import_mode primary_key
                             commit commit_message commit_date) s)
  /\
  (forall V (rows : list (dict V)),
      staging_removed mktemp
        (Write._get_import_mode_and_flags run dolt table import_mode)
        (Write.write_rows run mktemp dolt table rows import_mode primary_key
                          commit commit_message commit_date) s)
  /\
  (forall DataFrame (dropna : DataFrame -> option (list string) -> result DataFrame) df,
      staging_removed mktemp
        (Write._get_import_mode_and_flags run dolt table import_mode)
        (Write.write_pandas run mktemp dropna dolt table df import_mode primary_key
                            commit commit_message commit_date) s).
Proof.
  repeat split; intros; apply import_helper_staging_removed.
Qed.

(** *** The primary key *)

Lemma grows_refl (s : State W) : grows s s.
Proof. exists []. now rewrite app_nil_r. Qed.

Lemma grows_trans (s1 s2 s3 : State W) : grows s1 s2 -> grows s2 s3 -> grows s1 s3.
Proof.
  intros [l1 H1] [l2 H2]. exists (l1 ++ l2). now rewrite H2, H1, app_assoc.
Qed.

Lemma bind_grows {A B} (m : M W A) (k : A -> M W B) s r s' :
  (forall r1 s1, m s = (r1, s1) -> grows s s1) ->
  (forall a s1 r2 s2, k a s1 = (r2, s2) -> grows s1 s2) ->
  bind m k s = (r, s') -> grows s s'.
Proof.
  intros Hm Hk. unfold bind. destruct (m s) as [[a|e] s1] eqn:E; intros H.
  - eapply grows_trans; [eapply Hm; reflexivity | eapply Hk; exact H].
  - inversion H; subst. eapply Hm. reflexivity.
Qed.

Lemma execute_grows (dolt : Dolt.t) args po (s : State W) r s' :
  Dolt.execute run dolt args po s = (r, s') -> grows s s'.
Proof. intros H. eexists. eapply execute_spawned. exact H. Qed.

Lemma commit_grows (dolt : Dolt.t) msg allow_empty date (s : State W) r s' :
  Dolt.commit run dolt msg allow_empty date s = (r, s') -> grows s s'.
Proof.
  unfold Dolt.commit. apply bind_grows.
  - intros r1 s1. apply execute_grows.
  - intros a s1 r2 s2 H. inversion H. apply grows_refl.
Qed.

Lemma add_grows (dolt : Dolt.t) tables (s : State W) r s' :
  Dolt.add run dolt tables s = (r, s') -> grows s s'.
Proof.
  unfold Dolt.add. apply bind_grows.
  - intros r1 s1. apply execute_grows.
  - intros a s1 r2 s2 H. eexists. eapply status_spawned. exact H.
Qed.

(** C4, as the code has it: the primary key is required by
    [Dolt.table_import], which raises without spawning anything when it is
    asked to create or to replace without one.  The writers do not call
    it: with the mode resolved to create and no primary key, once the
    staging file is written the import process is spawned with [-c] and no
    [--pk] argument. *)
Theorem primary_key_required_by_table_import_only :
  (forall (self : Dolt.t) table filename create_table update_table force mapping_file
          pk replace_table file_type continue_importing delim (s : State W),
      length (Dolt.switch_count [create_table; update_table; replace_table]) = 1 ->
      create_table || replace_table = true ->
      Py.oltruthy pk = false ->
      exists msg,
        Dolt.table_import run self table filename create_table update_table force
                          mapping_file pk replace_table file_type continue_importing
                          delim s
        = (Raised (ValueError msg), s))
  /\
  (forall (dolt : Dolt.t) table (write_import_file : string -> M W unit)
          import_mode primary_key commit commit_message commit_date
          (s s1 s2 : State W),
      Write._get_import_mode_and_flags run dolt table import_mode s
      = (Ok Write.CREATE, s1) ->
      write_import_file (mktemp ".csv" (files s1)) s1 = (Ok tt, s2) ->
      Py.oltruthy primary_key = false ->
      exists rest,
        spawned (snd (Write._import_helper run mktemp dolt table write_import_file
                        import_mode primary_key commit commit_message commit_date s))
        = spawned s2
          ++ [["dolt"; "table"; "import"; table; "-c"; mktemp ".csv" (files s1)]]
          ++ rest).
Proof.
  split.
  - intros self table filename create_table update_table force mapping_file
           pk replace_table file_type continue_importing delim s Hone Hmode Hpk.
    unfold Dolt.table_import.
    destruct create_table, update_table, replace_table;
      simpl in Hone, Hmode; try discriminate;
      cbn [Dolt.switch_count List.filter length Nat.eqb negb];
      unfold bind, raise, ret; rewrite Hpk; cbn [negb]; eexists; reflexivity.
  - intros dolt table write_import_file import_mode primary_key commit
           commit_message commit_date s s1 s2 Hres Hw Hpk.
    unfold Write._import_helper. rewrite (bind_ok _ _ _ _ _ Hres).
    unfold bind at 1. unfold Write.tempfile_mktemp.
    set (fname := mktemp ".csv" (files s1)) in *.
    unfold bind at 1. unfold lift. cbn [Write.flags_of Write.CREATE dict_get
      Write.IMPORT_MODES_TO_FLAGS String.eqb Ascii.eqb Bool.eqb].
    rewrite Hpk. unfold finally.
    rewrite (bind_ok _ _ _ _ _ Hw).
    set (argv := ["table"; "import"; table; "-c"; fname]).
    assert (Hcleanup : forall r3 (s3 : State W),
               spawned (snd (match (let* there := path_exists fname in
                                    if there then os_remove fname else ret tt) s3
                             with
                             | (Ok _, s'') => (r3, s'')
                             | (Raised e, s'') => (@Raised unit e, s'')
                             end)) = spawned s3).
    { intros r3 s3. unfold bind, path_exists.
      destruct (bool_decide (fname ∈ files s3)); reflexivity. }
    match goal with |- context [match ?body s2 with _ => _ end] =>
      destruct (body s2) as [r3 s3] eqn:Ebody end.
    rewrite Hcleanup.
    unfold bind in Ebody at 1. cbn [app] in Ebody. fold argv in Ebody.
    destruct (Dolt.execute run dolt argv true s2) as [[o|e] s4] eqn:Eex.
    + pose proof (execute_spawned _ _ _ _ _ _ _ Eex) as Hsp.
      assert (Hg : grows s4 s3).
      { destruct commit.
        - revert Ebody. apply bind_grows.
          + intros r1 s5. apply add_grows.
          + intros a s5 r2 s6. apply commit_grows.
        - inversion Ebody. apply grows_refl. }
      destruct Hg as [l Hl]. exists l. rewrite Hl, Hsp.
      unfold argv. now rewrite <- app_assoc.
    + pose proof (execute_spawned _ _ _ _ _ _ _ Eex) as Hsp.
      inversion Ebody; subst. exists []. rewrite Hsp. reflexivity.
Qed.

End Writers.

(** The three ways out of a writer, on the scripted engine: the import
    succeeds; the import process fails; the columns fail the validation. *)
Example staging_file_removed_on_each_path :
  let ok := Write.write_rows Scripted.run Scripted.mktemp Scripted.repo "t"
              [[("id", 1)]] None (Some ["id"]) false None None
              (Scripted.init [ls_with_t; Scripted.prints ["Import completed."]]) in
  let failed := Write.write_rows Scripted.run Scripted.mktemp Scripted.repo "t"
              [[("id", 1)]] None (Some ["id"]) false None None
              (Scripted.init [ls_with_t; Scripted.fails "bad row"]) in
  let invalid := Write.write_columns Scripted.run Scripted.mktemp Scripted.repo "t"
              [("id", [1; 2]); ("v", [3])] None (Some ["id"]) false None None
              (Scripted.init [ls_with_t]) in
  (fst ok = Ok tt /\ files (snd ok) = ∅)
  /\ (is_ok (fst failed) = false /\ files (snd failed) = ∅)
  /\ (fst invalid = Raised (ValueError "Must pass columns of identical length")
      /\ files (snd invalid) = ∅).
Proof. vm_compute. repeat split. Qed.

Lemma primary_key_required_by_table_import_only_witness :
  (exists msg,
     Dolt.table_import Scripted.run Scripted.repo "t" "t.csv" true false false
                       None None false None false None (Scripted.init [])
     = (Raised (ValueError msg), Scripted.init []))
  /\
  (exists rest,
     spawned (snd (Write._import_helper Scripted.run Scripted.mktemp Scripted.repo "t"
                     (fun path => create_file path) None None false None None
                     (Scripted.init [ls_without_t; Scripted.prints ["Import completed."]])))
     = [["dolt"; "ls"; "--verbose"]]
       ++ [["dolt"; "table"; "import"; "t"; "-c"; "/tmp/tmpdoltpy.csv"]] ++ rest).
Proof.
  destruct (primary_key_required_by_table_import_only Scripted.run Scripted.mktemp)
    as [H1 H2].
  split.
  - apply H1; reflexivity.
  - apply (H2 Scripted.repo "t" (fun path => create_file path) None None false None None
              (Scripted.init [ls_without_t; Scripted.prints ["Import completed."]])
              (mkState [Scripted.prints ["Import completed."]] ∅
                       [["dolt"; "ls"; "--verbose"]] [])
              (mkState [Scripted.prints ["Import completed."]] {["/tmp/tmpdoltpy.csv"]}
                       [["dolt"; "ls"; "--verbose"]] [])).
    + reflexivity.
    + reflexivity.
    + reflexivity.
Defined.

(** A writer creating a table without a primary key raises nothing and
    spawns the import. *)
Lemma writer_without_primary_key_spawns_import :
  let r := Write.write_rows Scripted.run Scripted.mktemp Scripted.repo "t"
             [[("id", 1)]] None None false None None
             (Scripted.init [ls_without_t; Scripted.prints ["Import completed."]]) in
  fst r = Ok tt
  /\ spawned (snd r) =
     [["dolt"; "ls"; "--verbose"];
      ["dolt"; "table"; "import"; "t"; "-c"; "/tmp/tmpdoltpy.csv"]].
Proof. split; reflexivity. Qed.

(** C3 on the code: the caller asks for replace (and, on a new table, for
    force_create); the table listing decides instead, and the import runs
    with [-u] (and with [-c]). *)
Theorem write_file_requested_mode_ignored :
  let replace_ := Write.write_file Scripted.run Scripted.mktemp Scripted.repo "t"
             (Ok ["id,v"; "1,a"]) (Some "replace") (Some ["id"]) false None None
             (Scripted.init [ls_with_t; Scripted.prints ["Import completed."]]) in
  let force_ := Write.write_file Scripted.run Scripted.mktemp Scripted.repo "t"
             (Ok ["id,v"; "1,a"]) (Some "force_create") (Some ["id"]) false None None
             (Scripted.init [ls_without_t; Scripted.prints ["Import completed."]]) in
  (fst replace_ = Ok tt /\
   spawned (snd replace_) =
     [["dolt"; "ls"; "--verbose"];
      ["dolt"; "table"; "import"; "t"; "-u"; "--pk=id"; "/tmp/tmpdoltpy.csv"]])
  /\
  (fst force_ = Ok tt /\
   spawned (snd force_) =
     [["dolt"; "ls"; "--verbose"];
      ["dolt"; "table"; "import"; "t"; "-c"; "--pk=id"; "/tmp/tmpdoltpy.csv"]]).
Proof. repeat split. Qed.

(** ** [get_dolt_loader] *)

Section Loader.

Context {W : Type}.
Variable run : option string -> list string -> W -> gset string -> W * gset string * Proc.

Lemma branch0_get_branches (dolt : Dolt.t) :
  Loaders.branch0 run dolt = Dolt._get_branches run dolt.
Proof. reflexivity. Qed.

(** [dolt.checkout(name)] for a non-empty name is one process. *)
Lemma checkout_branch_spawned (dolt : Dolt.t) (name : string) (s : State W) r s' :
  Py.truthy name = true ->
  Dolt.checkout run dolt (Some name) None false None s = (r, s') ->
  spawned s' = spawned s ++ [["dolt"; "checkout"; name]].
Proof.
  intros Ht. unfold Dolt.checkout. cbn [tables_truthy andb Py.otruthy].
  rewrite Ht. unfold the. cbn [app default from_option id].
  unfold bind.
  destruct (Dolt.execute run dolt ["checkout"; name] true s) as [[o|e] s1] eqn:E;
    apply execute_spawned in E; intros H; inversion H; subst; exact E.
Qed.

(** C1, as the code has it: a load that returns has, as its last steps,
    read the branch listing and, when the active branch found there is not
    the one the load started on, spawned the checkout of that original
    branch, which succeeded and is the last process of the call.  The
    branch returned is the target. *)
Theorem loader_restores_branch_on_return
    (writer_or_writers : Loaders.DoltTableWriter + list Loaders.DoltTableWriter)
    (commit : bool) (message branch : string) (transaction_mode : option bool)
    (dolt : Dolt.t) (s s' : State W) (b : string) :
  Loaders.get_dolt_loader run writer_or_writers commit message branch
                          transaction_mode dolt s = (Ok b, s') ->
  b = branch /\
  exists original branches0 s0,
    Dolt._get_branches run dolt s = (Ok (original, branches0), s0) /\
    exists s1 current branches s2,
      Dolt._get_branches run dolt s1 = (Ok (current, branches), s2) /\
      ((DoltBranch.name current = DoltBranch.name original /\ s' = s2)
       \/
       (DoltBranch.name current <> DoltBranch.name original /\
        Dolt.checkout run dolt (Some (DoltBranch.name original)) None false None s2
        = (Ok tt, s') /\
        last (spawned s') = Some ["dolt"; "checkout"; DoltBranch.name original])).
Proof.
  intros H. unfold Loaders.get_dolt_loader in H.
  apply bind_ok_inv in H as ([original branches0] & s0 & Hb0 & H).
  rewrite branch0_get_branches in Hb0.
  destruct (negb (String.eqb branch (DoltBranch.name original)) && negb commit);
    [discriminate|].
  apply bind_ok_inv in H as (u1 & s_sw & Hsw & H).
  destruct (default false transaction_mode); [discriminate|].
  apply bind_ok_inv in H as (tables_updated & s_w & Hw & H).
  apply bind_ok_inv in H as (u2 & s1 & Hc & H).
  apply bind_ok_inv in H as ([current branches] & s2 & Hb & H).
  rewrite branch0_get_branches in Hb.
  apply bind_ok_inv in H as (u3 & s3 & Hr & H).
  injection H as <- <-.
  split; [reflexivity|].
  exists original, branches0, s0. split; [exact Hb0|].
  exists s1, current, branches, s2. split; [exact Hb|].
  destruct (String.eqb (DoltBranch.name original) (DoltBranch.name current)) eqn:E;
    cbn [negb] in Hr.
  - left. apply String.eqb_eq in E. injection Hr as _ <-. auto.
  - right. apply String.eqb_neq in E. destruct u3.
    split; [congruence|]. split; [exact Hr|].
    apply checkout_branch_spawned in Hr.
    + rewrite Hr. apply last_snoc.
    + eapply get_branches_name_truthy. exact Hb0.
Qed.

End Loader.

Lemma loader_restores_branch_on_return_witness :
  let s := Scripted.init (load_script (Scripted.prints [])) in
  let s' := mkState ([] : Scripted.script) ∅
       [["dolt"; "branch"; "--list"; "--verbose"]; ["dolt"; "checkout"; "feature"];
        ["dolt"; "status"]; ["dolt"; "add"; "t"]; ["dolt"; "status"];
        ["dolt"; "commit"; "-m"; "load t"];
        ["dolt"; "branch"; "--list"; "--verbose"]; ["dolt"; "checkout"; "master"]] [] in
  Loaders.get_dolt_loader Scripted.run (inl quiet_writer) true "load t" "feature" None
                          Scripted.repo s = (Ok "feature", s')
  /\
  exists original branches0 s0,
    Dolt._get_branches Scripted.run Scripted.repo s = (Ok (original, branches0), s0) /\
    exists s1 current branches s2,
      Dolt._get_branches Scripted.run Scripted.repo s1 = (Ok (current, branches), s2) /\
      ((DoltBranch.name current = DoltBranch.name original /\ s' = s2)
       \/
       (DoltBranch.name current <> DoltBranch.name original /\
        Dolt.checkout Scripted.run Scripted.repo (Some (DoltBranch.name original))
                      None false None s2 = (Ok tt, s') /\
        last (spawned s') = Some ["dolt"; "checkout"; DoltBranch.name original])).
Proof.
  intros s s'. split; [reflexivity|].
  apply (loader_restores_branch_on_return Scripted.run (inl quiet_writer) true
           "load t" "feature" None Scripted.repo s s' "feature").
  reflexivity.
Defined.

(** A load whose writer raises, and a load whose commit fails, end on the
    target branch: the last checkout spawned is the one to feature. *)
Lemma loader_leaves_target_branch_on_exception :
  let r := Loaders.get_dolt_loader Scripted.run (inl failing_writer) true "load t"
             "feature" None Scripted.repo
             (Scripted.init (load_script (Scripted.prints []))) in
  let r' := Loaders.get_dolt_loader Scripted.run (inl quiet_writer) true "load t"
             "feature" None Scripted.repo
             (Scripted.init (load_script (Scripted.fails "nothing to commit"))) in
  (fst r = Raised (UserError "source unavailable") /\
   spawned (snd r) =
     [["dolt"; "branch"; "--list"; "--verbose"]; ["dolt"; "checkout"; "feature"]])
  /\
  (is_ok (fst r') = false /\
   spawned (snd r') =
     [["dolt"; "branch"; "--list"; "--verbose"]; ["dolt"; "checkout"; "feature"];
      ["dolt"; "status"]; ["dolt"; "add"; "t"]; ["dolt"; "status"];
      ["dolt"; "commit"; "-m"; "load t"]]).
Proof. repeat split. Qed.

(** ** [get_df_table_writer] *)

Section DfWriter.

Context {W : Type} {DataFrame : Type}.
Variable run : option string -> list string -> W -> gset string -> W * gset string * Proc.
Variable mktemp : string -> gset string -> string.
Variable dropna : DataFrame -> option (list string) -> result DataFrame.

(** With an import mode given, and transformers before the last that leave
    the frame [get_data] returned as they found it, the frame handed to
    [write_pandas] is what the last transformer makes of that frame. *)
Lemma get_df_table_writer_writes_last (table : string) (get_data : M W DataFrame)
      (pk_cols : option (list string)) (import_mode : option string)
      (front : list (@Loaders.DataframeTransformer DataFrame))
      (t_last : @Loaders.DataframeTransformer DataFrame)
      (dolt : Dolt.t) (s s1 : State W) (data frame : DataFrame) :
  Py.otruthy import_mode = true ->
  get_data s = (Ok data, s1) ->
  Forall (returns_untouched data) front ->
  Loaders.frame_of (t_last data) = Ok frame ->
  Loaders.get_df_table_writer run mktemp dropna table get_data pk_cols import_mode
                              (Some (front ++ [t_last])) dolt s
  = (Write.write_pandas run mktemp dropna dolt table frame
                        (Some (the import_mode)) pk_cols false None None >>
     ret table) s1.
Proof.
  intros Hmode Hdata Hall Hframe.
  unfold Loaders.get_df_table_writer. rewrite Hmode.
  unfold bind at 1. unfold ret at 1.
  rewrite (bind_ok _ _ _ _ _ Hdata).
  unfold bind at 1. unfold lift.
  assert (Happ : Loaders._apply_df_transformers data (Some (front ++ [t_last]))
                 = t_last data).
  { unfold Loaders._apply_df_transformers.
    destruct (front ++ [t_last]) eqn:E; [now destruct front|].
    rewrite <- E, apply_loop_snoc.
    now rewrite (in_place_edits_untouched _ _ Hall). }
  now rewrite Happ, Hframe.
Qed.

End DfWriter.

(** ** The string primitives on examples *)

Example split_ex : Py.split "  master   3f2a " = ["master"; "3f2a"].
Proof. reflexivity. Qed.

Example split_on_ex : Py.split_on ":" "modified:  t" = ["modified"; "  t"].
Proof. reflexivity. Qed.

Example int_ex :
  Py.int "1_000" = Some 1000%Z /\ Py.int "1__0" = None /\ Py.int "-12" = Some (-12)%Z.
Proof. repeat split. Qed.

Example strip_ex : Py.strip "  a b  " = "a b".
Proof. reflexivity. Qed.

Example contains_ex :
  Py.contains "clean" "nothing to commit, working tree clean" = true /\
  Py.contains "clean" "Changes not staged for commit:" = false.
Proof. split; reflexivity. Qed.

Example ls_ex :
  Dolt.tables_of_output
    ["Tables in working set:"; "	 t  q9fe3a   12"; "System tables:"; "	 dolt_log"]
  = Ok [DoltTable.mk "t" (Some "q9fe3a") (Some 12%Z) false;
        DoltTable.mk "dolt_log" None None true].
Proof. reflexivity. Qed.

(** * Further properties of the code *)

(** ** Argument checks *)

Section ArgumentChecks.

Context {W : Type} {J : Type}.
Variable run : option string -> list string -> W -> gset string -> W * gset string * Proc.
Variable csv_DictReader : string -> result (list (dict string)).
Variable json_load : string -> result J.

(** X1: the argument checks of [reset], [checkout], [diff], [remote],
    [branch], [_config_helper] and [sql] raise [ValueError] in the state
    they were called in: nothing is spawned, nothing is logged. *)
Theorem argument_checks_spawn_nothing (self : Dolt.t) (s : State W) :
  (forall tables, exists msg,
      Dolt.reset run self tables true true s = (Raised (ValueError msg), s))
  /\
  (forall branch tables checkout_branch start_point,
      Py.otruthy branch = true -> tables_truthy tables = true ->
      exists msg,
        Dolt.checkout run self branch tables checkout_branch start_point s
        = (Raised (ValueError msg), s))
  /\
  (forall commit other_commit tables data schema summary sql where_ limit,
      2 <= length (Dolt.switch_count [data; schema; summary]) ->
      exists msg,
        Dolt.diff run self commit other_commit tables data schema summary sql
                  where_ limit s
        = (Raised (ValueError msg), s))
  /\
  (forall add name url,
      add = true \/ Py.otruthy name = false ->
      exists msg,
        Dolt.remote run self add name url (Some true) s = (Raised (ValueError msg), s))
  /\
  (forall name url,
      Py.otruthy name = false \/ Py.otruthy url = false ->
      exists msg,
        Dolt.remote run self true name url None s = (Raised (ValueError msg), s))
  /\
  (forall branch_name start_point new_branch force delete copy move,
      (force = true /\ Py.otruthy branch_name = false /\
       delete = false /\ copy = false /\ move = false)
      \/ (copy = true /\ delete = false /\ move = false /\ Py.otruthy new_branch = false)
      \/ (delete = true /\ copy = false /\ move = false /\ Py.otruthy branch_name = false)
      \/ (move = true /\ copy = false /\ delete = false /\ Py.otruthy new_branch = false) ->
      exists msg,
        Dolt.branch run self branch_name start_point new_branch force delete copy move s
        = (Raised (ValueError msg), s))
  /\
  (forall global_config local_config cwd name value add list_ get unset,
      length (Dolt.switch_count [add; list_; get; unset]) <> 1
      \/ (global_config = false /\ local_config = false)
      \/ (get = true /\ Py.otruthy value = true)
      \/ (unset = true /\ Py.otruthy name = false) ->
      exists msg,
        Dolt._config_helper run global_config local_config cwd name value
                            add list_ get unset s
        = (Raised (ValueError msg), s))
  /\
  (forall query result_format save message batch multi_db_dir,
      Py.otruthy result_format = true ->
      Py.otruthy query = false
      \/ (Py.mem (the result_format) ["csv"; "tabular"; "json"] = false) ->
      exists msg,
        Dolt.sql run csv_DictReader json_load self query result_format false
                 save message false batch multi_db_dir s
        = (Raised (ValueError msg), s)).
Proof.
  repeat apply conj.
  - intros tables. eexists. reflexivity.
  - intros branch tables cb sp Hb Ht. unfold Dolt.checkout. rewrite Hb, Ht.
    eexists. reflexivity.
  - intros commit other_commit tables data schema summary sql where_ limit H.
    unfold Dolt.diff.
    destruct data, schema, summary; simpl in H; try lia; eexists; reflexivity.
  - intros add name url [-> | Hn]; unfold Dolt.remote; simpl.
    + eexists. reflexivity.
    + destruct add; simpl.
      * eexists. reflexivity.
      * unfold bind, raise. rewrite Hn. simpl. eexists. reflexivity.
  - intros name url H. unfold Dolt.remote. simpl. unfold bind, ret, raise.
    assert (Hnu : Py.otruthy name && Py.otruthy url = false).
    { destruct H as [-> | ->]; [reflexivity | apply andb_false_r]. }
    rewrite Hnu. simpl. eexists. reflexivity.
  - intros branch_name start_point new_branch force delete copy move H.
    unfold Dolt.branch.
    destruct H as [(-> & Hbn & -> & -> & ->) | [(-> & -> & -> & Hnb) |
                   [(-> & -> & -> & Hbn) | (-> & -> & -> & Hnb)]]]; simpl.
    + rewrite Hbn. simpl. eexists. reflexivity.
    + rewrite orb_true_r. simpl.
      rewrite andb_false_r. rewrite Hnb. simpl. eexists. reflexivity.
    + rewrite Hbn. simpl. eexists. reflexivity.
    + rewrite orb_true_r. simpl.
      rewrite andb_false_r. rewrite Hnb. simpl. eexists. reflexivity.
  - intros global_config local_config cwd name value add list_ get unset H.
    unfold Dolt._config_helper.
    destruct (negb (length (Dolt.switch_count [add; list_; get; unset]) =? 1)%nat)
      eqn:Ecount; [eexists; reflexivity|].
    apply negb_false_iff, Nat.eqb_eq in Ecount.
    destruct H as [H | [(-> & ->) | [(-> & Hv) | (-> & Hn)]]].
    + contradiction.
    + eexists. reflexivity.
    + destruct add, list_, unset; simpl in Ecount; try discriminate.
      unfold bind, ret, raise. rewrite Hv. rewrite orb_true_r.
      destruct global_config, local_config; eexists; reflexivity.
    + destruct add, list_, get; simpl in Ecount; try discriminate.
      unfold bind, ret, raise. rewrite Hn. simpl.
      destruct global_config, local_config; eexists; reflexivity.
  - intros query result_format save message batch multi_db_dir Hrf H.
    unfold Dolt.sql. unfold bind at 1. unfold ret at 1.
    unfold bind at 1. unfold ret at 1. rewrite Hrf.
    destruct (Py.otruthy query) eqn:Eq.
    + destruct H as [H | H]; [discriminate|].
      simpl in H. apply orb_false_iff in H as [H1 H].
      apply orb_false_iff in H as [H2 H]. apply orb_false_iff in H as [H3 _].
      simpl. rewrite H1, H2. simpl. rewrite H3. eexists. reflexivity.
    + simpl. eexists. reflexivity.
Qed.

End ArgumentChecks.

(** ** [Dolt.branch], [Dolt.diff] *)

Section BranchDiff.

Context {W : Type}.
Variable run : option string -> list string -> W -> gset string -> W * gset string * Proc.

Lemma execute_then_listing (self : Dolt.t) (args : list string) (s : State W) r s' :
  (Dolt.execute run self args true >> Dolt._get_branches run self) s = (Ok r, s') ->
  exists s1, Dolt._get_branches run self s1 = (Ok r, s').
Proof.
  intros H. apply bind_ok_inv in H as (o & s1 & _ & Hk). now exists s1.
Qed.

(** X2: whatever the mode, a call of [branch] that returns has read the
    branch listing as its last step: the value returned is the parse of a
    listing read after the command of the mode, and the listing is the last
    process spawned. *)
Theorem branch_returns_fresh_listing (self : Dolt.t)
    (branch_name start_point new_branch : option string)
    (force delete copy move : bool) (s s' : State W) r :
  Dolt.branch run self branch_name start_point new_branch force delete copy move s
  = (Ok r, s') ->
  (exists s1, Dolt._get_branches run self s1 = (Ok r, s')) /\
  last (spawned s') = Some ["dolt"; "branch"; "--list"; "--verbose"].
Proof.
  intros H.
  assert (Hex : exists s1, Dolt._get_branches run self s1 = (Ok r, s')).
  { unfold Dolt.branch in H.
    repeat match type of H with
           | context [if ?b then _ else _] => destruct b
           end;
      try discriminate;
      first [ now exists s | eapply execute_then_listing; exact H ]. }
  split; [exact Hex|].
  destruct Hex as (s1 & Hg). apply get_branches_spawned in Hg.
  rewrite Hg. apply last_snoc.
Qed.

(** X3: [diff] with the schema switch passes the eight characters of the
    flag as eight arguments, [args.extend] being given a string. *)
Theorem diff_schema_flag_split_into_characters (self : Dolt.t)
    (commit other_commit : option string)
    (table_or_tables : option (string + list string)) (sql : bool)
    (where_ : option string) (limit : option Z) (s : State W) :
  exists rest,
    spawned (snd (Dolt.diff run self commit other_commit table_or_tables
                            false true false sql where_ limit s))
    = spawned s ++ [["dolt"; "diff"; "-"; "-"; "s"; "c"; "h"; "e"; "m"; "a"] ++ rest]
    /\ (In "--schema" rest ->
        commit = Some "--schema" \/ other_commit = Some "--schema" \/
        Py.join " " (tables_list table_or_tables) = "--schema").
Proof.
  unfold Dolt.diff. cbn [Dolt.switch_count List.filter length Nat.ltb Nat.leb].
  set (a1 := if sql then _ else _).
  set (a2 := if Py.otruthy commit then _ else _).
  set (a3 := if Py.otruthy other_commit then _ else _).
  set (a4 := if tables_truthy table_or_tables then _ else _).
  exists (skipn 9 a4). split.
  - destruct (Dolt.execute run self a4 true s) as [r1 s1] eqn:E.
    pose proof (execute_spawned _ _ _ _ _ _ _ E) as Hsp.
    unfold bind. rewrite E.
    assert (Ha4 : a4 = ["diff"; "-"; "-"; "s"; "c"; "h"; "e"; "m"; "a"] ++ skipn 9 a4).
    { unfold a4, a3, a2, a1.
      destruct sql, (Py.otruthy commit), (Py.otruthy other_commit),
        (tables_truthy table_or_tables); reflexivity. }
    destruct r1; cbn [snd ret]; rewrite Hsp; rewrite Ha4 at 1; reflexivity.
  - unfold a4, a3, a2, a1. intros Hin.
    destruct commit as [c|], other_commit as [oc|];
      destruct sql; cbn [Py.otruthy] in Hin;
      repeat match type of Hin with
             | context [if ?b then _ else _] => destruct b eqn:?
             end;
      cbn [app skipn the default from_option id] in Hin; unfold the in Hin;
      cbn in Hin;
      repeat match type of Hin with
             | _ \/ _ => destruct Hin as [Hin|Hin]
             | False => contradiction
             | "--sql" = "--schema" => discriminate
             end; subst; auto.
Qed.

End BranchDiff.

(** ** [Dolt.remote], the credentials, [repo_name] *)

Lemma index_raises_IndexError {A} (l : list A) (i : nat) (e : exn) :
  index l i = Raised e -> e = IndexError.
Proof.
  unfold index. destruct (nth_error l i); intros H; inversion H; reflexivity.
Qed.

Lemma remotes_loop_lines (output : list string) :
  forall acc res,
    Dolt.remotes_loop output acc = Ok res ->
    exists new, res = acc ++ new /\ Forall2 remote_of_line (listed output) new.
Proof.
  induction output as [|line rest IH]; intros acc res H; simpl in H.
  - inversion H. exists []. split; [now rewrite app_nil_r | constructor].
  - cbn [listed]. destruct (Py.truthy line); simpl in H.
    + destruct (index (Py.split (Py.lstrip line)) 0) as [n|] eqn:E0; [|discriminate].
      destruct (index (Py.split (Py.lstrip line)) 1) as [u|] eqn:E1; [|discriminate].
      apply IH in H as (new & -> & HF).
      exists (DoltRemote.mk n u :: new). split.
      * now rewrite <- app_assoc.
      * constructor; [split; assumption | exact HF].
    + inversion H. exists []. split; [now rewrite app_nil_r | constructor].
Qed.

(** A text that is empty or ends with a newline splits into lines of which
    the last is empty. *)
Lemma split_on_go_terminated (sep : ascii) (body : string) :
  forall cur,
    last (Py.split_on_go sep cur (body ++ String sep EmptyString)) = Some EmptyString.
Proof.
  induction body as [|c body IH]; intros cur; simpl.
  - now rewrite Ascii.eqb_refl.
  - destruct (Ascii.eqb c sep).
    + rewrite last_cons. now rewrite IH.
    + apply IH.
Qed.

Lemma creds_loop_empty_line (output : list string) :
  forall creds, In EmptyString output -> Dolt.creds_loop output creds = Raised IndexError.
Proof.
  induction output as [|line rest IH]; intros creds Hin; [contradiction|].
  cbn [Dolt.creds_loop].
  set (split := if Py.startswith "*" line then _ else _).
  destruct (index split 0) as [k|e0] eqn:E0.
  - destruct (index split 1) as [i|e1] eqn:E1.
    + destruct Hin as [Heq | Hin]; [|now apply IH].
      subst line. discriminate E1.
    + now rewrite (index_raises_IndexError _ _ _ E1).
  - now rewrite (index_raises_IndexError _ _ _ E0).
Qed.

Lemma startswith_error_one_char (c : ascii) :
  Py.startswith "error" (String c EmptyString) = false.
Proof.
  unfold Py.startswith. cbn [String.prefix].
  destruct (Ascii.ascii_dec "e" c); reflexivity.
Qed.

Lemma char_at_one_char (s : string) (i : nat) (c : string) :
  Dolt.char_at s i = Ok c -> exists a, c = String a EmptyString.
Proof.
  unfold Dolt.char_at, Py.str_index.
  destruct (Py.str_drop i s) as [|a rest]; intros H; inversion H. now exists a.
Qed.

(** No field of [s.split(sep)] holds the separator, when the text before
    the field's start holds none. *)
Lemma contains_char_cons (x c : ascii) (s : string) :
  Py.contains (String x EmptyString) (String c s)
  = Ascii.eqb x c || Py.contains (String x EmptyString) s.
Proof.
  cbn [Py.contains String.prefix].
  destruct (Ascii.ascii_dec x c) as [->|Hne].
  - rewrite Ascii.eqb_refl. now destruct s.
  - apply Ascii.eqb_neq in Hne. now rewrite Hne.
Qed.

Lemma append_cons (a : ascii) (s t : string) :
  (String a s ++ t)%string = String a (s ++ t)%string.
Proof. reflexivity. Qed.

Lemma contains_char_snoc (x c : ascii) (cur : string) :
  Py.contains (String x EmptyString) cur = false ->
  Ascii.eqb c x = false ->
  Py.contains (String x EmptyString) (cur ++ String c EmptyString) = false.
Proof.
  intros Hc Hne. induction cur as [|a cur IH].
  - change (EmptyString ++ String c EmptyString)%string with (String c EmptyString).
    rewrite contains_char_cons, Ascii.eqb_sym, Hne. reflexivity.
  - rewrite append_cons. rewrite contains_char_cons in *.
    apply orb_false_iff in Hc as [Ha Hc]. rewrite Ha. now apply IH.
Qed.

Lemma split_on_go_no_sep (sep : ascii) (s : string) :
  forall cur,
    Py.contains (String sep EmptyString) cur = false ->
    Forall (fun f => Py.contains (String sep EmptyString) f = false)
           (Py.split_on_go sep cur s).
Proof.
  induction s as [|c s IH]; intros cur Hcur; cbn [Py.split_on_go].
  - constructor; [exact Hcur | constructor].
  - destruct (Ascii.eqb c sep) eqn:E.
    + constructor; [exact Hcur|]. apply IH. reflexivity.
    + apply IH. now apply contains_char_snoc.
Qed.

Lemma split_on_go_nonempty (sep : ascii) (s : string) :
  forall cur, Py.split_on_go sep cur s <> [].
Proof.
  induction s as [|c s IH]; intros cur; cbn [Py.split_on_go]; [discriminate|].
  destruct (Ascii.eqb c sep); [discriminate | apply IH].
Qed.

Lemma replace_char_removes (a b : ascii) (s : string) :
  a <> b -> Py.contains (String a EmptyString) (Py.replace_char a b s) = false.
Proof.
  intros Hne. induction s as [|c s IH]; [reflexivity|].
  cbn [Py.replace_char]. rewrite contains_char_cons, IH, orb_false_r.
  destruct (Ascii.eqb c a) eqn:E.
  - now apply Ascii.eqb_neq.
  - now rewrite Ascii.eqb_sym.
Qed.

Lemma replace_char_keeps_absent (a b x : ascii) (s : string) :
  x <> b ->
  Py.contains (String x EmptyString) s = false ->
  Py.contains (String x EmptyString) (Py.replace_char a b s) = false.
Proof.
  intros Hne. induction s as [|c s IH]; [reflexivity|].
  cbn [Py.replace_char]. rewrite !contains_char_cons.
  intros H. apply orb_false_iff in H as [Hc Hs]. rewrite (IH Hs), orb_false_r.
  destruct (Ascii.eqb c a); [now apply Ascii.eqb_neq | exact Hc].
Qed.

(** X8: [repo_name] is always defined, and holds neither a slash nor a
    dash: it is the last segment of the directory with dashes turned into
    underscores. *)
Theorem repo_name_no_dash_no_slash (self : Dolt.t) :
  exists n,
    Dolt.repo_name self = Ok n /\
    Py.contains "-" n = false /\
    Py.contains "/" n = false.
Proof.
  unfold Dolt.repo_name, Py.last_item, Py.split_on.
  pose proof (split_on_go_no_sep "/" (Dolt.repo_dir self) EmptyString eq_refl) as HF.
  destruct (last (Py.split_on_go "/" EmptyString (Dolt.repo_dir self))) as [x|] eqn:El.
  - exists (Py.replace_char "-" "_" x). split; [reflexivity|]. split.
    + apply replace_char_removes. discriminate.
    + apply replace_char_keeps_absent; [discriminate|].
      rewrite List.Forall_forall in HF. apply HF.
      apply list_elem_of_In. eapply last_Some_elem_of. exact El.
  - apply last_None in El. now apply split_on_go_nonempty in El.
Qed.

Section Listings.

Context {W : Type}.
Variable run : option string -> list string -> W -> gset string -> W * gset string * Proc.

(** X4: the listing of the remotes gives one remote for each line before
    the first empty line, in order, named by the first field of the line and
    located by the second; lines after the empty line are not read. *)
Theorem remote_listing_one_per_line (self : Dolt.t) (name url : option string)
    (s s1 : State W) (output : list string) (remotes : list DoltRemote.t) :
  Dolt.execute run self ["remote"; "--verbose"] false s = (Ok output, s1) ->
  Dolt.remote run self false name url None s = (Ok (Some remotes), s1) ->
  Forall2 remote_of_line (listed output) remotes.
Proof.
  intros Hex H. unfold Dolt.remote in H. cbn [default from_option orb negb] in H.
  rewrite (bind_ok _ _ _ _ _ Hex) in H.
  apply bind_ok_inv in H as (rs & s2 & Hl & Hr).
  apply lift_ok_inv in Hl as [Hl ->]. injection Hr as <-.
  apply remotes_loop_lines in Hl as (new & -> & HF). exact HF.
Qed.

(** X5: [creds_ls] raises [IndexError] whenever the process succeeds with
    an output that is empty or ends with a newline: the last line is then
    empty, and the loop reads two fields of every line. *)
Theorem creds_ls_raises_on_terminated_output (self : Dolt.t) (s : State W) w' fs' proc :
  run (Some (Dolt.repo_dir self)) ["dolt"; "creds"; "ls"; "--verbose"]
      (world s) (files s) = (w', fs', proc) ->
  exitcode proc = 0%Z ->
  out proc = EmptyString \/ (exists body, out proc = (body ++ Py.nl)%string) ->
  fst (Dolt.creds_ls run self s) = Raised IndexError.
Proof.
  intros Hrun Hexit Hout.
  unfold Dolt.creds_ls, bind, Dolt.execute, bind, Dolt._execute.
  rewrite Hrun, Hexit. cbn [Z.eqb ret lift fst].
  apply creds_loop_empty_line.
  assert (Hlast : last (Py.split_on "010" (out proc)) = Some EmptyString).
  { destruct Hout as [-> | (body & ->)]; [reflexivity|].
    apply split_on_go_terminated. }
  apply list_elem_of_In. eapply last_Some_elem_of. exact Hlast.
Qed.

Lemma _execute_ok (args : list string) (cwd : option string) (s : State W) o s1 :
  Dolt._execute run args cwd s = (Ok o, s1) ->
  spawned s1 = spawned s ++ ["dolt" :: args] /\ log s1 = log s.
Proof.
  unfold Dolt._execute.
  destruct (run cwd ("dolt" :: args) (world s) (files s)) as [[w' fs'] proc].
  destruct (exitcode proc =? 0)%Z; intros H; inversion H; subst. auto.
Qed.

(** X6: [creds_check] never returns [False]: the text it indexes is the
    whole output, so the test is made on one character.  A call that
    returns gives [True], logs nothing, and has spawned the binary with
    [dolt] as its first argument. *)
Theorem creds_check_never_false (self : Dolt.t) (endpoint creds : option string)
    (s s' : State W) (b : bool) :
  Dolt.creds_check run self endpoint creds s = (Ok b, s') ->
  b = true /\ log s' = log s /\
  exists rest, spawned s' = spawned s ++ [["dolt"; "dolt"; "creds"; "check"] ++ rest].
Proof.
  intros H. unfold Dolt.creds_check in H.
  set (args := if Py.otruthy creds then _ else _) in H.
  apply bind_ok_inv in H as (output & s1 & Hex & H).
  apply bind_ok_inv in H as (c & s2 & Hc & H).
  apply lift_ok_inv in Hc as [Hc ->].
  destruct (char_at_one_char _ _ _ Hc) as (a & ->).
  rewrite startswith_error_one_char in H. injection H as <- <-.
  apply _execute_ok in Hex as [Hsp Hlog].
  split; [reflexivity|]. split; [exact Hlog|].
  exists (skipn 3 args). rewrite Hsp. do 2 f_equal.
  unfold args. destruct (Py.otruthy creds), (Py.otruthy endpoint); reflexivity.
Qed.

(** X7: [creds_use] never raises its "Bad public key" exception: whenever
    the process succeeds it returns [True], whatever the process printed. *)
Theorem creds_use_never_rejects (self : Dolt.t) (public_key_id : string)
    (s s1 : State W) (output : string) :
  Dolt._execute run ["creds"; "use"; public_key_id] (Some (Dolt.repo_dir self)) s
  = (Ok output, s1) ->
  Dolt.creds_use run self public_key_id s = (Ok true, s1).
Proof.
  intros Hex. unfold Dolt.creds_use. rewrite (bind_ok _ _ _ _ _ Hex).
  destruct output as [|a rest]; [reflexivity|].
  cbn [Py.truthy]. unfold bind, lift, Dolt.char_at, Py.str_index. cbn [Py.str_drop ret].
  now rewrite startswith_error_one_char.
Qed.

End Listings.

(** ** [Dolt.sql] and [read_rows] *)

Section Sql.

Context {W : Type} {J : Type}.
Variable run : option string -> list string -> W -> gset string -> W * gset string * Proc.
Variable csv_DictReader : string -> result (list (dict string)).
Variable json_load : string -> result J.

Lemma execute_log (self : Dolt.t) (args : list string) (po : bool) (s : State W) r s' :
  Dolt.execute run self args po s = (r, s') ->
  exists more, log s' = log s ++ more.
Proof.
  unfold Dolt.execute, bind, Dolt._execute.
  destruct (run _ _ _ _) as [[w' fs'] proc].
  destruct (exitcode proc =? 0)%Z; intros H; inversion H; subst; cbn [log].
  - exists []. now rewrite app_nil_r.
  - eexists. reflexivity.
Qed.

(** X9: [sql(list_saved=True)] runs the listing of the saved queries twice:
    the call made under the switch is not a return, and the arguments it
    built are executed again at the end, after a warning is logged; the
    value returned is [None]. *)
Theorem sql_list_saved_spawns_twice (self : Dolt.t) (s s1 : State W)
    (output : list string) :
  Dolt.execute run self ["sql"; "--list-saved"] true s = (Ok output, s1) ->
  let r := Dolt.sql run csv_DictReader json_load self None None false None None
                    true false None s in
  spawned (snd r)
  = spawned s ++ [["dolt"; "sql"; "--list-saved"]; ["dolt"; "sql"; "--list-saved"]]
  /\ (exists more,
        log (snd r)
        = log s1 ++ [(WARNING, "Must provide a value for result_format to get output back")]
          ++ more)
  /\ (forall v, fst r = Ok v -> v = Dolt.SqlNone).
Proof.
  intros Hex r.
  set (s2 := mkState (world s1) (files s1) (spawned s1)
               (log s1 ++
                [(WARNING, "Must provide a value for result_format to get output back")])).
  destruct (Dolt.execute run self ["sql"; "--list-saved"] true s2) as [r2 s3] eqn:E2.
  assert (Hr : r = (match r2 with Ok _ => Ok Dolt.SqlNone | Raised e => Raised e end, s3)).
  { subst r. unfold Dolt.sql. cbn [Py.otruthy orb negb app].
    unfold bind at 1. unfold bind at 1. rewrite Hex. cbn [ret].
    unfold bind at 1. cbn [ret]. unfold bind at 1. unfold logger at 1.
    fold s2. unfold bind. rewrite E2. destruct r2; reflexivity. }
  rewrite Hr. cbn [fst snd].
  pose proof (execute_spawned _ _ _ _ _ _ _ Hex) as Hsp1.
  pose proof (execute_spawned _ _ _ _ _ _ _ E2) as Hsp2. cbn [spawned s2] in Hsp2.
  destruct (execute_log _ _ _ _ _ _ E2) as (more & Hlog). cbn [log s2] in Hlog.
  split; [|split].
  - rewrite Hsp2, Hsp1, <- app_assoc. reflexivity.
  - exists more. rewrite Hlog, <- app_assoc. reflexivity.
  - intros v Hv. destruct r2; inversion Hv. reflexivity.
Qed.

(** X10: [read_rows] meets none of the argument checks of [sql] and logs no
    warning: it is one process, the query for the table in csv format, and
    the rows the csv reader makes of its output. *)
Theorem read_rows_is_one_csv_query (dolt : Dolt.t) (table : string)
    (as_of : option string) (s : State W) :
  Read.read_rows run csv_DictReader json_load dolt table as_of s
  = (let* output :=
       Dolt.execute run dolt
         ["sql"; "--query"; Read._get_read_table_asof_query table as_of;
          "--result-format"; "csv"] true in
     let* rows := lift (csv_DictReader (Py.join Py.nl output)) in
     ret (Dolt.SqlRows rows)) s.
Proof.
  unfold Read.read_rows, Read.read_rows_sql, Read._read_table_sql, Dolt.sql.
  assert (Hq : Py.otruthy (Some (Read._get_read_table_asof_query table as_of)) = true).
  { unfold Read._get_read_table_asof_query. destruct (Py.otruthy as_of); reflexivity. }
  unfold bind at 1. unfold ret at 1. unfold bind at 1. unfold ret at 1.
  cbn [Py.otruthy] in *. rewrite Hq. reflexivity.
Qed.

End Sql.

(** ** More on [Dolt.status], [Dolt.ls], [Dolt.merge] *)

Lemma dict_set_keys_NoDup {V} (k : string) (v : V) (d : dict V) :
  NoDup (dict_keys d) -> NoDup (dict_keys (dict_set k v d)).
Proof.
  intros Hd. destruct (Py.mem k (dict_keys d)) eqn:E.
  - now rewrite dict_set_keys_present.
  - rewrite dict_set_keys_fresh by exact E.
    apply NoDup_app. split; [exact Hd|]. split.
    + intros y Hy Hx. apply list_elem_of_In in Hy, Hx.
      destruct Hx as [<-|[]]. apply mem_false_not_In in E. contradiction.
    + apply NoDup_singleton.
Qed.

Lemma dict_set_values {V} (P : V -> Prop) (k : string) (v : V) (d : dict V) :
  P v -> List.Forall (fun kv => P (snd kv)) d ->
  List.Forall (fun kv => P (snd kv)) (dict_set k v d).
Proof.
  intros Hv. induction d as [|[k' v'] d IH]; intros Hd; simpl.
  - constructor; [exact Hv | constructor].
  - inversion Hd; subst. destruct (String.eqb k k').
    + constructor; assumption.
    + constructor; [assumption | now apply IH].
Qed.

Lemma status_loop_keys (output : list string) :
  forall staged changes new_tables c n,
    NoDup (dict_keys changes) -> NoDup (dict_keys new_tables) ->
    Dolt.status_loop output staged changes new_tables = Ok (c, n) ->
    NoDup (dict_keys c) /\ NoDup (dict_keys n).
Proof.
  induction output as [|line rest IH]; intros staged ch nt c n Hc Hn H;
    cbn [Dolt.status_loop] in H.
  - inversion H; subst. auto.
  - repeat match type of H with
           | context [if ?b then _ else _] => destruct b
           end;
      try (eapply IH; [| | exact H]; assumption).
    + destruct (index (Py.split_on ":" (Py.lstrip line)) 1); [|discriminate].
      eapply IH; [| | exact H]; [now apply dict_set_keys_NoDup | assumption].
    + destruct (index (Py.split_on ":" (Py.lstrip line)) 1); [|discriminate].
      eapply IH; [| | exact H]; [assumption | now apply dict_set_keys_NoDup].
Qed.

Lemma status_loop_unstaged (output : list string) :
  forall changes new_tables c n,
    (forall line, In line output ->
       Py.startswith "Changes to be committed" (Py.lstrip line) = false) ->
    List.Forall (fun kv => snd kv = false) changes ->
    List.Forall (fun kv => snd kv = false) new_tables ->
    Dolt.status_loop output false changes new_tables = Ok (c, n) ->
    List.Forall (fun kv => snd kv = false) c /\ List.Forall (fun kv => snd kv = false) n.
Proof.
  induction output as [|line rest IH]; intros ch nt c n Hno Hc Hn H;
    cbn [Dolt.status_loop] in H.
  - inversion H; subst. auto.
  - assert (Hrest : forall l, In l rest ->
              Py.startswith "Changes to be committed" (Py.lstrip l) = false).
    { intros l Hl. apply Hno. now right. }
    rewrite (Hno line (or_introl eq_refl)) in H.
    repeat match type of H with
           | context [if ?b then _ else _] => destruct b
           end;
      try (eapply IH; [exact Hrest | | | exact H]; assumption).
    + destruct (index (Py.split_on ":" (Py.lstrip line)) 1); [|discriminate].
      eapply IH; [exact Hrest | | | exact H];
        [now apply (dict_set_values (fun v => v = false)) | assumption].
    + destruct (index (Py.split_on ":" (Py.lstrip line)) 1); [|discriminate].
      eapply IH; [exact Hrest | | | exact H];
        [assumption | now apply (dict_set_values (fun v => v = false))].
Qed.

(** X11: in a status no table is listed twice in a mapping; and when no
    line of the output opens the section of the changes to be committed, no
    table is reported as staged. *)
Theorem status_tables_once_and_unstaged (output : list string) (st : DoltStatus.t) :
  Dolt.status_of_output output = Ok st ->
  NoDup (dict_keys (DoltStatus.modified_tables st)) /\
  NoDup (dict_keys (DoltStatus.added_tables st)) /\
  ((forall line, In line output ->
      Py.startswith "Changes to be committed" (Py.lstrip line) = false) ->
   forall table staged,
     In (table, staged) (DoltStatus.modified_tables st ++ DoltStatus.added_tables st) ->
     staged = false).
Proof.
  unfold Dolt.status_of_output.
  destruct (Py.contains "clean" (Py.join Py.nl output)).
  - intros H. inversion H; subst. cbn. repeat split; try apply NoDup_nil_2.
    intros _ t b [].
  - destruct (Dolt.status_loop output false [] []) as [[c n]|e] eqn:E; [|discriminate].
    intros H. inversion H; subst. cbn [DoltStatus.modified_tables DoltStatus.added_tables].
    destruct (status_loop_keys _ _ _ _ _ _ (NoDup_nil_2 : NoDup (dict_keys ([] : dict bool)))
                (NoDup_nil_2 : NoDup (dict_keys ([] : dict bool))) E) as [Hc Hn].
    split; [exact Hc|]. split; [exact Hn|].
    intros Hno table staged Hin.
    destruct (status_loop_unstaged _ _ _ _ _ Hno (List.Forall_nil _) (List.Forall_nil _) E)
      as [Fc Fn].
    apply in_app_or in Hin. rewrite List.Forall_forall in Fc, Fn.
    destruct Hin as [Hin|Hin]; [apply (Fc _ Hin) | apply (Fn _ Hin)].
Qed.

Lemma ls_tracked_well_formed (output : list string) :
  forall i tables tables' pos,
    List.Forall table_well_formed tables ->
    Dolt.ls_tracked output i tables = Ok (tables', pos) ->
    List.Forall table_well_formed tables'.
Proof.
  induction output as [|line rest IH]; intros i tables tables' pos Hw H;
    cbn [Dolt.ls_tracked] in H.
  - inversion H; subst. exact Hw.
  - destruct (Py.startswith "Tables" line || negb (Py.truthy line)).
    + eapply IH; [exact Hw | exact H].
    + destruct (Py.startswith "System" line).
      * inversion H; subst. exact Hw.
      * destruct (index (Py.split (Py.lstrip line)) 0) as [n|]; [|discriminate].
        destruct (index (Py.split (Py.lstrip line)) 1) as [h|]; [|discriminate].
        destruct (index (Py.split (Py.lstrip line)) 2) as [r|]; [|discriminate].
        destruct (Py.int r) as [rows|]; [|discriminate].
        eapply IH; [|exact H].
        apply List.Forall_app. split; [exact Hw|].
        constructor; [|constructor]. split; discriminate.
Qed.

Lemma ls_system_well_formed (output : list string) :
  forall tables,
    List.Forall table_well_formed tables ->
    List.Forall table_well_formed (Dolt.ls_system output tables).
Proof.
  induction output as [|line rest IH]; intros tables Hw; cbn [Dolt.ls_system];
    [exact Hw|].
  destruct (Py.startswith "System" line); apply IH; [exact Hw|].
  apply List.Forall_app. split; [exact Hw|].
  constructor; [|constructor]. split; reflexivity.
Qed.

(** X12: every table [ls] returns is either a tracked table with a hash and
    a row count, or a system table with neither. *)
Theorem ls_tables_well_formed (output : list string) (tables : list DoltTable.t) :
  Dolt.tables_of_output output = Ok tables ->
  List.Forall table_well_formed tables.
Proof.
  unfold Dolt.tables_of_output.
  destruct ((length output =? 3)%nat && _).
  - intros H. inversion H. constructor.
  - destruct (Dolt.ls_tracked output 0 []) as [[tr pos]|e] eqn:E; [|discriminate].
    apply ls_tracked_well_formed in E; [|constructor].
    destruct pos as [[|p]|]; intros H; inversion H; subst; try exact E.
    now apply ls_system_well_formed.
Qed.

(** X13: when the first line of the listing is the header of the system
    tables, [ls] returns no table at all: the position of the header, zero,
    is tested for truth. *)
Theorem ls_system_header_first_gives_nothing (line : string) (rest : list string) :
  Py.startswith "System" line = true ->
  Dolt.tables_of_output (line :: rest) = Ok [].
Proof.
  intros H. unfold Py.startswith in H.
  repeat (destruct line as [|? line]; [discriminate H|];
          cbn [String.prefix] in H;
          match type of H with
          | context [Ascii.ascii_dec ?a ?b] =>
              destruct (Ascii.ascii_dec a b) as [<-|]; [|discriminate H]
          end).
  unfold Dolt.tables_of_output.
  replace (String.eqb _ "No tables in working set") with false by reflexivity.
  rewrite andb_false_r. destruct line; reflexivity.
Qed.

Section MergeMore.

Context {W : Type}.
Variable run : option string -> list string -> W -> gset string -> W * gset string * Proc.

(** X14: a merge whose process prints exactly three lines, the second
    holding Fast-forward, is complete with that process: [merge] returns in
    the state the process left, without status, add or commit. *)
Theorem merge_fast_forward_stops (self : Dolt.t) (branch message : string)
    (squash : bool) (s s1 s2 s3 : State W) current branches st output line :
  Dolt._get_branches run self s = (Ok (current, branches), s1) ->
  Dolt.status run self s1 = (Ok st, s2) ->
  DoltStatus.is_clean st = true ->
  Py.mem branch (map DoltBranch.name branches) = true ->
  Dolt.execute run self ((if squash then ["merge"; "--squash"] else ["merge"]) ++ [branch])
               true s2 = (Ok output, s3) ->
  length output = 3 ->
  index output 1 = Ok line ->
  Py.contains "Fast-forward" line = true ->
  Dolt.merge run self branch message squash s = (Ok tt, s3)
  /\ spawned s3
     = spawned s ++ [["dolt"; "branch"; "--list"; "--verbose"]; ["dolt"; "status"];
                     "dolt" :: (if squash then ["merge"; "--squash"] else ["merge"])
                            ++ [branch]].
Proof.
  intros Hb Hs Hclean Hmem Hm Hlen Hline Hff. split.
  - unfold Dolt.merge. rewrite (bind_ok _ _ _ _ _ Hb). cbn beta iota.
    rewrite (bind_ok _ _ _ _ _ Hs). rewrite Hclean, Hmem. cbn [negb].
    assert (Hargs : (if squash then ["merge"] ++ ["--squash"] else ["merge"]) ++ [branch]
                    = (if squash then ["merge"; "--squash"] else ["merge"]) ++ [branch])
      by (destruct squash; reflexivity).
    rewrite Hargs. rewrite (bind_ok _ _ _ _ _ Hm).
    rewrite Hlen. cbn [Nat.eqb].
    unfold bind, lift, ret. rewrite Hline, Hff. reflexivity.
  - apply get_branches_spawned in Hb. apply status_spawned in Hs.
    apply execute_spawned in Hm. rewrite Hm, Hs, Hb, <- !app_assoc. reflexivity.
Qed.

End MergeMore.

(** ** More on [parse_dolt_log_table] *)

(** X15: a commit id that comes a third time makes the parser raise: the
    record already holds its pair of parents. *)
Theorem parse_dolt_log_table_third_parent_raises
    (ref p1 p2 p3 a e d m a' e' d' m' a'' e'' d'' m'' : string)
    (rest : list (dict string)) :
  Py.truthy p1 = true ->
  DoltCommit.parse_dolt_log_table
    (DoltCommit.log_row ref p1 a e d m ::
     DoltCommit.log_row ref p2 a' e' d' m' ::
     DoltCommit.log_row ref p3 a'' e'' d'' m'' :: rest)
  = (Raised (ValueError "Already has a merge parent set"), []).
Proof.
  intros Ht. unfold DoltCommit.parse_dolt_log_table, DoltCommit.log_row.
  repeat (cbn; first [rewrite String.eqb_refl | rewrite Ht]).
  reflexivity.
Qed.

(** X16: a commit without a parent (the parent hash of its row is empty)
    whose id comes again keeps its record as it is: the later parent is
    dropped and a warning is logged. *)
Theorem parse_dolt_log_table_root_commit_repeated
    (ref p2 a e d m a' e' d' m' : string) :
  DoltCommit.parse_dolt_log_table
    [DoltCommit.log_row ref EmptyString a e d m; DoltCommit.log_row ref p2 a' e' d' m']
  = (Ok [(ref, DoltCommit.mk ref d a e m (DoltCommit.Parent EmptyString))],
     [(WARNING, "No merge parents set")]).
Proof.
  unfold DoltCommit.parse_dolt_log_table, DoltCommit.log_row.
  repeat (cbn; rewrite ?String.eqb_refl).
  reflexivity.
Qed.

Lemma dict_get_set_ne {V} (k k' : string) (v : V) (d : dict V) :
  String.eqb k' k = false -> dict_get k' (dict_set k v d) = dict_get k' d.
Proof.
  intros Hne. induction d as [|[k0 v0] d IH]; simpl.
  - now rewrite Hne.
  - destruct (String.eqb k k0) eqn:E; simpl.
    + apply String.eqb_eq in E. subst k0. now rewrite Hne.
    + destruct (String.eqb k' k0); [reflexivity | exact IH].
Qed.

Lemma occurrences_snoc (ref : string) (done : list (dict string)) (row : dict string) :
  occurrences ref (done ++ [row])
  = occurrences ref done + (if String.eqb (row_ref row) ref then 1 else 0).
Proof.
  unfold occurrences. rewrite List.filter_app, length_app. simpl.
  destruct (String.eqb (row_ref row) ref); reflexivity.
Qed.

Lemma records_match_step (done : list (dict string)) (commits : dict DoltCommit.t)
      (row : dict string) (ref : string) (c' : DoltCommit.t) :
  row_ref row = ref ->
  records_match done commits ->
  parents_match c' (S (occurrences ref done)) ->
  records_match (done ++ [row]) (dict_set ref c' commits).
Proof.
  intros Hrow Hinv Hc' r. rewrite occurrences_snoc, Hrow.
  destruct (String.eqb ref r) eqn:E.
  - apply String.eqb_eq in E. subst r. rewrite dict_get_set_eq.
    now rewrite Nat.add_1_r.
  - rewrite dict_get_set_ne by now rewrite String.eqb_sym.
    rewrite Nat.add_0_r. apply Hinv.
Qed.

Lemma parse_rows_records_match (rows : list (dict string)) :
  forall done commits lg res lg',
    records_match done commits ->
    DoltCommit.parse_rows rows commits lg = (Ok res, lg') ->
    records_match (done ++ rows) res.
Proof.
  induction rows as [|row rest IH]; intros done commits lg res lg' Hinv H;
    cbn [DoltCommit.parse_rows] in H.
  - inversion H; subst. now rewrite app_nil_r.
  - unfold getitem in H.
    destruct (dict_get "commit_hash" row) as [ref|] eqn:Eref; [|discriminate].
    assert (Hrow : row_ref row = ref) by (unfold row_ref; now rewrite Eref).
    replace (done ++ row :: rest) with ((done ++ [row]) ++ rest)
      by now rewrite <- app_assoc.
    pose proof (Hinv ref) as Href.
    destruct (dict_get ref commits) as [c|] eqn:Ec.
    + destruct (dict_get "parent_hash" row) as [ph|]; [|discriminate].
      unfold DoltCommit.append_merge_parent in H. unfold parents_match in Href.
      destruct (DoltCommit.parent_or_parents c) as [|p|p q] eqn:Ep; [| |discriminate].
      * eapply IH; [|exact H]. apply records_match_step; [exact Hrow | exact Hinv|].
        unfold parents_match. rewrite Ep. lia.
      * destruct (Py.truthy p) eqn:Et.
        -- eapply IH; [|exact H]. apply records_match_step; [exact Hrow | exact Hinv|].
           unfold parents_match. cbn. lia.
        -- eapply IH; [|exact H]. apply records_match_step; [exact Hrow | exact Hinv|].
           unfold parents_match. rewrite Ep, Et. lia.
    + destruct (dict_get "date" row); [|discriminate].
      destruct (dict_get "committer" row); [|discriminate].
      destruct (dict_get "email" row); [|discriminate].
      destruct (dict_get "message" row); [|discriminate].
      destruct (dict_get "parent_hash" row) as [ph|]; [|discriminate].
      eapply IH; [|exact H]. apply records_match_step; [exact Hrow | exact Hinv|].
      unfold parents_match. cbn. rewrite Href. destruct (Py.truthy ph); lia.
Qed.

(** X17: in a log table the parser accepts, a record holds a pair of
    parents exactly when its commit came in two rows, and a record with a
    single parent came in one: no commit with a parent comes three times. *)
Theorem parse_dolt_log_table_parents_count (rows : list (dict string))
    (commits : dict DoltCommit.t) (lg : list (level * string))
    (ref : string) (c : DoltCommit.t) :
  DoltCommit.parse_dolt_log_table rows = (Ok commits, lg) ->
  dict_get ref commits = Some c ->
  (DoltCommit.is_merge c = true -> occurrences ref rows = 2) /\
  (forall p, DoltCommit.parent_or_parents c = DoltCommit.Parent p ->
             Py.truthy p = true -> occurrences ref rows = 1).
Proof.
  intros H Hc. unfold DoltCommit.parse_dolt_log_table in H.
  apply (parse_rows_records_match rows []) in H; [|intros r; reflexivity].
  specialize (H ref). cbn [app] in H. rewrite Hc in H. unfold parents_match in H.
  unfold DoltCommit.is_merge. split.
  - destruct (DoltCommit.parent_or_parents c); [discriminate | discriminate | auto].
  - intros p Hp Ht. rewrite Hp, Ht in H. exact H.
Qed.

(** ** The file transformers and the import mode of the writers *)

Section FileTransformers.

Context {StringIO : Type}.
Variable seek0 : StringIO -> StringIO.

Lemma then_apply_raised (ts : list (@Loaders.FileTransformer StringIO)) (e : exn) :
  fold_left then_apply ts (Raised e) = Raised e.
Proof. induction ts as [|t ts IH]; [reflexivity | exact IH]. Qed.

Lemma file_loop_chain (ts : list (@Loaders.FileTransformer StringIO)) :
  forall temp, Loaders.file_loop ts temp = fold_left then_apply ts (Ok temp).
Proof.
  induction ts as [|t ts IH]; intros temp; [reflexivity|].
  cbn [Loaders.file_loop fold_left then_apply].
  destruct (t temp) as [temp'|e]; [apply IH | now rewrite then_apply_raised].
Qed.

(** X18: the file transformers are chained: each one is given what the one
    before it returned, the first one the rewound input, and the first one
    that raises ends the chain.  (The dataframe transformers are each given
    the input instead.) *)
Theorem apply_file_transformers_chains (data : StringIO)
    (ts : list (@Loaders.FileTransformer StringIO)) :
  Loaders._apply_file_transformers seek0 data (Some ts)
  = fold_left then_apply ts (Ok (seek0 data)).
Proof.
  unfold Loaders._apply_file_transformers.
  destruct ts as [|t ts]; [reflexivity|].
  cbn [fold_left then_apply].
  destruct (t (seek0 data)) as [temp|e];
    [apply file_loop_chain | now rewrite then_apply_raised].
Qed.

End FileTransformers.

Section ImportMode.

Context {W : Type}.
Variable run : option string -> list string -> W -> gset string -> W * gset string * Proc.
Variable mktemp : string -> gset string -> string.

Lemma valid_mode_truthy (m : string) :
  Py.mem m (dict_keys Write.IMPORT_MODES_TO_FLAGS) = true -> Py.truthy m = true.
Proof. destruct m; [discriminate | reflexivity]. Qed.

Lemma import_helper_valid_mode (dolt : Dolt.t) (table : string)
      (write_import_file : string -> M W unit) (m : string)
      primary_key commit commit_message commit_date :
  Py.mem m (dict_keys Write.IMPORT_MODES_TO_FLAGS) = true ->
  Write._import_helper run mktemp dolt table write_import_file (Some m)
                       primary_key commit commit_message commit_date
  = Write._import_helper run mktemp dolt table write_import_file None
                         primary_key commit commit_message commit_date.
Proof.
  intros Hm. unfold Write._import_helper, Write._get_import_mode_and_flags.
  cbn [the default from_option id Py.otruthy]. rewrite Hm.
  now rewrite andb_false_r.
Qed.

(** X19: an import mode that is one of the four valid ones changes nothing:
    each writer does with it exactly what it does without one. *)
Theorem writers_ignore_valid_import_mode (dolt : Dolt.t) (table m : string)
    (primary_key : option (list string)) (commit : bool)
    (commit_message : option string) (commit_date : option datetime) :
  Py.mem m (dict_keys Write.IMPORT_MODES_TO_FLAGS) = true ->
  (forall file_handle,
      Write.write_file run mktemp dolt table file_handle (Some m) primary_key
                       commit commit_message commit_date
      = Write.write_file run mktemp dolt table file_handle None primary_key
                         commit commit_message commit_date)
  /\
  (forall V (columns : dict (list V)),
      Write.write_columns run mktemp dolt table columns (Some m) primary_key
                          commit commit_message commit_date
      = Write.write_columns run mktemp dolt table columns None primary_key
                            commit commit_message commit_date)
  /\
  (forall V (rows : list (dict V)),
      Write.write_rows run mktemp dolt table rows (Some m) primary_key
                       commit commit_message commit_date
      = Write.write_rows run mktemp dolt table rows None primary_key
                         commit commit_message commit_date)
  /\
  (forall DataFrame (dropna : DataFrame -> option (list string) -> result DataFrame) df,
      Write.write_pandas run mktemp dropna dolt table df (Some m) primary_key
                         commit commit_message commit_date
      = Write.write_pandas run mktemp dropna dolt table df None primary_key
                           commit commit_message commit_date).
Proof.
  intros Hm. repeat split; intros; now apply import_helper_valid_mode.
Qed.

(** X20: the same holds one level up: the writers made by
    [get_bulk_table_writer] and [get_df_table_writer] with two valid import
    modes do the same in every state. *)
Theorem table_writers_ignore_valid_import_mode (table m m' : string)
    (pk_cols : option (list string)) (dolt : Dolt.t) (s : State W) :
  Py.mem m (dict_keys Write.IMPORT_MODES_TO_FLAGS) = true ->
  Py.mem m' (dict_keys Write.IMPORT_MODES_TO_FLAGS) = true ->
  (forall StringIO (seek0 : StringIO -> StringIO)
          (readlines : StringIO -> result (list string)) get_data transformers,
      Loaders.get_bulk_table_writer run mktemp seek0 readlines table get_data pk_cols
                                    (Some m) transformers dolt s
      = Loaders.get_bulk_table_writer run mktemp seek0 readlines table get_data pk_cols
                                      (Some m') transformers dolt s)
  /\
  (forall DataFrame (dropna : DataFrame -> option (list string) -> result DataFrame)
          get_data transformers,
      Loaders.get_df_table_writer run mktemp dropna table get_data pk_cols
                                  (Some m) transformers dolt s
      = Loaders.get_df_table_writer run mktemp dropna table get_data pk_cols
                                    (Some m') transformers dolt s).
Proof.
  intros Hm Hm'.
  pose proof (valid_mode_truthy _ Hm) as Ht. pose proof (valid_mode_truthy _ Hm') as Ht'.
  split; intros.
  - unfold Loaders.get_bulk_table_writer, Write.write_file.
    cbn [Py.otruthy the default from_option id]. rewrite Ht, Ht'.
    unfold bind, ret, lift.
    destruct (get_data s) as [[data|e] s1]; [|reflexivity].
    destruct (Loaders._apply_file_transformers seek0 data transformers); [|reflexivity].
    now rewrite !import_helper_valid_mode.
  - unfold Loaders.get_df_table_writer, Write.write_pandas.
    cbn [Py.otruthy the default from_option id]. rewrite Ht, Ht'.
    unfold bind, ret, lift.
    destruct (get_data s) as [[data|e] s1]; [|reflexivity].
    destruct (Loaders.frame_of (Loaders._apply_df_transformers data transformers));
      [|reflexivity].
    now rewrite !import_helper_valid_mode.
Qed.

End ImportMode.

(** ** [get_branch_creator], [Dolt.clone], [load_to_dolt] *)

Section Outer.

Context {W : Type}.
Variable run : option string -> list string -> W -> gset string -> W * gset string * Proc.
Variable getcwd : string.
Variable mkdtemp : gset string -> string.

Lemma core_ok {A} (m : M W A) (s : State W) a s' :
  m s = (Ok a, s') -> core m s = (OkX a, s').
Proof. intros H. unfold core. now rewrite H. Qed.

Lemma bindx_ok {A B} (m : MX W A) (k : A -> MX W B) s a s' :
  m s = (OkX a, s') -> bindx m k s = k a s'.
Proof. intros H. unfold bindx. now rewrite H. Qed.

(** X21: [get_branch_creator] on a name that is in the branch listing
    raises [AssertionError] after the listing, its only process; on a new
    (non-empty) name it spawns the listing, the creation and the listing
    again, and returns the name; the refspec it is given is never used. *)
Theorem branch_creator_asserts_and_ignores_refspec (new_branch_name : string)
    (dolt : Dolt.t) (s s1 : State W) current branches :
  Dolt._get_branches run dolt s = (Ok (current, branches), s1) ->
  (Py.mem new_branch_name (map DoltBranch.name branches) = true ->
   forall refspec,
     Loaders.get_branch_creator run new_branch_name refspec dolt s
     = (RaisedX (AssertionError ("Branch " ++ new_branch_name ++ " already exists")), s1))
  /\
  (Py.mem new_branch_name (map DoltBranch.name branches) = false ->
   Py.truthy new_branch_name = true ->
   forall refspec name s',
     Loaders.get_branch_creator run new_branch_name refspec dolt s = (OkX name, s') ->
     name = new_branch_name /\
     spawned s'
     = spawned s ++ [["dolt"; "branch"; "--list"; "--verbose"];
                     ["dolt"; "branch"; new_branch_name];
                     ["dolt"; "branch"; "--list"; "--verbose"]])
  /\
  (forall refspec refspec',
     Loaders.get_branch_creator run new_branch_name refspec dolt s
     = Loaders.get_branch_creator run new_branch_name refspec' dolt s).
Proof.
  intros Hb. split; [|split].
  - intros Hmem refspec. unfold Loaders.get_branch_creator.
    rewrite (bindx_ok _ _ _ _ _ (core_ok _ _ _ _ Hb)). cbn beta iota.
    now rewrite Hmem.
  - intros Hmem Ht refspec name s' H. unfold Loaders.get_branch_creator in H.
    rewrite (bindx_ok _ _ _ _ _ (core_ok _ _ _ _ Hb)) in H. cbn beta iota in H.
    rewrite Hmem in H. unfold bindx, core in H.
    destruct (Dolt.branch run dolt (Some new_branch_name) None None
                          false false false false s1) as [[r|e] s2] eqn:E;
      [|discriminate].
    injection H as <- <-. split; [reflexivity|].
    unfold Dolt.branch in E. cbn [Dolt.switch_count List.filter length Nat.ltb Nat.leb
      Py.otruthy orb negb andb] in E. rewrite Ht in E.
    cbn [orb negb andb app the default from_option id] in E. unfold the in E.
    cbn [default from_option id] in E.
    unfold bind in E.
    destruct (Dolt.execute run dolt ["branch"; new_branch_name] true s1)
      as [[o|e] s3] eqn:Eex; [|discriminate].
    apply execute_spawned in Eex. apply get_branches_spawned in E.
    apply get_branches_spawned in Hb.
    rewrite E, Eex, Hb, <- !app_assoc. reflexivity.
  - reflexivity.
Qed.

(** X22: [clone] and [read_tables] given a directory never spawn anything:
    they raise in the state they were called in, the helper that infers the
    directory returning nothing for a directory that was given. *)
Theorem clone_into_given_directory_raises (remote_url new_dir : string)
    (s : State W) :
  Py.truthy new_dir = true ->
  (forall remote branch, exists e,
      Dolt.clone run getcwd remote_url (Some new_dir) remote branch s = (RaisedX e, s))
  /\
  (forall committish tables, exists e,
      Dolt.read_tables run getcwd remote_url committish tables (Some new_dir) s
      = (RaisedX e, s)).
Proof.
  intros Ht.
  assert (Hhelper :
            (exists e, Dolt._new_dir_helper getcwd (Some new_dir) (Some remote_url) s
                       = (RaisedX e, s))
            \/ Dolt._new_dir_helper getcwd (Some new_dir) (Some remote_url) s
               = (OkX None, s)).
  { unfold Dolt._new_dir_helper. cbn [Py.otruthy]. rewrite Ht.
    cbn [orb negb]. rewrite andb_false_r.
    unfold bindx, core, path_exists.
    destruct (bool_decide (Py.path_join (the (Some new_dir)) ".dolt" ∈ files s)).
    - left. eexists. reflexivity.
    - right. reflexivity. }
  split.
  - intros remote branch. unfold Dolt.clone.
    destruct Hhelper as [(e & He) | He]; unfold bindx; rewrite He;
      eexists; reflexivity.
  - intros committish tables. unfold Dolt.read_tables.
    destruct Hhelper as [(e & He) | He]; unfold bindx; rewrite He;
      eexists; reflexivity.
Qed.

(** X23: given only a remote URL, the helper makes the directory named by
    the last segment of the URL under the working directory and returns it;
    when that path exists it raises instead and makes nothing. *)
Theorem new_dir_helper_makes_directory (remote_url : string) (new_dir : option string)
    (s : State W) :
  Py.truthy remote_url = true ->
  Py.otruthy new_dir = false ->
  exists name,
    last (Py.split_on "/" remote_url) = Some name /\
    let d := Py.path_join getcwd name in
    Dolt._new_dir_helper getcwd new_dir (Some remote_url) s
    = if bool_decide (d ∈ files s)
      then (RaisedX (DoltDirectoryException ("Cannot create new directory " ++ d)), s)
      else (OkX (Some d),
            mkState (world s) ({[d]} ∪ files s) (spawned s) (log s)).
Proof.
  intros Hu Hn.
  destruct (last (Py.split_on "/" remote_url)) as [name|] eqn:El.
  - exists name. split; [reflexivity|]. intros d.
    unfold Dolt._new_dir_helper. cbn [Py.otruthy]. rewrite Hn, Hu. cbn [orb negb andb].
    unfold Py.last_item. cbn [the default from_option id]. unfold the.
    cbn [default from_option id]. rewrite El.
    unfold bindx at 1. unfold core at 1. unfold lift. cbn beta iota.
    fold d. unfold bindx, core, path_exists, os_mkdir, retx.
    destruct (bool_decide (d ∈ files s)); reflexivity.
  - apply last_None in El. now apply split_on_go_nonempty in El.
Qed.

Lemma enter_outcome (self : Wrappers.DoltHubContext) (s : State W) :
  let inside := bool_decide (Py.path_join (Wrappers.path self) ".dolt" ∈ files s) in
  if inside then
    exists r s',
      Dolt.execute run (Dolt.mk (Wrappers.path self)) ["pull"; Wrappers.remote self]
                   true s = (r, s') /\
      Wrappers.__enter__ run getcwd self s
      = (match r with
         | Ok _ =>
             OkX (Wrappers.mkContext (Wrappers.db_path self) (Wrappers.path self)
                    (Wrappers.remote self) (Some (Dolt.mk (Wrappers.path self)))
                    (Wrappers.tables_to_read self), None)
         | Raised e => RaisedX (Core e)
         end, s')
  else
    Wrappers.__enter__ run getcwd self s
    = (RaisedX (Core (ValueError (Wrappers.path self ++ " is not a valid Dolt repository"))),
       s).
Proof.
  intros inside. subst inside.
  unfold Wrappers.__enter__, Dolt.__init__, Dolt.pull.
  unfold except_assertion, bindx, core, bind, path_exists, raise, ret, retx.
  cbn [Dolt.repo_dir Dolt._repo_dir].
  destruct (bool_decide (Py.path_join (Wrappers.path self) ".dolt" ∈ files s));
    cbn [negb].
  - destruct (Dolt.execute run (Dolt.mk (Wrappers.path self))
                ["pull"; Wrappers.remote self] true s) as [[o|e] s'] eqn:E.
    + exists (Ok o), s'. split; reflexivity.
    + exists (Raised e), s'. split; reflexivity.
  - reflexivity.
Qed.

(** X24: [DoltHubContext.__enter__] never clones and never reads tables: on
    a directory that is not a repository it raises [ValueError] with
    nothing spawned (the handler waits for an [AssertionError] that nothing
    raises); on a repository its one process is the pull; and the value it
    returns, which a [with] statement binds, is [None]. *)
Theorem context_enter_never_clones (self : Wrappers.DoltHubContext)
    (s s' : State W) r :
  Wrappers.__enter__ run getcwd self s = (r, s') ->
  (Py.path_join (Wrappers.path self) ".dolt" ∉ files s ->
   r = RaisedX (Core (ValueError (Wrappers.path self ++ " is not a valid Dolt repository")))
   /\ s' = s)
  /\
  (Py.path_join (Wrappers.path self) ".dolt" ∈ files s ->
   spawned s' = spawned s ++ [["dolt"; "pull"; Wrappers.remote self]])
  /\
  (forall ctx x, r = OkX (ctx, x) ->
     x = None /\ Wrappers.dolt ctx = Some (Dolt.mk (Wrappers.path self))).
Proof.
  intros H. pose proof (enter_outcome self s) as Hout. cbv zeta in Hout.
  destruct (bool_decide (Py.path_join (Wrappers.path self) ".dolt" ∈ files s)) eqn:Ein.
  - apply bool_decide_eq_true in Ein.
    destruct Hout as (r0 & s0 & Hex & Henter). rewrite Henter in H.
    injection H as <- <-. split; [|split].
    + intros Hnot. contradiction.
    + intros _. eapply execute_spawned. exact Hex.
    + intros ctx x Hr. destruct r0; inversion Hr; subst. auto.
  - apply bool_decide_eq_false in Ein. rewrite Hout in H. injection H as <- <-.
    split; [|split].
    + intros _. auto.
    + intros Hin. contradiction.
    + intros ctx x Hr. discriminate.
Qed.

(** X25: [load_to_dolt] never runs a loader and never pushes: every call
    raises, at the latest when the body of its [with] statement reads the
    [dolt] attribute of the value [__enter__] returned.  What it does is
    the same whatever the loaders and the switches, and it spawns at most
    the pull. *)
Theorem load_to_dolt_never_loads
    (loader_or_loaders : (Dolt.t -> M W string) + list (Dolt.t -> M W string))
    (clone push : bool) (remote_name : string) (remote_url dolt_dir : option string)
    (dry_run : bool) (s : State W) :
  let r := Wrappers.load_to_dolt run getcwd mkdtemp loader_or_loaders clone push
                                 remote_name remote_url dolt_dir dry_run s in
  is_okx (fst r) = false
  /\ r = Wrappers.load_to_dolt run getcwd mkdtemp (inr []) false false
                               remote_name remote_url dolt_dir true s
  /\ (spawned (snd r) = spawned s \/
      spawned (snd r) = spawned s ++ [["dolt"; "pull"; remote_name]]).
Proof.
  intros r.
  destruct (Wrappers.DoltHubContext__init__ mkdtemp remote_url dolt_dir remote_name None s)
    as [rc s0] eqn:Einit.
  assert (Hinit : exists ctx, rc = Ok ctx /\ Wrappers.remote ctx = remote_name /\
                              spawned s0 = spawned s).
  { revert Einit.
    unfold Wrappers.DoltHubContext__init__, bind, Wrappers.tempfile_mkdtemp, ret.
    destruct (negb (Py.otruthy dolt_dir)); intros H; inversion H; subst;
      eexists; repeat split. }
  destruct Hinit as (ctx & -> & Hrem & Hsp0).
  (* what [__enter__] gives: an exception, or a context beside [None] *)
  assert (Henter : exists e s1,
            (Wrappers.__enter__ run getcwd ctx s0 = (RaisedX e, s1) \/
             exists c, Wrappers.__enter__ run getcwd ctx s0 = (OkX (c, None), s1) /\
                       e = AttributeError "'NoneType' object has no attribute 'dolt'")
            /\ (spawned s1 = spawned s0 \/
                spawned s1 = spawned s0 ++ [["dolt"; "pull"; remote_name]])).
  { pose proof (enter_outcome ctx s0) as Hout. cbv zeta in Hout.
    destruct (bool_decide (Py.path_join (Wrappers.path ctx) ".dolt" ∈ files s0)).
    - destruct Hout as (r0 & s1 & Hex & Hen).
      apply execute_spawned in Hex. rewrite Hrem in Hex.
      destruct r0 as [o|e].
      + eexists _, s1. split; [right; eexists; split; [exact Hen | reflexivity]|].
        now right.
      + exists (Core e), s1. split; [left; exact Hen | now right].
    - eexists _, s0. split; [left; exact Hout | now left]. }
  destruct Henter as (e & s1 & Hen & Hsp).
  (* the call ends there, whatever it was asked to load *)
  assert (Hload : forall loaders clone' push' dry,
            Wrappers.load_to_dolt run getcwd mkdtemp loaders clone' push' remote_name
                                  remote_url dolt_dir dry s = (RaisedX e, s1)).
  { intros. unfold Wrappers.load_to_dolt.
    rewrite (bindx_ok _ _ _ _ _ (core_ok _ _ _ _ Einit)).
    unfold with_as, bindx.
    destruct Hen as [Hen | (c & Hen & ->)]; rewrite Hen; reflexivity. }
  subst r. rewrite !Hload. cbn [fst snd is_okx].
  split; [reflexivity|]. split; [reflexivity|]. now rewrite <- Hsp0.
Qed.

End Outer.

(** ** More on [get_dolt_loader] *)

Lemma branches_loop_names_truthy (output : list string) :
  forall branches active branches' active',
    List.Forall (fun b => Py.truthy (DoltBranch.name b) = true) branches ->
    Dolt.branches_loop output branches active = Ok (branches', active') ->
    List.Forall (fun b => Py.truthy (DoltBranch.name b) = true) branches'.
Proof.
  induction output as [|line rest IH]; intros brs act brs' act' Hall H; simpl in H.
  - inversion H. now subst.
  - destruct (Py.truthy line); simpl in H; [|inversion H; now subst].
    destruct (Py.startswith "*" line).
    + destruct (index (Py.split (Py.drop1 (Py.lstrip line))) 0) as [bn|] eqn:E0;
        [|discriminate].
      destruct (index (Py.split (Py.drop1 (Py.lstrip line))) 1); [|discriminate].
      eapply IH; [|exact H]. apply List.Forall_app. split; [exact Hall|].
      constructor; [|constructor]. simpl. eapply split_index_truthy. exact E0.
    + destruct (index (Py.split (Py.lstrip line)) 0) as [bn|] eqn:E0; [|discriminate].
      destruct (index (Py.split (Py.lstrip line)) 1); [|discriminate].
      eapply IH; [|exact H]. apply List.Forall_app. split; [exact Hall|].
      constructor; [|constructor]. simpl. eapply split_index_truthy. exact E0.
Qed.

Section LoaderMore.

Context {W : Type}.
Variable run : option string -> list string -> W -> gset string -> W * gset string * Proc.

Lemma listed_branch_truthy (dolt : Dolt.t) (s s1 : State W) current branches name :
  Dolt._get_branches run dolt s = (Ok (current, branches), s1) ->
  Py.mem name (map DoltBranch.name branches) = true ->
  Py.truthy name = true.
Proof.
  intros H Hmem. unfold Dolt._get_branches in H.
  apply bind_ok_inv in H as (output & s0 & _ & Hl).
  apply lift_ok_inv in Hl as [Hl _]. unfold Dolt.branches_of_output in Hl.
  destruct (Dolt.branches_loop output [] None) as [[brs act]|e] eqn:E; [|discriminate].
  destruct act; [|discriminate]. inversion Hl; subst.
  apply branches_loop_names_truthy in E; [|constructor].
  apply mem_In in Hmem. apply in_map_iff in Hmem as (b & <- & Hb).
  rewrite List.Forall_forall in E. now apply E.
Qed.

(** X26: a load to a branch other than the active one, without commit, is
    refused once the listing is read: no writer runs, no branch is made or
    checked out. *)
Theorem loader_refuses_uncommitted_cross_branch_write
    (writer_or_writers : Loaders.DoltTableWriter + list Loaders.DoltTableWriter)
    (message branch : string) (transaction_mode : option bool)
    (dolt : Dolt.t) (s s1 : State W) current branches :
  Dolt._get_branches run dolt s = (Ok (current, branches), s1) ->
  DoltBranch.name current <> branch ->
  Loaders.get_dolt_loader run writer_or_writers false message branch
                          transaction_mode dolt s
  = (Raised (ValueError
       "If writes are to another branch, and commit is not True, writes will be lost"),
     s1)
  /\ spawned s1 = spawned s ++ [["dolt"; "branch"; "--list"; "--verbose"]].
Proof.
  intros Hb Hne. split.
  - unfold Loaders.get_dolt_loader. rewrite branch0_get_branches.
    rewrite (bind_ok _ _ _ _ _ Hb). cbn beta iota.
    assert (E : String.eqb branch (DoltBranch.name current) = false).
    { apply String.eqb_neq. congruence. }
    now rewrite E.
  - eapply get_branches_spawned. exact Hb.
Qed.

(** X27: a load in transaction mode raises [NotImplementedError] only
    after the target branch was checked out: the call ends on the target
    branch, the checkout being its last process. *)
Theorem loader_transaction_mode_raises_after_checkout
    (writer_or_writers : Loaders.DoltTableWriter + list Loaders.DoltTableWriter)
    (message branch : string) (dolt : Dolt.t) (s s1 s2 : State W) current branches :
  Dolt._get_branches run dolt s = (Ok (current, branches), s1) ->
  DoltBranch.name current <> branch ->
  Py.mem branch (map DoltBranch.name branches) = true ->
  Dolt.checkout run dolt (Some branch) None false None s1 = (Ok tt, s2) ->
  Loaders.get_dolt_loader run writer_or_writers true message branch (Some true) dolt s
  = (Raised (NotImplementedError "transaction_mode is not yet implemented"), s2)
  /\ spawned s2
     = spawned s ++ [["dolt"; "branch"; "--list"; "--verbose"];
                     ["dolt"; "checkout"; branch]].
Proof.
  intros Hb Hne Hmem Hco. split.
  - unfold Loaders.get_dolt_loader. rewrite branch0_get_branches.
    rewrite (bind_ok _ _ _ _ _ Hb). cbn beta iota.
    assert (E : String.eqb branch (DoltBranch.name current) = false).
    { apply String.eqb_neq. congruence. }
    assert (E' : String.eqb (DoltBranch.name current) branch = false).
    { apply String.eqb_neq. congruence. }
    rewrite E, E', Hmem. cbn [negb andb].
    unfold bind at 1. unfold bind at 1. unfold ret at 1. rewrite Hco. reflexivity.
  - pose proof (listed_branch_truthy _ _ _ _ _ _ Hb Hmem) as Ht.
    apply (checkout_branch_spawned run _ _ _ _ _ Ht) in Hco.
    apply get_branches_spawned in Hb. rewrite Hco, Hb, <- app_assoc. reflexivity.
Qed.

(** X28: a load with commit on the active branch whose writers leave the
    working set clean adds and commits nothing: after the writers it spawns
    the status and the final listing only, logs a warning, and returns the
    branch. *)
Theorem loader_skips_commit_when_clean
    (writer_or_writers : Loaders.DoltTableWriter + list Loaders.DoltTableWriter)
    (message branch : string) (dolt : Dolt.t) (s s1 s2 s3 s4 : State W)
    current branches tables st current' branches' :
  Dolt._get_branches run dolt s = (Ok (current, branches), s1) ->
  DoltBranch.name current = branch ->
  map_m (fun writer : Loaders.DoltTableWriter => writer dolt)
        (to_list writer_or_writers) s1 = (Ok tables, s2) ->
  Dolt.status run dolt s2 = (Ok st, s3) ->
  DoltStatus.is_clean st = true ->
  Dolt._get_branches run dolt
    (mkState (world s3) (files s3) (spawned s3)
       (log s3 ++ [(WARNING, "No changes to dolt in:" ++ Py.nl ++ Dolt.repo_dir dolt)%string]))
  = (Ok (current', branches'), s4) ->
  DoltBranch.name current' = branch ->
  Loaders.get_dolt_loader run writer_or_writers true message branch None dolt s
  = (Ok branch, s4)
  /\ spawned s4
     = spawned s2 ++ [["dolt"; "status"]; ["dolt"; "branch"; "--list"; "--verbose"]].
Proof.
  intros Hb Hname Hw Hs Hclean Hb' Hname'. split.
  - unfold Loaders.get_dolt_loader. rewrite !branch0_get_branches.
    rewrite (bind_ok _ _ _ _ _ Hb). cbn beta iota.
    rewrite Hname. rewrite String.eqb_refl. cbn [negb andb default from_option].
    unfold bind at 1. unfold ret at 1.
    rewrite (bind_ok _ _ _ _ _ Hw).
    unfold bind at 1. unfold bind at 1. rewrite Hs. rewrite Hclean. cbn [negb].
    unfold logger. rewrite (bind_ok _ _ _ _ _ Hb'). cbn beta iota.
    rewrite Hname', String.eqb_refl. reflexivity.
  - apply status_spawned in Hs. apply get_branches_spawned in Hb'.
    cbn [spawned] in Hb'. rewrite Hb', Hs, <- app_assoc. reflexivity.
Qed.

End LoaderMore.

(** ** The further properties on the scripted engine *)

Lemma argument_checks_spawn_nothing_witness :
  let s := Scripted.init [] in
  (exists msg, Dolt.reset Scripted.run Scripted.repo (inl "t") true true s
               = (Raised (ValueError msg), s))
  /\ (exists msg, Dolt.checkout Scripted.run Scripted.repo (Some "feature")
                    (Some (inl "t")) false None s = (Raised (ValueError msg), s))
  /\ (exists msg, Dolt.diff Scripted.run Scripted.repo None None None true true false
                    false None None s = (Raised (ValueError msg), s))
  /\ (exists msg, Dolt.remote Scripted.run Scripted.repo false None None (Some true) s
                  = (Raised (ValueError msg), s))
  /\ (exists msg, Dolt.remote Scripted.run Scripted.repo true (Some "origin") None None s
                  = (Raised (ValueError msg), s))
  /\ (exists msg, Dolt.branch Scripted.run Scripted.repo None None None
                    true false false false s = (Raised (ValueError msg), s))
  /\ (exists msg, Dolt._config_helper Scripted.run false true None (Some "user.name")
                    (Some "Ann") false false true false s
                  = (Raised (ValueError msg), s))
  /\ (exists msg, Dolt.sql Scripted.run no_rows no_json Scripted.repo
                    (Some "select 1") (Some "xml") false None None false false None s
                  = (Raised (ValueError msg), s)).
Proof.
  intros s.
  destruct (argument_checks_spawn_nothing Scripted.run no_rows no_json Scripted.repo s)
    as (H1 & H2 & H3 & H4 & H5 & H6 & H7 & H8).
  repeat apply conj.
  - apply H1.
  - apply H2; reflexivity.
  - apply H3. simpl. lia.
  - apply H4. right. reflexivity.
  - apply H5. right. reflexivity.
  - apply H6. left. repeat split.
  - apply H7. right. right. left. split; reflexivity.
  - apply H8; [reflexivity | right; reflexivity].
Defined.

Lemma branch_returns_fresh_listing_witness :
  (exists s1,
     Dolt._get_branches Scripted.run Scripted.repo s1
     = (Ok (DoltBranch.mk "master" "abc",
            [DoltBranch.mk "master" "abc"; DoltBranch.mk "feature" "def"]),
        mkState [] ∅ [["dolt"; "branch"; "feature"];
                      ["dolt"; "branch"; "--list"; "--verbose"]] []))
  /\ last (spawned (mkState ([] : Scripted.script) ∅
                      [["dolt"; "branch"; "feature"];
                       ["dolt"; "branch"; "--list"; "--verbose"]] []))
     = Some ["dolt"; "branch"; "--list"; "--verbose"].
Proof.
  apply (branch_returns_fresh_listing Scripted.run Scripted.repo (Some "feature")
           None None false false false false
           (Scripted.init [Scripted.prints []; on_master])).
  reflexivity.
Defined.

Lemma remote_listing_one_per_line_witness :
  Forall2 remote_of_line
    (listed ["origin https://doltremoteapi.dolthub.com/org/repo"; "backup file:///srv/dolt";
             EmptyString])
    [DoltRemote.mk "origin" "https://doltremoteapi.dolthub.com/org/repo";
     DoltRemote.mk "backup" "file:///srv/dolt"].
Proof.
  apply (remote_listing_one_per_line Scripted.run Scripted.repo None None
           (Scripted.init [Scripted.prints
              ["origin https://doltremoteapi.dolthub.com/org/repo";
               "backup file:///srv/dolt"]])
           (mkState [] ∅ [["dolt"; "remote"; "--verbose"]] [])); reflexivity.
Defined.

Lemma creds_ls_raises_on_terminated_output_witness :
  fst (Dolt.creds_ls Scripted.run Scripted.repo
         (Scripted.init [Scripted.prints ["* 9fz2k1 first-key"; "  p0q8x3 second-key"]]))
  = Raised IndexError.
Proof.
  eapply (creds_ls_raises_on_terminated_output Scripted.run Scripted.repo
            (Scripted.init [Scripted.prints ["* 9fz2k1 first-key"; "  p0q8x3 second-key"]])).
  - reflexivity.
  - reflexivity.
  - right. exists ("* 9fz2k1 first-key" ++ Py.nl ++ "  p0q8x3 second-key")%string.
    reflexivity.
Defined.

Lemma creds_check_never_false_witness :
  true = true /\
  log (mkState ([] : Scripted.script) ∅ [["dolt"; "dolt"; "creds"; "check"]] []) = [] /\
  exists rest,
    spawned (mkState ([] : Scripted.script) ∅ [["dolt"; "dolt"; "creds"; "check"]] [])
    = [] ++ [["dolt"; "dolt"; "creds"; "check"] ++ rest].
Proof.
  apply (creds_check_never_false Scripted.run Scripted.repo None None
           (Scripted.init [Scripted.prints ["error: no credentials"]])).
  reflexivity.
Defined.

Lemma creds_use_never_rejects_witness :
  Dolt.creds_use Scripted.run Scripted.repo "nokey"
    (Scripted.init [Scripted.prints ["error: no such key"]])
  = (Ok true, mkState [] ∅ [["dolt"; "creds"; "use"; "nokey"]] []).
Proof.
  apply (creds_use_never_rejects Scripted.run Scripted.repo "nokey"
           (Scripted.init [Scripted.prints ["error: no such key"]]) _
           ("error: no such key" ++ Py.nl)%string).
  reflexivity.
Defined.

Lemma sql_list_saved_spawns_twice_witness :
  let r := Dolt.sql Scripted.run no_rows no_json Scripted.repo None None false None None
                    true false None
                    (Scripted.init [Scripted.prints ["q1"]; Scripted.prints ["q1"]]) in
  spawned (snd r) = [] ++ [["dolt"; "sql"; "--list-saved"]; ["dolt"; "sql"; "--list-saved"]]
  /\ (exists more,
        log (snd r)
        = [] ++ [(WARNING, "Must provide a value for result_format to get output back")]
          ++ more)
  /\ (forall v, fst r = Ok v -> v = Dolt.SqlNone).
Proof.
  apply (sql_list_saved_spawns_twice Scripted.run no_rows no_json Scripted.repo
           (Scripted.init [Scripted.prints ["q1"]; Scripted.prints ["q1"]])
           (mkState [Scripted.prints ["q1"]] ∅ [["dolt"; "sql"; "--list-saved"]] [])
           ["q1"; EmptyString]).
  reflexivity.
Defined.

Lemma status_tables_once_and_unstaged_witness :
  NoDup (dict_keys [("t", false)]) /\
  List.Forall (fun entry => snd entry = false) ([("t", false)] ++ [("u", false)]).
Proof.
  destruct (status_tables_once_and_unstaged
              ["On branch master"; "Changes not staged for commit:";
               "	modified:       t"; "Untracked files:"; "	new table:      u"]
              (DoltStatus.mk false [("t", false)] [("u", false)]) eq_refl)
    as (Hm & _ & H).
  split; [exact Hm|].
  apply List.Forall_forall. intros [table staged] Hin. cbn [snd].
  apply (H ltac:(intros line Hl; simpl in Hl;
                 repeat (destruct Hl as [<- | Hl]; [reflexivity|]); contradiction)
           table staged Hin).
Defined.

Lemma ls_tables_well_formed_witness :
  List.Forall table_well_formed
    [DoltTable.mk "t" (Some "q9fe3a") (Some 12%Z) false;
     DoltTable.mk "dolt_log" None None true].
Proof.
  apply (ls_tables_well_formed
           ["Tables in working set:"; "	 t  q9fe3a   12"; "System tables:"; "	 dolt_log"]).
  reflexivity.
Defined.

Lemma ls_system_header_first_gives_nothing_witness :
  Dolt.tables_of_output ["System tables:"; "	 dolt_log"; "	 dolt_history_t"] = Ok [].
Proof.
  apply ls_system_header_first_gives_nothing. reflexivity.
Defined.

Lemma merge_fast_forward_stops_witness :
  let s := Scripted.init
             [on_master; clean_status;
              Scripted.prints ["Updating abc..def"; "Fast-forward"]] in
  let s3 := mkState ([] : Scripted.script) ∅
              [["dolt"; "branch"; "--list"; "--verbose"]; ["dolt"; "status"];
               ["dolt"; "merge"; "feature"]] [] in
  Dolt.merge Scripted.run Scripted.repo "feature" "msg" false s = (Ok tt, s3)
  /\ spawned s3
     = spawned s ++ [["dolt"; "branch"; "--list"; "--verbose"]; ["dolt"; "status"];
                     "dolt" :: ["merge"] ++ ["feature"]].
Proof.
  intros s s3.
  eapply (merge_fast_forward_stops Scripted.run Scripted.repo "feature" "msg" false s);
    reflexivity.
Defined.

Lemma parse_dolt_log_table_third_parent_raises_witness :
  DoltCommit.parse_dolt_log_table
    [DoltCommit.log_row "C4" "C1" "ann" "ann@x.org" "2021-01-04" "octopus";
     DoltCommit.log_row "C4" "C2" "ann" "ann@x.org" "2021-01-04" "octopus";
     DoltCommit.log_row "C4" "C3" "ann" "ann@x.org" "2021-01-04" "octopus"]
  = (Raised (ValueError "Already has a merge parent set"), []).
Proof.
  apply parse_dolt_log_table_third_parent_raises. reflexivity.
Defined.

Lemma parse_dolt_log_table_parents_count_witness :
  (DoltCommit.is_merge (DoltCommit.mk "C3" "2021-01-03" "bob" "bob@x.org" "merge"
                          (DoltCommit.MergeParents "C1" "C2")) = true ->
   occurrences "C3"
     [DoltCommit.log_row "C2" "C1" "ann" "ann@x.org" "2021-01-02" "second";
      DoltCommit.log_row "C3" "C1" "bob" "bob@x.org" "2021-01-03" "merge";
      DoltCommit.log_row "C3" "C2" "bob" "bob@x.org" "2021-01-03" "merge"] = 2)
  /\
  (forall p,
     DoltCommit.parent_or_parents
       (DoltCommit.mk "C3" "2021-01-03" "bob" "bob@x.org" "merge"
          (DoltCommit.MergeParents "C1" "C2")) = DoltCommit.Parent p ->
     Py.truthy p = true ->
     occurrences "C3"
       [DoltCommit.log_row "C2" "C1" "ann" "ann@x.org" "2021-01-02" "second";
        DoltCommit.log_row "C3" "C1" "bob" "bob@x.org" "2021-01-03" "merge";
        DoltCommit.log_row "C3" "C2" "bob" "bob@x.org" "2021-01-03" "merge"] = 1).
Proof.
  eapply parse_dolt_log_table_parents_count; reflexivity.
Defined.

Lemma writers_ignore_valid_import_mode_witness :
  Write.write_rows Scripted.run Scripted.mktemp Scripted.repo "t" [[("id", 1)]]
                   (Some "replace") (Some ["id"]) false None None
  = Write.write_rows Scripted.run Scripted.mktemp Scripted.repo "t" [[("id", 1)]]
                     None (Some ["id"]) false None None.
Proof.
  destruct (writers_ignore_valid_import_mode Scripted.run Scripted.mktemp Scripted.repo
              "t" "replace" (Some ["id"]) false None None eq_refl) as (_ & _ & H & _).
  apply H.
Defined.

Lemma table_writers_ignore_valid_import_mode_witness :
  Loaders.get_df_table_writer Scripted.run Scripted.mktemp
      (fun (df : nat) (_ : option (list string)) => Ok df) "t" (ret 7) (Some ["id"])
      (Some "replace") None Scripted.repo (Scripted.init [ls_with_t; Scripted.prints []])
  = Loaders.get_df_table_writer Scripted.run Scripted.mktemp
      (fun (df : nat) (_ : option (list string)) => Ok df) "t" (ret 7) (Some ["id"])
      (Some "force_create") None Scripted.repo
      (Scripted.init [ls_with_t; Scripted.prints []]).
Proof.
  destruct (table_writers_ignore_valid_import_mode Scripted.run Scripted.mktemp
              "t" "replace" "force_create" (Some ["id"]) Scripted.repo
              (Scripted.init [ls_with_t; Scripted.prints []]) eq_refl eq_refl)
    as [_ H].
  apply H.
Defined.

Lemma branch_creator_asserts_and_ignores_refspec_witness :
  Loaders.get_branch_creator Scripted.run "feature" (Some "abc") Scripted.repo
    (Scripted.init [on_master])
  = (RaisedX (AssertionError "Branch feature already exists"),
     mkState [] ∅ [["dolt"; "branch"; "--list"; "--verbose"]] [])
  /\
  spawned (mkState ([] : Scripted.script) ∅
             [["dolt"; "branch"; "--list"; "--verbose"]; ["dolt"; "branch"; "topic"];
              ["dolt"; "branch"; "--list"; "--verbose"]] [])
  = [] ++ [["dolt"; "branch"; "--list"; "--verbose"]; ["dolt"; "branch"; "topic"];
           ["dolt"; "branch"; "--list"; "--verbose"]].
Proof.
  split.
  - destruct (branch_creator_asserts_and_ignores_refspec Scripted.run "feature"
                Scripted.repo (Scripted.init [on_master])
                (mkState [] ∅ [["dolt"; "branch"; "--list"; "--verbose"]] [])
                (DoltBranch.mk "master" "abc")
                [DoltBranch.mk "master" "abc"; DoltBranch.mk "feature" "def"] eq_refl)
      as (H & _ & _).
    apply H. reflexivity.
  - destruct (branch_creator_asserts_and_ignores_refspec Scripted.run "topic"
                Scripted.repo (Scripted.init [on_master; Scripted.prints []; on_master])
                (mkState [Scripted.prints []; on_master] ∅
                         [["dolt"; "branch"; "--list"; "--verbose"]] [])
                (DoltBranch.mk "master" "abc")
                [DoltBranch.mk "master" "abc"; DoltBranch.mk "feature" "def"] eq_refl)
      as (_ & H & _).
    apply (H eq_refl eq_refl None "topic"). reflexivity.
Defined.

Lemma clone_into_given_directory_raises_witness :
  (exists e, Dolt.clone Scripted.run "/home/ann" "dolthub/us-jails" (Some "jails")
                        None None (Scripted.init [Scripted.prints []])
             = (RaisedX e, Scripted.init [Scripted.prints []]))
  /\
  (exists e, Dolt.read_tables Scripted.run "/home/ann" "dolthub/us-jails" "master"
                              None (Some "jails") (Scripted.init [Scripted.prints []])
             = (RaisedX e, Scripted.init [Scripted.prints []])).
Proof.
  destruct (clone_into_given_directory_raises Scripted.run "/home/ann" "dolthub/us-jails"
              "jails" (Scripted.init [Scripted.prints []]) eq_refl) as [H1 H2].
  split; [apply H1 | apply H2].
Defined.

Lemma new_dir_helper_makes_directory_witness :
  exists name,
    last (Py.split_on "/" "dolthub/us-jails") = Some name /\
    let d := Py.path_join "/home/ann" name in
    Dolt._new_dir_helper "/home/ann" None (Some "dolthub/us-jails")
                         (Scripted.init ([] : Scripted.script))
    = if bool_decide (d ∈ files (Scripted.init ([] : Scripted.script)))
      then (RaisedX (DoltDirectoryException ("Cannot create new directory " ++ d)),
            Scripted.init [])
      else (OkX (Some d),
            mkState (world (Scripted.init [])) ({[d]} ∪ files (Scripted.init []))
                    (spawned (Scripted.init [])) (log (Scripted.init []))).
Proof.
  apply (new_dir_helper_makes_directory "/home/ann" "dolthub/us-jails" None
           (Scripted.init ([] : Scripted.script))); reflexivity.
Defined.

Lemma context_enter_never_clones_witness :
  let self := Wrappers.mkContext (Some "dolthub/us-jails") "/tmp/jails" "origin" None None in
  let s := Scripted.init [Scripted.prints []] in
  fst (Wrappers.__enter__ Scripted.run "/home/ann" self s)
  = RaisedX (Core (ValueError "/tmp/jails is not a valid Dolt repository"))
  /\ snd (Wrappers.__enter__ Scripted.run "/home/ann" self s) = s.
Proof.
  intros self s.
  destruct (context_enter_never_clones Scripted.run "/home/ann" self s _ _
              (surjective_pairing (Wrappers.__enter__ Scripted.run "/home/ann" self s)))
    as (H & _ & _).
  apply H. apply not_elem_of_empty.
Defined.

Lemma loader_refuses_uncommitted_cross_branch_write_witness :
  Loaders.get_dolt_loader Scripted.run (inl quiet_writer) false "load t" "feature" None
                          Scripted.repo (Scripted.init [on_master])
  = (Raised (ValueError
       "If writes are to another branch, and commit is not True, writes will be lost"),
     mkState [] ∅ [["dolt"; "branch"; "--list"; "--verbose"]] [])
  /\ spawned (mkState ([] : Scripted.script) ∅
                [["dolt"; "branch"; "--list"; "--verbose"]] [])
     = spawned (Scripted.init [on_master]) ++ [["dolt"; "branch"; "--list"; "--verbose"]].
Proof.
  apply (loader_refuses_uncommitted_cross_branch_write Scripted.run (inl quiet_writer)
           "load t" "feature" None Scripted.repo (Scripted.init [on_master]) _
           (DoltBranch.mk "master" "abc")
           [DoltBranch.mk "master" "abc"; DoltBranch.mk "feature" "def"]).
  - reflexivity.
  - discriminate.
Defined.

Lemma loader_transaction_mode_raises_after_checkout_witness :
  let s := Scripted.init [on_master; Scripted.prints ["Switched to branch 'feature'"]] in
  let s2 := mkState ([] : Scripted.script) ∅
              [["dolt"; "branch"; "--list"; "--verbose"]; ["dolt"; "checkout"; "feature"]]
              [] in
  Loaders.get_dolt_loader Scripted.run (inl quiet_writer) true "load t" "feature"
                          (Some true) Scripted.repo s
  = (Raised (NotImplementedError "transaction_mode is not yet implemented"), s2)
  /\ spawned s2
     = spawned s ++ [["dolt"; "branch"; "--list"; "--verbose"];
                     ["dolt"; "checkout"; "feature"]].
Proof.
  intros s s2.
  apply (loader_transaction_mode_raises_after_checkout Scripted.run (inl quiet_writer)
           "load t" "feature" Scripted.repo s
           (mkState [Scripted.prints ["Switched to branch 'feature'"]] ∅
                    [["dolt"; "branch"; "--list"; "--verbose"]] [])
           s2 (DoltBranch.mk "master" "abc")
           [DoltBranch.mk "master" "abc"; DoltBranch.mk "feature" "def"]).
  - reflexivity.
  - discriminate.
  - reflexivity.
  - reflexivity.
Defined.

Lemma loader_skips_commit_when_clean_witness :
  let s := Scripted.init [on_master; clean_status; on_master] in
  let s4 := mkState ([] : Scripted.script) ∅
              [["dolt"; "branch"; "--list"; "--verbose"]; ["dolt"; "status"];
               ["dolt"; "branch"; "--list"; "--verbose"]]
              [(WARNING, "No changes to dolt in:" ++ Py.nl ++ "/repo")%string] in
  Loaders.get_dolt_loader Scripted.run (inl quiet_writer) true "load t" "master" None
                          Scripted.repo s
  = (Ok "master", s4)
  /\ spawned s4
     = [["dolt"; "branch"; "--list"; "--verbose"]]
       ++ [["dolt"; "status"]; ["dolt"; "branch"; "--list"; "--verbose"]].
Proof.
  intros s s4.
  eapply (loader_skips_commit_when_clean Scripted.run (inl quiet_writer) "load t"
            "master" Scripted.repo s
            (mkState [clean_status; on_master] ∅
                     [["dolt"; "branch"; "--list"; "--verbose"]] [])
            (mkState [clean_status; on_master] ∅
                     [["dolt"; "branch"; "--list"; "--verbose"]] [])
            (mkState [on_master] ∅
                     [["dolt"; "branch"; "--list"; "--verbose"]; ["dolt"; "status"]] [])
            s4); reflexivity.
Defined.
